(** * The chapter-12 [Vector] of the Fluent Python notebooks, embedded in Rocq

    The notebook [chapter-12/notebook.ipynb] builds an immutable sequence of
    doubles in five takes: [Vector1], [Vector2], [vector3]/[Vector3],
    [Vector4] and the final, self-contained [Vector].  This file embeds the
    classes as functions over the instance state and proves what the
    specification says about them, and then what else the code of the
    five takes shows: how the two comparisons relate, what attribute reads
    and writes do on each class, how slices compose and fail, the decoding
    of bytes, and the edges of [angle], [format] and [abs].

    Conventions of the embedding:
    - a Python [float] is a binary64 value: Rocq's primitive [float];
    - a Python [int] is a [Z]; a [str] is a [string] of ASCII characters;
    - an expression that may raise returns an [outcome];
    - [math.atan2], the summation inside [math.hypot], and [hash], [repr]
      and [format] on floats belong to the interpreter and its C library:
      they are the fields of the class [Builtins], and every theorem holds
      for every instance of it.  [reference_builtins] is an instance that
      computes, for running the definitions on concrete inputs. *)

From Stdlib Require Import ZArith Floats String Ascii List Lia Bool.
From stdpp Require Import gmap strings list pretty.
Import ListNotations.

#[local] Set Warnings "-register-all,-inexact-float".
Local Open Scope string_scope.
Local Open Scope Z_scope.

(** ** Exceptions and the error monad *)

(** The exception classes the modelled code can raise.  Only the messages
    that the notebook builds itself ([AttributeError]) are kept. *)
Inductive exn : Type :=
  | TypeError
  | ValueError
  | IndexError
  | OverflowError
  | KeyError
  | AttributeError (msg : string).

Inductive outcome (A : Type) : Type :=
  | Ok (a : A)
  | Raise (e : exn).
Arguments Ok {A} a.
Arguments Raise {A} e.

Definition bind {A B} (c : outcome A) (k : A -> outcome B) : outcome B :=
  match c with
  | Ok a => k a
  | Raise e => Raise e
  end.

Notation "'let!' x ':=' c 'in' k" := (bind c (fun x => k))
  (at level 10, x name, c at level 100, k at level 200).
Notation "'let!' ' p ':=' c 'in' k" :=
  (bind c (fun x => match x with p => k end))
  (at level 10, p strict pattern, c at level 100, k at level 200).

(** ** Python objects *)

(** The classes of the notebook, in definition order.  [Vector2] derives
    from [Vector1]; [vector3] and [Vector3] from [Vector2]; [Vector4] from
    [Vector3]; the final [Vector] stands alone. *)
Inductive vclass : Type :=
  | Vector1_t | Vector2_t | vector3_t | Vector3_t | Vector4_t | Vector_t.

(** [cls.__name__]. *)
Definition __name__ (cls : vclass) : string :=
  match cls with
  | Vector1_t => "Vector1"
  | Vector2_t => "Vector2"
  | vector3_t => "vector3"
  | Vector3_t => "Vector3"
  | Vector4_t => "Vector4"
  | Vector_t => "Vector"
  end.

(** The values that flow through the modelled methods.  A Vector seen as a
    value is its class and its buffer; [PyMethod owner name] is the method
    [name] of class [owner] bound to an instance. *)
Inductive pyobj : Type :=
  | PyNone
  | PyBool (b : bool)
  | PyInt (z : Z)
  | PyFloat (x : float)
  | PyStr (s : string)
  | PyTuple (items : list pyobj)
  | PyList (items : list pyobj)
  | PySlice (start stop step : pyobj)
  | PyArray (items : list float)
  | PyVector (cls : vclass) (components : list float)
  | PyMethod (owner : vclass) (name : string).

(** An instance: its class, the [array('d')] bound to [_components] by
    [__init__], and the other attributes bound on the instance. *)
Record instance : Type := mk_instance {
  ob_type : vclass;
  _components : list float;
  __dict__ : gmap string pyobj
}.

(** [typecode = 'd'], a class attribute of [Vector1] and of [Vector]. *)
Definition typecode : ascii := "d"%char.

(** [__init__]: [self._components = array(self.typecode, components)], for
    components that are doubles already. *)
Definition __init__ (cls : vclass) (components : list float) : instance :=
  {| ob_type := cls; _components := components; __dict__ := ∅ |}.

Definition as_object (self : instance) : pyobj :=
  PyVector (ob_type self) (_components self).

(** ** Builtins on objects *)

(** Which classes define [__len__] (and [__getitem__]): [Vector2] and its
    subclasses, and [Vector]. *)
Definition has_len (cls : vclass) : bool :=
  match cls with
  | Vector1_t => false
  | _ => true
  end.

Definition chars (s : string) : list ascii := list_ascii_of_string s.

(** [len(o)]. *)
Definition py_len (o : pyobj) : outcome Z :=
  match o with
  | PyStr s => Ok (Z.of_nat (length (chars s)))
  | PyTuple items | PyList items => Ok (Z.of_nat (length items))
  | PyArray items => Ok (Z.of_nat (length items))
  | PyVector cls cs =>
      if has_len cls then Ok (Z.of_nat (length cs)) else Raise TypeError
  | PyNone | PyBool _ | PyInt _ | PyFloat _ | PySlice _ _ _ | PyMethod _ _ =>
      Raise TypeError
  end.

(** [iter(o)], as the list of the items the iterator yields.  Every class
    of the notebook inherits or defines [__iter__]. *)
Definition py_iter (o : pyobj) : outcome (list pyobj) :=
  match o with
  | PyStr s => Ok (map (fun c => PyStr (String c EmptyString)) (chars s))
  | PyTuple items | PyList items => Ok items
  | PyArray items => Ok (map PyFloat items)
  | PyVector _ cs => Ok (map PyFloat cs)
  | PyNone | PyBool _ | PyInt _ | PyFloat _ | PySlice _ _ _ | PyMethod _ _ =>
      Raise TypeError
  end.

(** ** Comparing a float with an object *)

(** [x == z] for a float and an int: the comparison is exact, the int is not
    rounded to a double first. *)
Definition float_eq_int (x : float) (z : Z) : bool :=
  match Prim2SF x with
  | S754_zero _ => z =? 0
  | S754_finite s m e =>
      let mz := if s then Z.neg m else Z.pos m in
      if 0 <=? e then mz * 2 ^ e =? z else mz =? z * 2 ^ (- e)
  | S754_infinity _ | S754_nan => false
  end.

(** [x == o] for a float [x].  [float.__eq__] answers for floats and ints;
    for the rest it is [NotImplemented] and the reflected [o.__eq__(x)]
    runs: the builtin containers answer [NotImplemented] too, which makes
    the comparison false, and the [__eq__] of the notebook's classes calls
    [tuple(x)] or [len(x)] on the float, which raises. *)
Definition float_eq (x : float) (o : pyobj) : outcome bool :=
  match o with
  | PyFloat y => Ok (PrimFloat.eqb x y)
  | PyInt z => Ok (float_eq_int x z)
  | PyBool b => Ok (float_eq_int x (Z.b2z b))
  | PyVector _ _ => Raise TypeError
  | PyNone | PyStr _ | PyTuple _ | PyList _ | PySlice _ _ _ | PyArray _
  | PyMethod _ _ => Ok false
  end.

(** [x < z] for a float and an int, exact as well. *)
Definition float_lt_int (x : float) (z : Z) : bool :=
  match Prim2SF x with
  | S754_zero _ => 0 <? z
  | S754_finite s m e =>
      let mz := if s then Z.neg m else Z.pos m in
      if 0 <=? e then mz * 2 ^ e <? z else mz <? z * 2 ^ (- e)
  | S754_infinity s => s
  | S754_nan => false
  end.

(** [float(z)] of an int: the nearest double, ties to even; an int too
    large for a double is an [OverflowError]. *)
Definition int_to_double (z : Z) : outcome float :=
  match binary_normalize prec emax z 0 false with
  | S754_infinity _ => Raise OverflowError
  | x => Ok (SF2Prim x)
  end.

(** A number passed where C code wants a double. *)
Definition float_arg (o : pyobj) : outcome float :=
  match o with
  | PyFloat x => Ok x
  | PyInt z => int_to_double z
  | PyBool b => int_to_double (Z.b2z b)
  | PyNone | PyStr _ | PyTuple _ | PyList _ | PySlice _ _ _ | PyArray _
  | PyVector _ _ | PyMethod _ _ => Raise TypeError
  end.

(** [all(a == b for a, b in zip(xs, ys))]: [zip] stops at the shorter
    input, [all] at the first false comparison. *)
Fixpoint all_eq_zip (xs : list float) (ys : list pyobj) : outcome bool :=
  match xs, ys with
  | x :: xs', y :: ys' =>
      let! b := float_eq x y in
      if b then all_eq_zip xs' ys' else Ok false
  | _, _ => Ok true
  end.

(** ** Indexes and slices *)

(** [operator.index(o)]: the object's [__index__], which only integers (and
    [bool], a subclass of [int]) have among the modelled values. *)
Definition operator_index (o : pyobj) : outcome Z :=
  match o with
  | PyInt z => Ok z
  | PyBool b => Ok (Z.b2z b)
  | PyNone | PyFloat _ | PyStr _ | PyTuple _ | PyList _ | PySlice _ _ _
  | PyArray _ | PyVector _ _ | PyMethod _ _ => Raise TypeError
  end.

(** A member of a slice object: [None] or an index. *)
Definition slice_member (o : pyobj) : outcome (option Z) :=
  match o with
  | PyNone => Ok None
  | _ => let! z := operator_index o in Ok (Some z)
  end.

(** Reading a slice object: the step first (a zero step is a [ValueError]),
    then the start, then the stop. *)
Definition slice_unpack (start stop step : pyobj)
  : outcome (option Z * option Z * Z) :=
  let! k := slice_member step in
  let k := default 1 k in
  if k =? 0 then Raise ValueError
  else
    let! i := slice_member start in
    let! j := slice_member stop in
    Ok (i, j, k).

(** [slice(start, stop, step).indices(length)]: negative bounds count from
    the end, bounds past an end are clipped to it, a missing bound is the
    end the step walks from or towards. *)
Definition slice_indices (start stop : option Z) (step length : Z) : Z * Z :=
  let lower := if step <? 0 then -1 else 0 in
  let upper := if step <? 0 then length - 1 else length in
  let clip (i : Z) :=
    if i <? 0 then Z.max (i + length) lower else Z.min i upper in
  (match start with
   | None => if step <? 0 then upper else lower
   | Some i => clip i
   end,
   match stop with
   | None => if step <? 0 then lower else upper
   | Some j => clip j
   end).

(** The number of items of the normalized slice, [len(range(start, stop,
    step))]. *)
Definition slice_length (start stop step : Z) : Z :=
  if step <? 0 then
    if stop <? start then (start - stop - 1) / (- step) + 1 else 0
  else
    if start <? stop then (stop - start - 1) / step + 1 else 0.

(** [items[i]] of a C buffer, for an index already known to be in range. *)
Definition item_at {A} (items : list A) (i : Z) : option A :=
  if i <? 0 then None else items !! Z.to_nat i.

(** The copy loop of a slice: [n] items from [cur] on, [step] apart. *)
Fixpoint copy_stride {A} (items : list A) (cur step : Z) (n : nat) : list A :=
  match n with
  | O => []
  | S n' =>
      match item_at items cur with
      | Some x => x :: copy_stride items (cur + step) step n'
      | None => []
      end
  end.

(** [items[start:stop:step]] on a builtin sequence. *)
Definition seq_slice {A} (items : list A) (start stop : option Z) (step : Z)
  : list A :=
  let length := Z.of_nat (length items) in
  let '(i, j) := slice_indices start stop step length in
  copy_stride items i step (Z.to_nat (slice_length i j step)).

(** [items[i]] for an int: a negative index counts from the end. *)
Definition seq_item {A} (items : list A) (i : Z) : outcome A :=
  let length := Z.of_nat (length items) in
  let i := if i <? 0 then i + length else i in
  match item_at items i with
  | Some x => Ok x
  | None => Raise IndexError
  end.

(** [a[start:stop:step]] on an [array('d')]. *)
Definition array_slice (a : list float) (start stop step : pyobj)
  : outcome (list float) :=
  let! '(i, j, k) := slice_unpack start stop step in
  Ok (seq_slice a i j k).

(** [cls(components)] for a class of the notebook and an iterable of
    doubles: [__init__] copies them into the array of the new instance. *)
Definition construct (cls : vclass) (components : list float) : pyobj :=
  as_object (__init__ cls components).

(** A generator consumed to its end: the items in order, or the first
    exception one of them raises. *)
Fixpoint consume {A} (gen : list (outcome A)) : outcome (list A) :=
  match gen with
  | [] => Ok []
  | c :: gen' =>
      let! x := c in
      let! xs := consume gen' in
      Ok (x :: xs)
  end.

(** The arguments of a call [f( *o)] that wants doubles: the items of [o],
    each converted. *)
Definition unpack_floats (o : pyobj) : outcome (list float) :=
  let! items := py_iter o in
  consume (map float_arg items).

(** [array('d', o)] for an iterable of numbers. *)
Definition array_d (o : pyobj) : outcome (list float) :=
  match o with
  | PyStr _ => Raise TypeError
  | _ => unpack_floats o
  end.

(** [itertools.islice(items, stop)]: the first [stop] items. *)
Definition islice {A} (items : list A) (stop : Z) : list A :=
  take (Z.to_nat stop) items.

(** [range(lo, hi)]. *)
Definition py_range (lo hi : Z) : list Z :=
  map (fun i => lo + Z.of_nat i) (seq 0 (Z.to_nat (hi - lo))).

(** [functools.reduce(function, iterable, initializer)]. *)
Fixpoint functools_reduce {A B} (function : A -> B -> A) (iterable : list B)
  (initializer : A) : A :=
  match iterable with
  | [] => initializer
  | x :: iterable' => functools_reduce function iterable' (function initializer x)
  end.

(** ** Strings *)

Definition str (cs : list ascii) : string := string_of_list_ascii cs.

(** [len(s)]. *)
Definition str_len (s : string) : Z := Z.of_nat (length (chars s)).

(** [s.find(sub)]: the lowest index where [sub] starts, or [-1]. *)
Definition str_find (s sub : string) : Z :=
  match String.index 0 sub s with
  | Some i => Z.of_nat i
  | None => -1
  end.

(** [s[start:stop]]. *)
Definition str_slice (s : string) (start stop : option Z) : string :=
  str (seq_slice (chars s) start stop 1).

(** [s.endswith(suffix)]. *)
Definition str_endswith (s suffix : string) : bool :=
  let n := str_len s in
  let m := str_len suffix in
  (m <=? n) && String.eqb (str_slice s (Some (n - m)) None) suffix.

(** [sep.join(pieces)]. *)
Definition str_join (sep : string) (pieces : list string) : string :=
  String.concat sep pieces.

(** [template.format(arg)] for a template whose only replacement field is
    one ["{}"]. *)
Fixpoint str_format (template arg : string) : string :=
  match template with
  | String "{" (String "}" rest) => arg +:+ rest
  | String c rest => String c (str_format rest arg)
  | EmptyString => EmptyString
  end.

Definition dquote : ascii := ascii_of_nat 34.

Definition hex_digit (n : Z) : ascii :=
  ascii_of_nat (Z.to_nat (if n <? 10 then 48 + n else 87 + n)).

(** [repr(s)] of a [str]: single quotes unless the text has a single quote
    and no double quote; the quote, the backslash and the characters that
    do not print are escaped. *)
Definition str_repr (s : string) : string :=
  let has c := existsb (Ascii.eqb c) (chars s) in
  let quote := if has "'"%char && negb (has dquote) then dquote else "'"%char in
  let escape (c : ascii) : list ascii :=
    let n := Z.of_nat (nat_of_ascii c) in
    if Ascii.eqb c quote || Ascii.eqb c "\"%char then ["\"%char; c]
    else if n =? 9 then ["\"; "t"]%char
    else if n =? 10 then ["\"; "n"]%char
    else if n =? 13 then ["\"; "r"]%char
    else if (n <? 32) || (n =? 127) then
      ["\"%char; "x"%char; hex_digit (n / 16); hex_digit (n mod 16)]
    else [c] in
  str (quote :: flat_map escape (chars s) ++ [quote])%list.

(** A text cut before the first [c]. *)
Fixpoint cut_at (c : ascii) (text : list ascii) : list ascii * list ascii :=
  match text with
  | [] => ([], [])
  | x :: text' =>
      if Ascii.eqb x c then ([], text)
      else let '(before, rest) := cut_at c text' in (x :: before, rest)
  end.

(** The text of the replacement field [name] or [name!r], looked up in the
    keyword arguments. *)
Definition replacement (field : list ascii) (kwargs : list (string * string))
  : outcome string :=
  let '(name, conversion) := cut_at "!" field in
  match List.find (fun kv => String.eqb kv.1 (str name)) kwargs with
  | None => Raise KeyError
  | Some (_, value) =>
      match conversion with
      | [] => Ok value
      | ["!"; "r"]%char => Ok (str_repr value)
      | _ => Raise ValueError
      end
  end.

(** [template.format( **kwargs)] for string values: [field] holds the text
    read since an opening brace.  (Doubled braces, which escape a brace,
    are not modelled.) *)
Fixpoint format_fields (template : list ascii) (field : option (list ascii))
  (kwargs : list (string * string)) : outcome string :=
  match template, field with
  | [], None => Ok EmptyString
  | [], Some _ => Raise ValueError
  | c :: template', None =>
      if Ascii.eqb c "{" then format_fields template' (Some []) kwargs
      else if Ascii.eqb c "}" then Raise ValueError
      else
        let! rest := format_fields template' None kwargs in
        Ok (String c rest)
  | c :: template', Some read =>
      if Ascii.eqb c "}" then
        let! text := replacement read kwargs in
        let! rest := format_fields template' None kwargs in
        Ok (text +:+ rest)
      else format_fields template' (Some (read ++ [c])%list) kwargs
  end.

Definition str_format_kw (template : string) (kwargs : list (string * string))
  : outcome string :=
  format_fields (chars template) None kwargs.

Definition is_ascii_lower (c : ascii) : bool :=
  let n := Z.of_nat (nat_of_ascii c) in (97 <=? n) && (n <=? 122).

Definition is_ascii_upper (c : ascii) : bool :=
  let n := Z.of_nat (nat_of_ascii c) in (65 <=? n) && (n <=? 90).

(** [s.islower()]: no cased character is uppercase and one at least is
    lowercase. *)
Definition str_islower (s : string) : bool :=
  forallb (fun c => negb (is_ascii_upper c)) (chars s)
  && existsb is_ascii_lower (chars s).

(** ** The builtins on floats

    What the interpreter and the C library compute on doubles, and the
    byte order of the platform. *)
Inductive byteorder : Type := little | big.

Class Builtins : Type := {
  (** the last step of [math.hypot]: the Euclidean norm of [vec], two or
      more magnitudes none of which is a NaN, whose largest, [max], is
      finite and not zero; CPython sums the squares of the scaled
      magnitudes with compensation *)
  norm_scaled : list float -> float -> float;
  (** [math.atan2(y, x)] *)
  math_atan2 : float -> float -> float;
  (** [hash(x)] of a float that is not a NaN: a function of the value *)
  float_hash : float -> Z;
  (** [repr(x)] of a float *)
  float_repr : float -> string;
  (** [format(x, format_spec)] of a float; a [ValueError] for a spec that
      [float.__format__] rejects *)
  float_format : float -> string -> outcome string;
  (** [sys.byteorder] *)
  sys_byteorder : byteorder
}.

(** [hash(x)] of a float object.  Since Python 3.10 the hash of a NaN is
    the hash of the identity of the object, [id_hash] here; the hash of any
    other float depends on its value alone. *)
Definition float_object_hash `{Builtins} (x : float) (id_hash : Z) : Z :=
  if PrimFloat.is_nan x then id_hash else float_hash x.

(** [vector_norm] of CPython's [math] module, up to the summation: an
    infinite magnitude wins over a NaN, a NaN over the rest, and zero or a
    single magnitude needs no arithmetic. *)
Definition vector_norm `{Builtins} (vec : list float) (max : float)
  (found_nan : bool) : float :=
  if PrimFloat.is_infinity max then max
  else if found_nan then nan
  else if (max =? 0)%float || (Z.of_nat (length vec) <=? 1) then max
  else norm_scaled vec max.

(** The largest of [max] and the magnitudes, as the loop of [math.hypot]
    finds it: [if (x > max) max = x]. *)
Definition largest (vec : list float) (max : float) : float :=
  fold_left (fun max x => if (max <? x)%float then x else max) vec max.

(** [math.hypot] on unpacked coordinates: the magnitudes, the largest of
    them and whether one is a NaN, then [vector_norm]. *)
Definition math_hypot `{Builtins} (coordinates : list float) : float :=
  let vec := map PrimFloat.abs coordinates in
  let found_nan := existsb PrimFloat.is_nan vec in
  let max := largest vec 0%float in
  vector_norm vec max found_nan.

(** [math.pi]. *)
Definition math_pi : float := 0x1.921fb54442d18p+1%float.

(** [bool(x)] of a float: [x != 0.0]. *)
Definition float_bool (x : float) : bool := negb (PrimFloat.eqb x 0%float).

(** ** The bytes of a double *)

(** The IEEE 754 binary64 encoding: sign, 11 bits of biased exponent, 52
    bits of fraction.  The doubles of this file have one NaN, written here
    as the quiet NaN [7ff8000000000000]; the program copies the 64 bits of
    whatever NaN it holds, sign and payload included, so what is proved
    about bytes is proved for components that are not NaNs. *)
Definition bits_of_float (x : float) : Z :=
  match Prim2SF x with
  | S754_zero s => Z.b2z s * 2 ^ 63
  | S754_infinity s => Z.b2z s * 2 ^ 63 + 2047 * 2 ^ 52
  | S754_nan => 2047 * 2 ^ 52 + 2 ^ 51
  | S754_finite s m e =>
      Z.b2z s * 2 ^ 63 +
      (if Z.pos m <? 2 ^ 52 then Z.pos m
       else (e + 1075) * 2 ^ 52 + (Z.pos m - 2 ^ 52))
  end.

Definition float_of_bits (b : Z) : float :=
  let s := 2 ^ 63 <=? b in
  let ex := (b / 2 ^ 52) mod 2 ^ 11 in
  let frac := b mod 2 ^ 52 in
  SF2Prim
    (if ex =? 0 then
       match frac with
       | Z.pos m => S754_finite s m (-1074)
       | _ => S754_zero s
       end
     else if ex =? 2047 then
       if frac =? 0 then S754_infinity s else S754_nan
     else
       match frac + 2 ^ 52 with
       | Z.pos m => S754_finite s m (ex - 1075)
       | _ => S754_nan
       end).

Definition byte_of_Z (z : Z) : Byte.byte :=
  default Byte.x00 (Byte.of_N (Z.to_N z)).

Definition Z_of_byte (b : Byte.byte) : Z := Z.of_N (Byte.to_N b).

(** [n] bytes of [v], least significant first. *)
Fixpoint le_bytes (n : nat) (v : Z) : list Byte.byte :=
  match n with
  | O => []
  | S n' => byte_of_Z (v mod 256) :: le_bytes n' (v / 256)
  end.

Fixpoint le_value (bs : list Byte.byte) : Z :=
  match bs with
  | [] => 0
  | b :: bs' => Z_of_byte b + 256 * le_value bs'
  end.

Definition native (order : byteorder) (bs : list Byte.byte) : list Byte.byte :=
  match order with
  | little => bs
  | big => rev bs
  end.

(** The eight bytes of an item of an [array('d')], in native order. *)
Definition double_bytes (order : byteorder) (x : float) : list Byte.byte :=
  native order (le_bytes 8 (bits_of_float x)).

Definition double_of_bytes (order : byteorder) (bs : list Byte.byte) : float :=
  float_of_bits (le_value (native order bs)).

(** [bytes(a)] of an [array('d')]: the buffer, item after item. *)
Definition array_tobytes (order : byteorder) (a : list float) : list Byte.byte :=
  flat_map (double_bytes order) a.

(** The items of [memoryview(octets).cast('d')], for a buffer whose length
    is a multiple of eight. *)
Fixpoint unpack_doubles (order : byteorder) (octets : list Byte.byte)
  : list float :=
  match octets with
  | b0 :: b1 :: b2 :: b3 :: b4 :: b5 :: b6 :: b7 :: rest =>
      double_of_bytes order [b0; b1; b2; b3; b4; b5; b6; b7]
      :: unpack_doubles order rest
  | _ => []
  end.

(** [memoryview(octets).cast('d')]: a [TypeError] unless the length is a
    multiple of the item size. *)
Definition memoryview_cast_d (order : byteorder) (octets : list Byte.byte)
  : outcome (list float) :=
  if Z.of_nat (length octets) mod 8 =? 0 then Ok (unpack_doubles order octets)
  else Raise TypeError.

(** ** [reprlib]: the abbreviated [repr] of the standard library *)
Module reprlib.

Definition maxlevel : Z := 6.
Definition maxarray : Z := 5.
Definition maxother : Z := 30.
Definition fillvalue : string := "...".

(** [Repr.repr_instance], given [s = builtins.repr(x)]: a text longer
    than [maxother] keeps its two ends around the fill value. *)
Definition repr_instance (s : string) : string :=
  if maxother <? str_len s then
    let i := Z.max 0 ((maxother - 3) / 2) in
    let j := Z.max 0 (maxother - 3 - i) in
    str_slice s None (Some i) +:+ fillvalue
      +:+ str_slice s (Some (str_len s - j)) None
  else s.

Section WithBuiltins.
Context `{Builtins}.

(** [Repr.repr1] on a float: there is no [repr_float], the object is
    shown by [repr_instance]. *)
Definition repr1_float (x : float) (level : Z) : string :=
  repr_instance (float_repr x).

(** [Repr._repr_iterable] on the items of an array. *)
Definition _repr_iterable (x : list float) (level : Z)
  (left right : string) (maxiter : Z) : string :=
  let n := Z.of_nat (length x) in
  let s :=
    if (level <=? 0) && negb (n =? 0) then fillvalue
    else
      let newlevel := level - 1 in
      let pieces :=
        map (fun elem => repr1_float elem newlevel) (islice x maxiter) in
      let pieces := if maxiter <? n then (pieces ++ [fillvalue])%list else pieces in
      str_join ", " pieces in
  left +:+ s +:+ right.

(** [Repr.repr_array]. *)
Definition repr_array (x : list float) (level : Z) : string :=
  match x with
  | [] => "array('" +:+ String typecode "')"
  | _ =>
      let header := "array('" +:+ String typecode "', [" in
      _repr_iterable x level header "])" maxarray
  end.

(** [reprlib.repr(x)] for an [array('d')]. *)
Definition repr (x : list float) : string := repr_array x maxlevel.

End WithBuiltins.

End reprlib.

(** ** Attribute lookup on the classes *)

(** [__match_args__ = ('x', 'y', 'z', 't')], in [vector3], [Vector3] (and
    by inheritance [Vector4]) and [Vector]. *)
Definition __match_args__ : list string := ["x"; "y"; "z"; "t"].

(** [items.index(x)] on a tuple of strings. *)
Fixpoint tuple_index (items : list string) (x : string) : outcome Z :=
  match items with
  | [] => Raise ValueError
  | y :: items' =>
      if String.eqb y x then Ok 0
      else let! i := tuple_index items' x in Ok (i + 1)
  end.

(** [x in items] on a tuple of strings. *)
Definition tuple_contains (items : list string) (x : string) : bool :=
  existsb (String.eqb x) items.

(** The names each class body binds. *)
Definition class_body (cls : vclass) : list string :=
  match cls with
  | Vector1_t =>
      ["typecode"; "__init__"; "__iter__"; "__repr__"; "__str__"; "__bytes__";
       "__eq__"; "__abs__"; "__bool__"; "frombytes"]
  | Vector2_t => ["__len__"; "__getitem__"]
  | vector3_t => ["__match_args__"; "__getattr__"]
  | Vector3_t => ["__match_args__"; "__getattr__"; "__setattr__"]
  | Vector4_t => ["__eq__"; "__hash__"]
  | Vector_t =>
      ["typecode"; "__init__"; "__iter__"; "__repr__"; "__str__"; "__bytes__";
       "__eq__"; "__hash__"; "__abs__"; "__bool__"; "__len__"; "__getitem__";
       "__match_args__"; "__getattr__"; "angle"; "angles"; "__format__";
       "frombytes"]
  end.

(** The method resolution order, the class first ([object] left out). *)
Definition mro (cls : vclass) : list vclass :=
  match cls with
  | Vector1_t => [Vector1_t]
  | Vector2_t => [Vector2_t; Vector1_t]
  | vector3_t => [vector3_t; Vector2_t; Vector1_t]
  | Vector3_t => [Vector3_t; Vector2_t; Vector1_t]
  | Vector4_t => [Vector4_t; Vector3_t; Vector2_t; Vector1_t]
  | Vector_t => [Vector_t]
  end.

(** The class of the MRO that binds [name], if one does. *)
Definition defining_class (cls : vclass) (name : string) : option vclass :=
  List.find (fun c => tuple_contains (class_body c) name) (mro cls).

(** The value a class attribute reads as through an instance. *)
Definition class_attribute (owner : vclass) (name : string) : pyobj :=
  if String.eqb name "typecode" then PyStr (String typecode EmptyString)
  else if String.eqb name "__match_args__" then PyTuple (map PyStr __match_args__)
  else PyMethod owner name.

(** [object.__setattr__(self, name, value)]: binds the name on the
    instance.  The buffer has a field of its own, which holds arrays of
    doubles only; an instance whose [_components] is rebound to something
    else is not a Vector of this model any more. *)
Definition object_setattr (name : string) (value : pyobj) (self : instance)
  : outcome unit * instance :=
  match String.eqb name "_components", value with
  | true, PyArray a =>
      (Ok tt, {| ob_type := ob_type self; _components := a;
                 __dict__ := __dict__ self |})
  | _, _ =>
      (Ok tt, {| ob_type := ob_type self; _components := _components self;
                 __dict__ := <[name := value]> (__dict__ self) |})
  end.

(** ** [Vector3]: take #3, dynamic attribute access *)
Module Vector3.

(** [__getattr__], which [vector3] and [Vector3] define alike. *)
Definition __getattr__ (self : instance) (name : string) : outcome pyobj :=
  let cls := ob_type self in
  let! pos :=
    match tuple_index __match_args__ name with
    | Raise ValueError => Ok (-1)
    | r => r
    end in
  if (0 <=? pos) && (pos <? Z.of_nat (length (_components self))) then
    let! x := seq_item (_components self) pos in
    Ok (PyFloat x)
  else
    let msg := str_repr (__name__ cls) +:+ " object has no attribute "
                 +:+ str_repr name in
    Raise (AttributeError msg).

Definition __setattr__ (name : string) (value : pyobj) (self : instance)
  : outcome unit * instance :=
  let cls := ob_type self in
  if str_len name =? 1 then
    let error :=
      if tuple_contains __match_args__ name then
        "readonly attribute {attr_name!r}"
      else if str_islower name then
        "can't set attributes 'a' to 'z' in {cls_name!r}"
      else "" in
    if negb (String.eqb error "") then
      match str_format_kw error
              [("cls_name", __name__ cls); ("attr_name", name)] with
      | Ok msg => (Raise (AttributeError msg), self)
      | Raise e => (Raise e, self)
      end
    else object_setattr name value self
  else object_setattr name value self.

End Vector3.

(** ** [Vector]: take #5, the final class *)
Module Vector.
Section WithBuiltins.
Context `{Builtins}.

(** [iter(self._components)]. *)
Definition __iter__ (self : instance) : list float := _components self.

Definition __repr__ (self : instance) : string :=
  let components := reprlib.repr (_components self) in
  let components :=
    str_slice components (Some (str_find components "[")) (Some (-1)) in
  "Vector(" +:+ components +:+ ")".

(** [repr] of a tuple, given the [repr] of its items: one item takes a
    trailing comma. *)
Definition tuple_repr (items : list string) : string :=
  match items with
  | [x] => "(" +:+ x +:+ ",)"
  | _ => "(" +:+ str_join ", " items +:+ ")"
  end.

(** [str(tuple(self))]. *)
Definition __str__ (self : instance) : string :=
  tuple_repr (map float_repr (__iter__ self)).

(** [bytes([ord(self.typecode)]) + bytes(self._components)]. *)
Definition __bytes__ (self : instance) : list Byte.byte :=
  ([byte_of_Z (Z.of_nat (nat_of_ascii typecode))]
   ++ array_tobytes sys_byteorder (_components self))%list.

Definition __len__ (self : instance) : Z :=
  Z.of_nat (length (_components self)).

(** [len(self) == len(other) and
     all(a == b for a, b in zip(self, other))]. *)
Definition __eq__ (self : instance) (other : pyobj) : outcome bool :=
  let! n := py_len other in
  if __len__ self =? n then
    let! items := py_iter other in
    all_eq_zip (__iter__ self) items
  else Ok false.

(** [hashes = (hash(x) for x in self)], then
    [functools.reduce(operator.xor, hashes, 0)].  The iteration makes a
    new float object for every component; [ids i] is the hash of the
    identity of the one made for component [i], which is what [hash]
    answers when that component is a NaN. *)
Definition __hash__ (self : instance) (ids : nat -> Z) : Z :=
  let hashes :=
    imap (fun i x => float_object_hash x (ids i)) (__iter__ self) in
  functools_reduce Z.lxor hashes 0.

(** [math.hypot( *self)]. *)
Definition __abs__ (self : instance) : float :=
  math_hypot (__iter__ self).

(** [bool(abs(self))]. *)
Definition __bool__ (self : instance) : bool :=
  float_bool (__abs__ self).

(** [cls(self._components[key])] for a slice, else
    [self._components[operator.index(key)]]. *)
Definition __getitem__ (self : instance) (key : pyobj) : outcome pyobj :=
  match key with
  | PySlice start stop step =>
      let cls := ob_type self in
      let! a := array_slice (_components self) start stop step in
      Ok (construct cls a)
  | _ =>
      let! index := operator_index key in
      let! x := seq_item (_components self) index in
      Ok (PyFloat x)
  end.

(** [__getattr__], with what it prints. *)
Definition __getattr__ (self : instance) (name : string)
  : list string * outcome pyobj :=
  (["test"],
   let cls := ob_type self in
   let! pos :=
     match tuple_index __match_args__ name with
     | Raise ValueError => Ok (-1)
     | r => r
     end in
   if (0 <=? pos) && (pos <? Z.of_nat (length (_components self))) then
     let! x := seq_item (_components self) pos in
     Ok (PyFloat x)
   else
     let msg := str_repr (__name__ cls) +:+ " object has no attribute "
                  +:+ str_repr name in
     Raise (AttributeError msg)).

Definition angle (self : instance) (n : Z) : outcome float :=
  let! tail := __getitem__ self (PySlice (PyInt n) PyNone PyNone) in
  let! coordinates := unpack_floats tail in
  let r := math_hypot coordinates in
  let! x := __getitem__ self (PyInt (n - 1)) in
  let! x := float_arg x in
  let a := math_atan2 r x in
  let! last_negative :=
    if n =? __len__ self - 1 then
      let! z := __getitem__ self (PyInt (-1)) in
      let! z := float_arg z in
      Ok (float_lt_int z 0)
    else Ok false in
  if last_negative then Ok (math_pi * 2 - a)%float else Ok a.

(** [(self.angle(n) for n in range(1, len(self)))]: each item is
    computed when the generator is advanced. *)
Definition angles (self : instance) : list (outcome float) :=
  map (angle self) (py_range 1 (__len__ self)).

Definition __format__ (self : instance) (fmt_spec : string)
  : outcome string :=
  let '(fmt_spec, coords, outer_fmt) :=
    if str_endswith fmt_spec "h" then
      (str_slice fmt_spec None (Some (-1)),
       (Ok (__abs__ self) :: angles self)%list,
       "<{}>")
    else (fmt_spec, map Ok (__iter__ self), "({})") in
  let components :=
    map (fun c => let! c := c in float_format c fmt_spec) coords in
  let! pieces := consume components in
  Ok (str_format outer_fmt (str_join ", " pieces)).

(** [frombytes]: [typecode = chr(octets[0])], then
    [cls(memoryview(octets[1:]).cast(typecode))].  The cast is modelled
    for the type code ['d'], the one [__bytes__] writes; for another
    leading byte the answer is [None]. *)
Definition frombytes (cls : vclass) (octets : list Byte.byte)
  : option (outcome pyobj) :=
  match octets with
  | [] => Some (Raise IndexError)
  | tag :: payload =>
      let typecode := ascii_of_byte tag in
      if Ascii.eqb typecode "d" then
        Some
          (let! memv := memoryview_cast_d sys_byteorder payload in
           Ok (construct cls memv))
      else None
  end.

End WithBuiltins.
End Vector.

(** ** Attribute access, as the interpreter dispatches it *)

(** [self.name]: the instance first, then the classes of the MRO, then
    [__getattr__] if the class has one ([vector3], [Vector3], [Vector4] by
    inheritance, and [Vector]).  With the text printed on the way.  (The
    attributes every object has from [object] are left out.) *)
Definition py_getattr (self : instance) (name : string)
  : list string * outcome pyobj :=
  if String.eqb name "_components" then ([], Ok (PyArray (_components self)))
  else
    match __dict__ self !! name with
    | Some value => ([], Ok value)
    | None =>
        match defining_class (ob_type self) name with
        | Some owner => ([], Ok (class_attribute owner name))
        | None =>
            match defining_class (ob_type self) "__getattr__" with
            | Some Vector_t => Vector.__getattr__ self name
            | Some _ => ([], Vector3.__getattr__ self name)
            | None =>
                ([], Raise (AttributeError
                   (str_repr (__name__ (ob_type self))
                    +:+ " object has no attribute " +:+ str_repr name)))
            end
        end
    end.

(** [self.name = value]: [__setattr__] of the first class of the MRO that
    defines one, else [object.__setattr__]. *)
Definition py_setattr (name : string) (value : pyobj) (self : instance)
  : outcome unit * instance :=
  match defining_class (ob_type self) "__setattr__" with
  | Some _ => Vector3.__setattr__ name value self
  | None => object_setattr name value self
  end.

(** [hash(n)] of an int: the value modulo the prime [2^61 - 1], with the
    sign of [n]; [-1] is kept for errors and becomes [-2]. *)
Definition int_hash (n : Z) : Z :=
  let x := Z.sgn n * (Z.abs n mod (2 ^ 61 - 1)) in
  if x =? -1 then -2 else x.

(** What [hash(o)] makes of the int [r] that [o.__hash__()] returned: an
    [r] that fits the signed 64 bits of a hash is kept, any other is
    hashed as an int; then [-1], kept for errors, becomes [-2]. *)
Definition slot_tp_hash (r : Z) : Z :=
  let h := if (- 2 ^ 63 <=? r) && (r <? 2 ^ 63) then r else int_hash r in
  if h =? -1 then -2 else h.

(** [hash(self)].  [Vector4] and [Vector] define [__hash__]; [Vector1]
    defines [__eq__] and no [__hash__], which sets its [__hash__] to
    [None], and [Vector2], [vector3] and [Vector3] inherit that: their
    instances are unhashable. *)
Definition py_hash `{Builtins} (self : instance) (ids : nat -> Z)
  : outcome Z :=
  match defining_class (ob_type self) "__hash__" with
  | Some _ => Ok (slot_tp_hash (Vector.__hash__ self ids))
  | None => Raise TypeError
  end.

(** [cls(o)] for an iterable of numbers. *)
Definition new (cls : vclass) (o : pyobj) : outcome instance :=
  let! a := array_d o in
  Ok (__init__ cls a).

(** ** [Vector1]: take #1, the comparison through tuples *)
Module Vector1.

(** [v == w] on two tuples, the items of [v] being the floats read from an
    array.  The items are compared in order up to the first pair that
    differs or to the end of the shorter tuple; when no pair differs the
    tuples are equal if neither has an item left.  (The floats of
    [tuple(self)] are made by the iteration, so none is the same object as
    an item of [w], and the shortcut of the comparison on identical
    objects never applies.) *)
Fixpoint tuple_eq (v : list float) (w : list pyobj) : outcome bool :=
  match v, w with
  | x :: v', y :: w' =>
      let! k := float_eq x y in
      if k then tuple_eq v' w' else Ok false
  | [], [] => Ok true
  | _, _ => Ok false
  end.

(** [tuple(self) == tuple(other)]: the [__eq__] of [Vector1], which
    [Vector2], [vector3] and [Vector3] inherit. *)
Definition __eq__ (self : instance) (other : pyobj) : outcome bool :=
  let v := _components self in
  let! w := py_iter other in
  tuple_eq v w.

End Vector1.

(** ** An instance of the builtins that computes

    [hash], [repr] and the fixed-point [format] of a float are exact
    integer computations on the mantissa and the exponent, written here
    after CPython; the arctangent and the summation of [math.hypot] are
    computed in binary64 without the care the C library takes, so their
    last digits can differ from it.  No theorem below depends on this
    instance: it instantiates them and runs the examples of the notebook. *)

Definition signbit (x : float) : bool :=
  match Prim2SF x with
  | S754_zero s | S754_infinity s | S754_finite s _ _ => s
  | S754_nan => false
  end.

Definition _PyHASH_BITS : Z := 61.
Definition _PyHASH_MODULUS : Z := 2 ^ 61 - 1.
Definition _PyHASH_INF : Z := 314159.

(** [_Py_HashDouble]: the value [m * 2^e] reduced modulo the prime
    [2^61 - 1], where [2^61 = 1]; [-1] is kept for errors.  (A NaN hashes
    by identity since Python 3.10: [float_object_hash] answers for it and
    never asks this function, which gives it 0, the value of before.) *)
Definition py_hash_double (x : float) : Z :=
  match Prim2SF x with
  | S754_nan => 0
  | S754_infinity s => if s then - _PyHASH_INF else _PyHASH_INF
  | S754_zero _ => 0
  | S754_finite s m e =>
      let r := (Z.pos m * 2 ^ (e mod _PyHASH_BITS)) mod _PyHASH_MODULUS in
      let h := if s then - r else r in
      if h =? -1 then -2 else h
  end.

(** [c * 10^q] compared with [n * 2^e]. *)
Definition cmp10_2 (c q n e : Z) : comparison :=
  (c * 10 ^ Z.max q 0 * 2 ^ Z.max (- e) 0
   ?= n * 2 ^ Z.max e 0 * 10 ^ Z.max (- q) 0).

(** The [d] with [10^d <= m * 2^e < 10^(d+1)]. *)
Definition floor_log10 (m : positive) (e : Z) : Z :=
  let d0 := (Z.log2 (Z.pos m) + e) * 30103 / 100000 in
  match cmp10_2 1 (d0 + 1) (Z.pos m) e with
  | Gt => match cmp10_2 1 d0 (Z.pos m) e with Gt => d0 - 1 | _ => d0 end
  | _ => d0 + 1
  end.

(** The decimal [c * 10^q] of [k] digits nearest to [m * 2^e], if it reads
    back as that double: it must lie between the midpoints to the two
    neighbouring doubles, which belong to the double of even mantissa. *)
Definition shortest_at (m : positive) (e d10 k : Z) : option (Z * Z) :=
  let v := 4 * Z.pos m in
  let e2 := e - 2 in
  let hi := v + 2 in
  let lo := if (Z.pos m =? 2 ^ 52) && (-1074 <? e) then v - 1 else v - 2 in
  let inclusive := Z.even (Z.pos m) in
  let inside c q :=
    match cmp10_2 c q lo e2 with Gt => true | Eq => inclusive | Lt => false end
    && match cmp10_2 c q hi e2 with Lt => true | Eq => inclusive | Gt => false end in
  let q := d10 + 1 - k in
  let c_lo := (v * 2 ^ Z.max e2 0 * 10 ^ Z.max (- q) 0)
              / (2 ^ Z.max (- e2) 0 * 10 ^ Z.max q 0) in
  let c_hi := c_lo + 1 in
  match inside c_lo q, inside c_hi q with
  | true, true =>
      match cmp10_2 (2 * c_lo + 1) q (2 * v) e2 with
      | Gt => Some (c_lo, q)
      | _ => Some (c_hi, q)
      end
  | true, false => Some (c_lo, q)
  | false, true => Some (c_hi, q)
  | false, false => None
  end.

(** The shortest decimal that reads back as the double: seventeen digits
    always do. *)
Fixpoint shortest_from (m : positive) (e d10 k : Z) (fuel : nat) : Z * Z :=
  match fuel with
  | O => (Z.pos m * 2 ^ Z.max e 0, 0)
  | S fuel' =>
      match shortest_at m e d10 k with
      | Some r => r
      | None => shortest_from m e d10 (k + 1) fuel'
      end
  end.

Fixpoint strip_zeros (fuel : nat) (c q : Z) : Z * Z :=
  match fuel with
  | O => (c, q)
  | S fuel' =>
      if (c mod 10 =? 0) && negb (c =? 0) then strip_zeros fuel' (c / 10) (q + 1)
      else (c, q)
  end.

Fixpoint zeros (n : nat) : string :=
  match n with
  | O => ""
  | S n' => String "0" (zeros n')
  end.

(** [repr] of a positive finite double: its shortest digits, laid out with
    an exponent when the decimal point would fall more than sixteen places
    to the right or four to the left. *)
Definition repr_finite (m : positive) (e : Z) : string :=
  let d10 := floor_log10 m e in
  let '(c, q) := shortest_from m e d10 1 17 in
  let '(c, q) := strip_zeros 20 c q in
  let digits := pretty c in
  let nd := Z.of_nat (String.length digits) in
  let decpt := nd + q in
  if (decpt <=? -4) || (16 <? decpt) then
    let ex := decpt - 1 in
    let mant :=
      match digits with
      | String d EmptyString => digits
      | String d rest => String d (String "." rest)
      | EmptyString => ""
      end in
    mant +:+ "e" +:+ (if ex <? 0 then "-" else "+")
      +:+ (if Z.abs ex <? 10 then "0" else "") +:+ pretty (Z.abs ex)
  else if decpt <=? 0 then "0." +:+ zeros (Z.to_nat (- decpt)) +:+ digits
  else if nd <=? decpt then digits +:+ zeros (Z.to_nat (decpt - nd)) +:+ ".0"
  else substring 0 (Z.to_nat decpt) digits +:+ "."
         +:+ substring (Z.to_nat decpt) (Z.to_nat (nd - decpt)) digits.

Definition py_float_repr (x : float) : string :=
  match Prim2SF x with
  | S754_nan => "nan"
  | S754_infinity s => if s then "-inf" else "inf"
  | S754_zero s => if s then "-0.0" else "0.0"
  | S754_finite s m e => (if s then "-" else "") +:+ repr_finite m e
  end.

Definition round_half_even (num den : Z) : Z :=
  let q := num / den in
  match 2 * (num mod den) ?= den with
  | Lt => q
  | Gt => q + 1
  | Eq => if Z.even q then q else q + 1
  end.

(** The digits of [m * 2^e] with [precision] places after the point. *)
Definition fixed_digits (m e precision : Z) : string :=
  let r := round_half_even (m * 2 ^ Z.max e 0 * 10 ^ precision)
                           (2 ^ Z.max (- e) 0) in
  let digits := pretty r in
  let digits :=
    zeros (Z.to_nat (precision + 1 - Z.of_nat (String.length digits)))
      +:+ digits in
  let n := String.length digits in
  let whole := substring 0 (n - Z.to_nat precision) digits in
  if precision =? 0 then whole
  else whole +:+ "."
         +:+ substring (n - Z.to_nat precision) (Z.to_nat precision) digits.

(** [format(x, '.<precision>f')]. *)
Definition format_fixed (x : float) (precision : Z) : string :=
  match Prim2SF x with
  | S754_nan => "nan"
  | S754_infinity s => if s then "-inf" else "inf"
  | S754_zero s => (if s then "-" else "") +:+ fixed_digits 0 0 precision
  | S754_finite s m e =>
      (if s then "-" else "") +:+ fixed_digits (Z.pos m) e precision
  end.

Definition digit_value (c : ascii) : option Z :=
  let n := Z.of_nat (nat_of_ascii c) in
  if (48 <=? n) && (n <=? 57) then Some (n - 48) else None.

Fixpoint decimal_value (acc : Z) (cs : list ascii) : option Z :=
  match cs with
  | [] => Some acc
  | c :: cs' =>
      match digit_value c with
      | Some d => decimal_value (10 * acc + d) cs'
      | None => None
      end
  end.

(** The precision of a spec of the shape ['.<digits>f']. *)
Definition fixed_spec (spec : string) : option Z :=
  match chars spec with
  | "."%char :: rest =>
      match rev rest with
      | "f"%char :: (_ :: _) as digits => decimal_value 0 (rev digits)
      | _ => None
      end
  | _ => None
  end.

(** [format(x, spec)] for the empty spec, which is [str(x)], and for the
    fixed-point specs ['.<digits>f'].  The other specs of the format
    mini-language are not written out: they are answered [ValueError]
    here, which Python answers only to the specs it rejects. *)
Definition py_float_format (x : float) (spec : string) : outcome string :=
  if String.eqb spec "" then Ok (py_float_repr x)
  else
    match fixed_spec spec with
    | Some precision => Ok (format_fixed x precision)
    | None => Raise ValueError
    end.

(** The arctangent on [0, 1]: one halving of the argument, then the
    series. *)
Definition atan_unit (t : float) : float :=
  let '(base, t) :=
    if (0x1.a827999fcef32p-2 <? t)%float
    then ((math_pi / 4)%float, ((t - 1) / (t + 1))%float)
    else (0%float, t) in
  let t2 := (t * t)%float in
  let series :=
    fold_right
      (fun k acc =>
         (1 / PrimFloat.of_uint63 (Uint63.of_Z (2 * k + 1)) - t2 * acc)%float)
      0%float (map Z.of_nat (seq 0 24)) in
  (base + t * series)%float.

(** [atan2(y, x)] with the special values of the C standard. *)
Definition atan2_approx (y x : float) : float :=
  if PrimFloat.is_nan y || PrimFloat.is_nan x then nan
  else
    let ay := PrimFloat.abs y in
    let ax := PrimFloat.abs x in
    let a :=
      if PrimFloat.is_infinity ay then
        if PrimFloat.is_infinity ax then (math_pi / 4)%float
        else (math_pi / 2)%float
      else if PrimFloat.is_infinity ax then 0%float
      else if (ay =? 0)%float then 0%float
      else if (ax =? 0)%float then (math_pi / 2)%float
      else if (ay <=? ax)%float then atan_unit (ay / ax)
      else (math_pi / 2 - atan_unit (ax / ay))%float in
    let a := if signbit x then (math_pi - a)%float else a in
    if signbit y then (- a)%float else a.

(** The norm from the magnitudes divided by the largest, never below the
    largest magnitude. *)
Definition norm_scaled_plain (vec : list float) (max : float) : float :=
  let sum :=
    fold_left (fun acc x => (acc + (x / max) * (x / max))%float) vec 0%float in
  let h := (max * PrimFloat.sqrt sum)%float in
  if (h <? max)%float then max else h.

Definition reference_builtins : Builtins := {|
  norm_scaled := norm_scaled_plain;
  math_atan2 := atan2_approx;
  float_hash := py_hash_double;
  float_repr := py_float_repr;
  float_format := py_float_format;
  sys_byteorder := little
|}.

(** ** Notions the statements use *)

(** A member of a slice given as an optional int. *)
Definition index_arg (i : option Z) : pyobj :=
  match i with
  | Some z => PyInt z
  | None => PyNone
  end.

(** The angle of axis [k] in closed form: the arctangent of the norm of
    the components from [k] on over component [k - 1], turned into its
    complement to the full circle on the last axis when the last component
    is negative. *)
Definition angle_value `{Builtins} (cs : list float) (k : Z) : float :=
  let x := nth (Z.to_nat (k - 1)) cs 0%float in
  let a := math_atan2 (math_hypot (drop (Z.to_nat k) cs)) x in
  if (k =? Z.of_nat (length cs) - 1) && (List.last cs 0 <? 0)%float
  then (math_pi * 2 - a)%float
  else a.



(** How [reprlib] shows an item of the array. *)
Definition shown `{Builtins} (x : float) : string :=
  reprlib.repr_instance (float_repr x).

(** The pieces [reprlib] joins: the first five items, and the fill value
    when there are more. *)
Definition shown_pieces `{Builtins} (cs : list float) : list string :=
  (map shown (take 5 cs)
   ++ if 5 <? Z.of_nat (length cs) then [reprlib.fillvalue] else [])%list.

(** What the comparisons with zero see of a double. *)
Inductive fclass : Type := Fnan | Fzero | Fpos | Fneg.

Definition classify (x : float) : fclass :=
  match Prim2SF x with
  | S754_nan => Fnan
  | S754_zero _ => Fzero
  | S754_infinity s | S754_finite s _ _ => if s then Fneg else Fpos
  end.

(** Attribute writes attempted one after the other, each on the instance
    the one before left; a write that raises changes nothing. *)
Definition py_setattrs (writes : list (string * pyobj)) (self : instance)
  : instance :=
  fold_left (fun self w => (py_setattr w.1 w.2 self).2) writes self.

(** The classes whose instances get [__getattr__] called for a name that
    the lookup does not find. *)
Definition has_getattr (cls : vclass) : bool :=
  match defining_class cls "__getattr__" with
  | Some _ => true
  | None => false
  end.

(** The message of the [AttributeError] for a name that is not found. *)
Definition no_attribute (cls : vclass) (name : string) : string :=
  str_repr (__name__ cls) +:+ " object has no attribute " +:+ str_repr name.

(** The classes whose instances can be hashed, those that define
    [__hash__]: [Vector4] and the final [Vector]. *)
Definition has_hash (cls : vclass) : bool :=
  match defining_class cls "__hash__" with
  | Some _ => true
  | None => false
  end.

(** The values a hash can take: the signed integers of 64 bits. *)
Definition Py_hash_t (h : Z) : Prop := - 2 ^ 63 <= h < 2 ^ 63.

(** The classes whose [__eq__] is the comparison by [zip]: [Vector4] and
    the final [Vector]. *)
Definition eq_by_zip (cls : vclass) : bool :=
  match defining_class cls "__eq__" with
  | Some Vector4_t | Some Vector_t => true
  | _ => false
  end.

(** The classes whose instances have their attribute writes checked by
    the [__setattr__] of [Vector3]: [Vector3] itself and [Vector4]. *)
Definition has_setattr (cls : vclass) : bool :=
  match defining_class cls "__setattr__" with
  | Some _ => true
  | None => false
  end.

(** A name that does not start with an underscore: not [_components], and
    none of the names that [object] and [type] give a meaning of their
    own. *)
Definition is_public (name : string) : bool :=
  match name with
  | String c _ => negb (Ascii.eqb c "_")
  | EmptyString => true
  end.

(** A character of the ASCII range. *)
Definition is_ascii (c : ascii) : bool := Z.of_nat (nat_of_ascii c) <? 128.

(** * Properties *)

(** ** Lists, slices and the error monad *)

Lemma bind_ok {A B} (c : outcome A) (k : A -> outcome B) (b : B) :
  bind c k = Ok b <-> exists a, c = Ok a /\ k a = Ok b.
Proof.
  destruct c as [a|e]; simpl; split.
  - intros Hk. exists a. auto.
  - intros (a' & Ha & Hk). congruence.
  - discriminate.
  - intros (a' & Ha & _). discriminate.
Qed.

Lemma item_at_Some {A} (items : list A) (i : Z) :
  0 <= i < Z.of_nat (length items) ->
  item_at items i = items !! Z.to_nat i /\ is_Some (items !! Z.to_nat i).
Proof.
  intros Hi. unfold item_at.
  destruct (Z.ltb_spec i 0); [lia|]. split; [reflexivity|].
  apply lookup_lt_is_Some. lia.
Qed.

Lemma item_at_None {A} (items : list A) (i : Z) :
  ~ 0 <= i < Z.of_nat (length items) -> item_at items i = None.
Proof.
  intros Hi. unfold item_at.
  destruct (Z.ltb_spec i 0); [reflexivity|].
  apply lookup_ge_None. lia.
Qed.

(** The copy loop reads [n] items when every index it visits is in range. *)
Lemma copy_stride_spec {A} (items : list A) (step : Z) (n : nat) :
  forall cur,
    (forall p, 0 <= p < Z.of_nat n ->
               0 <= cur + p * step < Z.of_nat (length items)) ->
    length (copy_stride items cur step n) = n /\
    forall p, 0 <= p < Z.of_nat n ->
              copy_stride items cur step n !! Z.to_nat p
              = items !! Z.to_nat (cur + p * step).
Proof.
  induction n as [|n IH]; intros cur Hrange.
  - split; [reflexivity|]. intros p Hp. lia.
  - cbn [copy_stride].
    destruct (item_at_Some items cur) as [Hat [x Hx]].
    { specialize (Hrange 0). lia. }
    rewrite Hat, Hx.
    destruct (IH (cur + step)) as [Hlen Hnth].
    { intros p Hp. specialize (Hrange (p + 1)). lia. }
    split; [cbn; lia|].
    intros p Hp. destruct (Z.eq_dec p 0) as [->|Hp0].
    + cbn. rewrite Z.add_0_r. symmetry. exact Hx.
    + rewrite lookup_cons_ne_0 by lia.
      replace (Nat.pred (Z.to_nat p)) with (Z.to_nat (p - 1)) by lia.
      rewrite (Hnth (p - 1)) by lia. f_equal. f_equal. lia.
Qed.

(** The normalized bounds lie between the ends the step walks between. *)
Lemma slice_indices_bounds (start stop : option Z) (step length : Z) :
  0 <= length ->
  let lower := if step <? 0 then -1 else 0 in
  let upper := if step <? 0 then length - 1 else length in
  lower <= (slice_indices start stop step length).1 <= upper /\
  lower <= (slice_indices start stop step length).2 <= upper.
Proof.
  intros Hlen. unfold slice_indices. cbn [fst snd].
  destruct (Z.ltb_spec step 0); destruct start as [i|], stop as [j|];
    repeat match goal with
           | |- context [?a <? 0] => destruct (Z.ltb_spec a 0)
           end; lia.
Qed.

Lemma stride_in_range (i j step length p : Z) :
  step <> 0 ->
  (if step <? 0 then -1 else 0) <= i <= (if step <? 0 then length - 1 else length) ->
  (if step <? 0 then -1 else 0) <= j <= (if step <? 0 then length - 1 else length) ->
  0 <= p < slice_length i j step ->
  0 <= i + p * step < length.
Proof.
  intros Hstep. unfold slice_length.
  destruct (Z.ltb_spec step 0) as [Hneg|Hpos]; intros Hi Hj.
  - destruct (Z.ltb_spec j i) as [Hji|Hji]; [|lia].
    intros Hp.
    assert (Hq : p <= (i - j - 1) / - step) by lia.
    pose proof (Z.mul_div_le (i - j - 1) (- step) ltac:(lia)) as Hdiv.
    assert (p * - step <= i - j - 1) by nia.
    lia.
  - destruct (Z.ltb_spec i j) as [Hij|Hij]; [|lia].
    intros Hp.
    assert (Hq : p <= (j - i - 1) / step) by lia.
    pose proof (Z.mul_div_le (j - i - 1) step ltac:(lia)) as Hdiv.
    assert (p * step <= j - i - 1) by nia.
    lia.
Qed.

(** Every index a normalized slice visits is an index of the sequence. *)
Lemma slice_indices_in_range (start stop : option Z) (step length : Z) :
  step <> 0 -> 0 <= length ->
  forall p,
    0 <= p < slice_length (slice_indices start stop step length).1
                          (slice_indices start stop step length).2 step ->
    0 <= (slice_indices start stop step length).1 + p * step < length.
Proof.
  intros Hstep Hlen p Hp.
  destruct (slice_indices_bounds start stop step length Hlen) as [Hi Hj].
  eapply stride_in_range; eauto.
Qed.

Lemma slice_length_nonneg (i j step : Z) :
  step <> 0 -> 0 <= slice_length i j step.
Proof.
  intros Hstep. unfold slice_length.
  destruct (Z.ltb_spec step 0).
  - destruct (Z.ltb_spec j i); [|lia].
    pose proof (Z.div_pos (i - j - 1) (- step)). lia.
  - destruct (Z.ltb_spec i j); [|lia].
    pose proof (Z.div_pos (j - i - 1) step). lia.
Qed.

(** What a slice of a builtin sequence holds. *)
Lemma seq_slice_spec {A} (items : list A) (start stop : option Z) (step : Z) :
  step <> 0 ->
  let n := Z.of_nat (length items) in
  let i := (slice_indices start stop step n).1 in
  let j := (slice_indices start stop step n).2 in
  Z.of_nat (length (seq_slice items start stop step)) = slice_length i j step /\
  forall p, 0 <= p < slice_length i j step ->
            0 <= i + p * step < n /\
            seq_slice items start stop step !! Z.to_nat p
            = items !! Z.to_nat (i + p * step).
Proof.
  intros Hstep n i j.
  pose proof (slice_length_nonneg i j step Hstep) as Hnn.
  pose proof (slice_indices_in_range start stop step n Hstep ltac:(lia)) as Hin.
  fold i j in Hin.
  unfold seq_slice. fold n.
  destruct (slice_indices start stop step n) as [i' j'] eqn:E.
  cbn [fst snd] in *. subst i j.
  destruct (copy_stride_spec items step (Z.to_nat (slice_length i' j' step)) i')
    as [Hlen Hnth].
  { intros p Hp. apply Hin. lia. }
  split; [lia|].
  intros p Hp. split; [apply Hin; lia|]. apply Hnth. lia.
Qed.

(** ** Equality *)

Lemma py_len_iter (o : pyobj) (n : Z) (items : list pyobj) :
  py_len o = Ok n -> py_iter o = Ok items -> n = Z.of_nat (length items).
Proof.
  destruct o; cbn; try discriminate.
  - intros [= <-] [= <-]. now rewrite length_map.
  - intros [= <-] [= <-]. reflexivity.
  - intros [= <-] [= <-]. reflexivity.
  - intros [= <-] [= <-]. now rewrite length_map.
  - destruct (has_len cls); [|discriminate].
    intros [= <-] [= <-]. now rewrite length_map.
Qed.

(** On inputs of one length, [all(a == b for a, b in zip(xs, ys))] is true
    exactly when every pair compares equal. *)
Lemma all_eq_zip_true (xs : list float) :
  forall ys, length xs = length ys ->
    (all_eq_zip xs ys = Ok true <->
     Forall2 (fun a b => float_eq a b = Ok true) xs ys).
Proof.
  induction xs as [|x xs IH]; intros [|y ys] Hlen; try discriminate.
  - cbn. split; [constructor | reflexivity].
  - cbn [all_eq_zip]. injection Hlen as Hlen. specialize (IH ys Hlen).
    destruct (float_eq x y) as [[|]|e] eqn:E; cbn.
    + rewrite IH. split.
      * intros Hall. now constructor.
      * intros Hall. now inversion Hall.
    + split; [discriminate|]. intros Hall. inversion Hall. congruence.
    + split; [discriminate|]. intros Hall. inversion Hall. congruence.
Qed.

(** For doubles on both sides the comparison cannot raise. *)
Lemma all_eq_zip_floats (xs : list float) :
  forall ys, all_eq_zip xs (map PyFloat ys)
             = Ok (forallb (fun p => PrimFloat.eqb p.1 p.2) (zip xs ys)).
Proof.
  induction xs as [|x xs IH]; intros [|y ys]; try reflexivity.
  cbn. destruct (PrimFloat.eqb x y); [apply IH | reflexivity].
Qed.

(** C1, as the code has it: [a == b] is true exactly when [b] has a length
    equal to [len(a)] and the items that iterating [b] yields compare equal
    to the components of [a], pairwise and in order.  The type of [b] is
    not looked at: a tuple or a list of matching numbers is equal to the
    Vector. *)
Theorem Vector_eq_sized_iterable (self : instance) (other : pyobj) :
  Vector.__eq__ self other = Ok true <->
  exists items,
    py_len other = Ok (Z.of_nat (length items)) /\
    py_iter other = Ok items /\
    length items = length (_components self) /\
    Forall2 (fun a b => float_eq a b = Ok true) (_components self) items.
Proof.
  unfold Vector.__eq__, Vector.__len__, Vector.__iter__. split.
  - intros Heq. apply bind_ok in Heq as (n & Hlen & Heq).
    destruct (Z.eqb_spec (Z.of_nat (length (_components self))) n) as [Hn|Hn];
      [|discriminate].
    apply bind_ok in Heq as (items & Hiter & Hall).
    pose proof (py_len_iter _ _ _ Hlen Hiter) as Hsize.
    assert (Hl : length (_components self) = length items) by lia.
    exists items. repeat split; try congruence.
    now apply all_eq_zip_true.
  - intros (items & Hlen & Hiter & Hl & Hall).
    rewrite Hlen. cbn. rewrite Hl, Z.eqb_refl, Hiter. cbn.
    apply all_eq_zip_true; [congruence | exact Hall].
Qed.

(** Between two Vectors: equal length and pairwise-equal components. *)
Lemma Vector_eq_Vector (self : instance) (cls : vclass) (cs : list float) :
  has_len cls = true ->
  Vector.__eq__ self (PyVector cls cs)
  = Ok ((length (_components self) =? length cs)%nat
        && forallb (fun p => PrimFloat.eqb p.1 p.2) (zip (_components self) cs)).
Proof.
  intros Hcls. unfold Vector.__eq__, Vector.__len__, Vector.__iter__.
  cbn. rewrite Hcls. cbn.
  destruct (Nat.eqb_spec (length (_components self)) (length cs)) as [Hl|Hl].
  - rewrite Hl, Z.eqb_refl. cbn. apply all_eq_zip_floats.
  - destruct (Z.eqb_spec (Z.of_nat (length (_components self)))
                         (Z.of_nat (length cs))); [lia | reflexivity].
Qed.

(** C1, as stated, fails: [Vector([1, 2]) == (1, 2)] is true although the
    right-hand side is a tuple. *)
Lemma Vector_eq_tuple :
  Vector.__eq__ (__init__ Vector_t [1%float; 2%float])
                (PyTuple [PyInt 1; PyInt 2]) = Ok true
  /\ forall cls cs, PyTuple [PyInt 1; PyInt 2] <> PyVector cls cs.
Proof. split; [reflexivity | discriminate]. Qed.

(** ** Indexing and slicing *)

Lemma slice_unpack_ints (start stop step : option Z) :
  step <> Some 0 ->
  slice_unpack (index_arg start) (index_arg stop) (index_arg step)
  = Ok (start, stop, default 1 step).
Proof.
  intros Hstep. unfold slice_unpack.
  destruct step as [k|]; cbn.
  - destruct (Z.eqb_spec k 0); [congruence|].
    destruct start, stop; reflexivity.
  - destruct start, stop; reflexivity.
Qed.

(** C3: for a slice whose members are ints or [None] and whose step is not
    zero, [v[start:stop:step]] is an instance of the class of [v] (built by
    [type(v)], not an array) that holds the items [v[i + p*k]] for [p]
    from 0 up to the normalized slice length, where [(i, j, k)] are the
    normalized indices; its length is that slice length, and every index
    read is in range. *)
Theorem Vector_getitem_slice (self : instance) (start stop step : option Z) :
  step <> Some 0 ->
  let n := Vector.__len__ self in
  let k := default 1 step in
  let i := (slice_indices start stop k n).1 in
  let j := (slice_indices start stop k n).2 in
  exists sel,
    Vector.__getitem__ self
      (PySlice (index_arg start) (index_arg stop) (index_arg step))
    = Ok (PyVector (ob_type self) sel) /\
    Z.of_nat (length sel) = slice_length i j k /\
    forall p, 0 <= p < slice_length i j k ->
      0 <= i + p * k < n /\
      sel !! Z.to_nat p = _components self !! Z.to_nat (i + p * k).
Proof.
  intros Hstep n k i j.
  exists (seq_slice (_components self) start stop k).
  split.
  - unfold Vector.__getitem__, array_slice.
    rewrite slice_unpack_ints by assumption. reflexivity.
  - apply seq_slice_spec. subst k. destruct step as [k|]; cbn; congruence.
Qed.

Lemma Vector_getitem_slice_witness :
  Some (-2) <> Some 0 /\
  let self := __init__ Vector_t [0; 1; 2; 3; 4; 5; 6]%float in
  let n := Vector.__len__ self in
  let i := (slice_indices None (Some 1) (-2) n).1 in
  let j := (slice_indices None (Some 1) (-2) n).2 in
  exists sel,
    Vector.__getitem__ self (PySlice PyNone (PyInt 1) (PyInt (-2)))
    = Ok (PyVector Vector_t sel) /\
    Z.of_nat (length sel) = slice_length i j (-2) /\
    forall p, 0 <= p < slice_length i j (-2) ->
      0 <= i + p * -2 < n /\
      sel !! Z.to_nat p = _components self !! Z.to_nat (i + p * -2).
Proof.
  split; [discriminate|].
  apply (Vector_getitem_slice (__init__ Vector_t [0; 1; 2; 3; 4; 5; 6]%float)
           None (Some 1) (Some (-2))).
  discriminate.
Defined.

Lemma seq_item_spec {A} (items : list A) (i : Z) :
  let n := Z.of_nat (length items) in
  (- n <= i < n ->
   exists x, items !! Z.to_nat (i mod n) = Some x /\ seq_item items i = Ok x) /\
  (~ (- n <= i < n) -> seq_item items i = Raise IndexError).
Proof.
  intros n. unfold seq_item. fold n. split.
  - intros Hi.
    assert (Hmod : (if i <? 0 then i + n else i) = i mod n).
    { destruct (Z.ltb_spec i 0).
      - apply Z.mod_unique with (q := -1); lia.
      - symmetry. apply Z.mod_small. lia. }
    rewrite Hmod.
    destruct (item_at_Some items (i mod n)) as [Hat [x Hx]].
    { rewrite <- Hmod. destruct (Z.ltb_spec i 0); lia. }
    exists x. rewrite Hat, Hx. auto.
  - intros Hi. rewrite item_at_None; [reflexivity|].
    destruct (Z.ltb_spec i 0); lia.
Qed.

(** C6: [v[key]] for a key that is not a slice succeeds exactly when the key
    is an integer index in [-n, n-1].  A float key and a tuple key are a
    [TypeError] (the float is not truncated), an int outside the range is an
    [IndexError], and a negative int in range counts from the end. *)
Theorem Vector_getitem_index (self : instance) :
  let n := Vector.__len__ self in
  (forall x, Vector.__getitem__ self (PyFloat x) = Raise TypeError) /\
  (forall items, Vector.__getitem__ self (PyTuple items) = Raise TypeError) /\
  (forall i, - n <= i < n ->
     exists x, _components self !! Z.to_nat (i mod n) = Some x /\
               Vector.__getitem__ self (PyInt i) = Ok (PyFloat x)) /\
  (forall i, ~ (- n <= i < n) ->
     Vector.__getitem__ self (PyInt i) = Raise IndexError) /\
  (forall key, (forall a b c, key <> PySlice a b c) ->
     ((exists r, Vector.__getitem__ self key = Ok r) <->
      exists i, operator_index key = Ok i /\ - n <= i < n)).
Proof.
  intros n. unfold n, Vector.__len__.
  pose proof (seq_item_spec (_components self)) as Hitem. cbn zeta in Hitem.
  repeat split.
  - intros i Hi. destruct (Hitem i) as [Hin _].
    destruct (Hin Hi) as (x & Hx & Hget).
    exists x. split; [exact Hx|]. cbn. now rewrite Hget.
  - intros i Hi. destruct (Hitem i) as [_ Hout].
    cbn. now rewrite (Hout Hi).
  - intros [r Hr].
    assert (Hget : exists i x, operator_index key = Ok i /\
                               seq_item (_components self) i = Ok x).
    { destruct key; cbn in Hr; try discriminate.
      - destruct (seq_item (_components self) (Z.b2z b)) eqn:E; [|discriminate].
        eauto.
      - destruct (seq_item (_components self) z) eqn:E; [|discriminate].
        eauto.
      - exfalso. eapply H. reflexivity. }
    destruct Hget as (i & x & Hidx & Hx). exists i. split; [exact Hidx|].
    destruct (Hitem i) as [_ Hout].
    destruct (Z_le_dec (- Z.of_nat (length (_components self))) i);
      destruct (Z_lt_dec i (Z.of_nat (length (_components self))));
      try lia; rewrite Hout in Hx by lia; discriminate.
  - intros (i & Hidx & Hi). destruct (Hitem i) as [Hin _].
    destruct (Hin Hi) as (x & _ & Hget).
    exists (PyFloat x).
    destruct key; cbn in Hidx; try discriminate;
      injection Hidx as <-; cbn; now rewrite Hget.
Qed.

Lemma Vector_getitem_index_witness :
  let self := __init__ Vector_t [0; 1; 2; 3; 4; 5; 6]%float in
  - 7 <= -1 < 7 /\
  exists x, _components self !! Z.to_nat (-1 mod 7) = Some x /\
            Vector.__getitem__ self (PyInt (-1)) = Ok (PyFloat x).
Proof.
  split; [lia|].
  apply (proj1 (proj2 (proj2 (Vector_getitem_index
           (__init__ Vector_t [0; 1; 2; 3; 4; 5; 6]%float)))) (-1)).
  change (- 7 <= -1 < 7). lia.
Defined.

(** ** The binary encoding *)

Lemma digits2_pos_bounds (m : positive) :
  2 ^ (Z.pos (digits2_pos m) - 1) <= Z.pos m < 2 ^ Z.pos (digits2_pos m).
Proof.
  induction m as [m IH|m IH|]; cbn [digits2_pos].
  - rewrite Pos2Z.inj_succ, Z.pow_succ_r by lia.
    replace (Z.succ (Z.pos (digits2_pos m)) - 1)
      with (Z.succ (Z.pos (digits2_pos m) - 1)) by lia.
    rewrite Z.pow_succ_r by lia. lia.
  - rewrite Pos2Z.inj_succ, Z.pow_succ_r by lia.
    replace (Z.succ (Z.pos (digits2_pos m)) - 1)
      with (Z.succ (Z.pos (digits2_pos m) - 1)) by lia.
    rewrite Z.pow_succ_r by lia. lia.
  - cbn. lia.
Qed.







Lemma native_involutive (order : byteorder) (bs : list Byte.byte) :
  native order (native order bs) = bs.
Proof. destruct order; [reflexivity | apply rev_involutive]. Qed.










(** ** The reduction and the hash of a float *)

Lemma functools_reduce_fold_left {A B} (f : A -> B -> A) (l : list B) :
  forall init, functools_reduce f l init = fold_left f l init.
Proof. induction l as [|x l IH]; intros init; [reflexivity | apply IH]. Qed.

(** The hash of CPython agrees on floats that compare equal. *)
Lemma py_hash_double_eq (x y : float) :
  PrimFloat.eqb x y = true -> py_hash_double x = py_hash_double y.
Proof.
  rewrite FloatAxioms.eqb_spec. unfold py_hash_double, SFeqb, SFcompare.
  destruct (Prim2SF x) as [s1|s1| |s1 m1 e1], (Prim2SF y) as [s2|s2| |s2 m2 e2];
    try discriminate; try reflexivity;
    try (destruct s1; discriminate); try (destruct s2; discriminate).
  - destruct s1, s2; try discriminate; reflexivity.
  - change (PosDef.Pos.compare_cont Eq m1 m2) with (Pos.compare m1 m2).
    destruct s1, s2; try discriminate;
      destruct (Z.compare_spec e1 e2) as [->| |]; try discriminate;
      destruct (Pos.compare_spec m1 m2) as [->| |]; try discriminate;
      reflexivity.
Qed.

(** ** Attribute writes *)

Lemma lower_not_upper (c : ascii) :
  is_ascii_lower c = true -> is_ascii_upper c = false.
Proof.
  unfold is_ascii_lower, is_ascii_upper. intros Hc.
  apply andb_prop in Hc as [Hlo _]. apply Z.leb_le in Hlo.
  apply andb_false_iff. right. apply Z.leb_gt. lia.
Qed.

(** [Vector3] and [Vector4] reject a write to any single lowercase letter
    and leave the instance as it was. *)
Lemma Vector3_setattr_rejects (self : instance) (c : ascii) (value : pyobj) :
  ob_type self = Vector3_t \/ ob_type self = Vector4_t ->
  is_ascii_lower c = true ->
  exists msg,
    py_setattr (String c EmptyString) value self
    = (Raise (AttributeError msg), self).
Proof.
  intros Hcls Hc.
  assert (Hdisp : py_setattr (String c EmptyString) value self
                  = Vector3.__setattr__ (String c EmptyString) value self).
  { unfold py_setattr. destruct Hcls as [-> | ->]; reflexivity. }
  rewrite Hdisp. unfold Vector3.__setattr__.
  change (str_len (String c EmptyString) =? 1) with true. cbn match.
  destruct (tuple_contains __match_args__ (String c EmptyString)).
  - eexists. reflexivity.
  - assert (Hl : str_islower (String c EmptyString) = true).
    { unfold str_islower. cbn. now rewrite (lower_not_upper c Hc), Hc. }
    rewrite Hl.
    destruct Hcls as [-> | ->]; eexists; reflexivity.
Qed.

Lemma str_len_1 (name : string) :
  str_len name = 1 -> exists c, name = String c EmptyString.
Proof.
  destruct name as [|c [|c' rest]]; unfold str_len; cbn; try lia.
  intros _. now exists c.
Qed.

(** Every other name goes to [object.__setattr__]. *)
Lemma Vector3_setattr_other (self : instance) (name : string) (value : pyobj) :
  (forall c, name = String c EmptyString -> is_ascii_lower c = false) ->
  Vector3.__setattr__ name value self = object_setattr name value self.
Proof.
  intros Hname. unfold Vector3.__setattr__.
  destruct (Z.eqb_spec (str_len name) 1) as [Hlen|Hlen]; [|reflexivity].
  destruct (str_len_1 name Hlen) as [c ->].
  specialize (Hname c eq_refl).
  assert (Hm : tuple_contains __match_args__ (String c EmptyString) = false).
  { destruct (tuple_contains __match_args__ (String c EmptyString)) eqn:E;
      [|reflexivity].
    unfold tuple_contains, __match_args__ in E. cbn in E.
    repeat (apply orb_prop in E as [E|E];
            [apply Ascii.eqb_eq in E + (apply andb_prop in E as [E _];
                                         apply Ascii.eqb_eq in E);
             subst c; discriminate |]).
    discriminate. }
  rewrite Hm.
  assert (Hl : str_islower (String c EmptyString) = false).
  { unfold str_islower. cbn. rewrite Hname. now rewrite andb_false_r. }
  rewrite Hl. reflexivity.
Qed.

(** C5 fails on the final class: [Vector] has [__getattr__] and no
    [__setattr__], so a write to a one-character name, lowercase letters
    included, goes to [object.__setattr__] and binds the name on the
    instance.  After [v.x = 10] the buffer is unchanged and [v.x] reads 10
    instead of the first component, while [Vector3], the sibling with the
    guard, rejects the same write. *)
Lemma Vector_setattr_x_binds :
  (forall (cs : list float) (attrs : gmap string pyobj) (c : ascii)
          (value : pyobj),
     py_setattr (String c EmptyString) value
       {| ob_type := Vector_t; _components := cs; __dict__ := attrs |}
     = (Ok tt, {| ob_type := Vector_t; _components := cs;
                  __dict__ := <[String c EmptyString := value]> attrs |})) /\
  let v := __init__ Vector_t [0; 1; 2; 3; 4]%float in
  let v' := (py_setattr "x" (PyInt 10) v).2 in
  py_getattr v "x" = (["test"], Ok (PyFloat 0)) /\
  (py_setattr "x" (PyInt 10) v).1 = Ok tt /\
  _components v' = _components v /\
  __dict__ v' !! "x" = Some (PyInt 10) /\
  py_getattr v' "x" = ([], Ok (PyInt 10)) /\
  py_setattr "x" (PyInt 10) (__init__ Vector3_t [0; 1; 2; 3; 4]%float)
  = (Raise (AttributeError "readonly attribute 'x'"),
     __init__ Vector3_t [0; 1; 2; 3; 4]%float).
Proof.
  split.
  - intros cs attrs c value.
    change (py_setattr (String c EmptyString) value
              {| ob_type := Vector_t; _components := cs; __dict__ := attrs |})
      with (object_setattr (String c EmptyString) value
              {| ob_type := Vector_t; _components := cs; __dict__ := attrs |}).
    unfold object_setattr.
    assert (Hname : String.eqb (String c EmptyString) "_components" = false).
    { cbn. destruct (Ascii.eqb c "_"); reflexivity. }
    rewrite Hname. reflexivity.
  - repeat split; vm_compute; reflexivity.
Qed.

(** ** Slices of step one *)

Lemma copy_stride_1 {A} (items : list A) (n : nat) :
  forall cur, 0 <= cur ->
    copy_stride items cur 1 n = take n (drop (Z.to_nat cur) items).
Proof.
  induction n as [|n IH]; intros cur Hcur; [reflexivity|].
  cbn [copy_stride]. unfold item_at.
  destruct (Z.ltb_spec cur 0); [lia|].
  destruct (items !! Z.to_nat cur) as [x|] eqn:E.
  - rewrite (drop_S _ _ _ E). cbn [take]. f_equal.
    rewrite IH by lia. f_equal. f_equal. lia.
  - apply lookup_ge_None in E. rewrite drop_ge by lia. reflexivity.
Qed.

(** A slice of step one is a run of consecutive items. *)
Lemma seq_slice_step1 {A} (items : list A) (start stop : option Z) :
  let n := Z.of_nat (length items) in
  let i := (slice_indices start stop 1 n).1 in
  let j := (slice_indices start stop 1 n).2 in
  0 <= i <= n /\ 0 <= j <= n /\
  seq_slice items start stop 1
  = take (Z.to_nat (j - i)) (drop (Z.to_nat i) items).
Proof.
  intros n i j.
  pose proof (slice_indices_bounds start stop 1 n ltac:(lia)) as Hb.
  cbn zeta in Hb. change (1 <? 0) with false in Hb. cbn match in Hb.
  fold i j in Hb. destruct Hb as [Hi Hj].
  split; [exact Hi|]. split; [exact Hj|].
  unfold seq_slice. fold n.
  rewrite (surjective_pairing (slice_indices start stop 1 n)). fold i j.
  rewrite copy_stride_1 by lia. f_equal.
  unfold slice_length. change (1 <? 0) with false. cbn match.
  destruct (Z.ltb_spec i j); [|lia].
  rewrite Z.div_1_r. lia.
Qed.

(** [items[k:]] for [k] between 0 and the length. *)
Lemma seq_slice_from {A} (items : list A) (k : Z) :
  0 <= k <= Z.of_nat (length items) ->
  seq_slice items (Some k) None 1 = drop (Z.to_nat k) items.
Proof.
  intros Hk.
  destruct (seq_slice_step1 items (Some k) None) as (_ & _ & ->).
  unfold slice_indices. cbn [fst snd].
  destruct (Z.ltb_spec k 0); [lia|].
  change (1 <? 0) with false. cbn match.
  rewrite Z.min_l by lia.
  rewrite take_ge; [reflexivity|]. rewrite length_drop. lia.
Qed.

(** [items[:j]] for a [j] that is not negative. *)
Lemma seq_slice_upto {A} (items : list A) (j : Z) :
  0 <= j ->
  seq_slice items None (Some j) 1 = take (Z.to_nat j) items.
Proof.
  intros Hj.
  destruct (seq_slice_step1 items None (Some j)) as (_ & _ & ->).
  unfold slice_indices. cbn [fst snd].
  destruct (Z.ltb_spec j 0); [lia|].
  change (1 <? 0) with false. cbn match.
  change (Z.to_nat 0) with 0%nat. cbn [drop]. rewrite Z.sub_0_r.
  destruct (Z.le_gt_cases j (Z.of_nat (length items))).
  - now rewrite Z.min_l by lia.
  - rewrite Z.min_r by lia.
    rewrite (take_ge items (Z.to_nat j)) by lia.
    apply take_ge. lia.
Qed.

(** [items[:-1]]: all the items but the last. *)
Lemma seq_slice_but_last {A} (items : list A) :
  seq_slice items None (Some (-1)) 1 = take (length items - 1) items.
Proof.
  destruct (seq_slice_step1 items None (Some (-1))) as (_ & _ & ->).
  unfold slice_indices. cbn [fst snd].
  change (-1 <? 0) with true. change (1 <? 0) with false. cbn match.
  change (Z.to_nat 0) with 0%nat. cbn [drop]. f_equal. lia.
Qed.

(** ** Angles *)

Lemma float_lt_int_zero (x : float) :
  float_lt_int x 0 = PrimFloat.ltb x 0%float.
Proof.
  rewrite FloatAxioms.ltb_spec. unfold float_lt_int, SFltb, SFcompare.
  change (Prim2SF 0%float) with (S754_zero false).
  destruct (Prim2SF x) as [s|s| |s m e]; try reflexivity.
  - destruct s; reflexivity.
  - assert (Hpow : forall k, 0 < 2 ^ Z.max k 0)
      by (intros k; apply Z.pow_pos_nonneg; lia).
    destruct (Z.leb_spec 0 e) as [He|He]; destruct s; cbn [Z.mul].
    + apply Z.ltb_lt. pose proof (Z.pow_pos_nonneg 2 e ltac:(lia) He). nia.
    + apply Z.ltb_ge. pose proof (Z.pow_pos_nonneg 2 e ltac:(lia) He). nia.
    + reflexivity.
    + reflexivity.
Qed.

Lemma consume_oks {A B} (f : A -> B) (g : B -> outcome A) (xs : list A) :
  (forall x, g (f x) = Ok x) -> consume (map g (map f xs)) = Ok xs.
Proof.
  intros Hgf. induction xs as [|x xs IH]; [reflexivity|].
  cbn. rewrite Hgf. cbn. rewrite IH. reflexivity.
Qed.

Lemma unpack_floats_Vector (cls : vclass) (cs : list float) :
  unpack_floats (PyVector cls cs) = Ok cs.
Proof. unfold unpack_floats. cbn. now apply consume_oks. Qed.

Lemma seq_item_nth {A} (items : list A) (i : Z) (d : A) :
  0 <= i < Z.of_nat (length items) ->
  seq_item items i = Ok (nth (Z.to_nat i) items d).
Proof.
  intros Hi. unfold seq_item.
  destruct (Z.ltb_spec i 0); [lia|].
  destruct (item_at_Some items i Hi) as [-> [x Hx]].
  rewrite Hx. f_equal. symmetry. now apply nth_lookup_Some.
Qed.

Lemma seq_item_last {A} (items : list A) (d : A) :
  items <> [] -> seq_item items (-1) = Ok (List.last items d).
Proof.
  intros Hne. unfold seq_item. change (-1 <? 0) with true. cbn match.
  destruct (item_at_Some items (-1 + Z.of_nat (length items))) as [-> [x Hx]].
  { destruct items; [congruence | cbn [length]; lia]. }
  rewrite Hx. f_equal.
  replace (Z.to_nat (-1 + Z.of_nat (length items)))
    with (Nat.pred (length items)) in Hx by lia.
  rewrite <- last_lookup in Hx.
  destruct items as [|y items] using rev_ind; [congruence|].
  rewrite last_snoc in Hx. rewrite List.last_last. congruence.
Qed.

(** On an axis between 1 and [n - 1] the method computes the closed
    form and raises nothing. *)
Lemma angle_in_range `{Builtins} (self : instance) (k : Z) :
  1 <= k <= Vector.__len__ self - 1 ->
  Vector.angle self k = Ok (angle_value (_components self) k).
Proof.
  unfold Vector.__len__. intros Hk.
  unfold Vector.angle, Vector.__getitem__, array_slice, Vector.__len__.
  cbn [slice_unpack slice_member operator_index bind default].
  change (1 =? 0) with false. cbn match. cbn [bind].
  rewrite seq_slice_from by lia.
  unfold construct, as_object, __init__. cbn [ob_type _components].
  rewrite unpack_floats_Vector. cbn [bind].
  rewrite (seq_item_nth _ (k - 1) 0%float) by lia. cbn [bind float_arg].
  unfold angle_value.
  destruct (Z.eqb_spec k (Z.of_nat (length (_components self)) - 1)) as [E|E].
  - rewrite (seq_item_last _ 0%float).
    + cbn [bind float_arg andb]. rewrite float_lt_int_zero.
      destruct (PrimFloat.ltb _ _); reflexivity.
    + intros Hnil. rewrite Hnil in Hk. cbn in Hk. lia.
  - reflexivity.
Qed.

(** C7: for an axis [k] between 1 and [n - 1], [angle(k)] is
    [atan2(hypot(components k..n-1), component k-1)], except on the last
    axis when the last component is negative, where it is [2*pi] minus that
    arctangent. *)
Theorem Vector_angle `{Builtins} (self : instance) (k : Z) :
  1 <= k <= Vector.__len__ self - 1 ->
  exists x z,
    _components self !! Z.to_nat (k - 1) = Some x /\
    last (_components self) = Some z /\
    Vector.angle self k
    = Ok (let a := math_atan2
                     (math_hypot (drop (Z.to_nat k) (_components self))) x in
          if (k =? Vector.__len__ self - 1) && (z <? 0)%float
          then (math_pi * 2 - a)%float
          else a).
Proof.
  intros Hk. rewrite (angle_in_range self k Hk).
  unfold Vector.__len__ in *.
  destruct (lookup_lt_is_Some_2 (_components self) (Z.to_nat (k - 1)))
    as [x Hx]; [lia|].
  destruct (_components self) as [|c cs] eqn:Ecs using rev_ind.
  { cbn in Hk. lia. }
  clear IHcs. exists x, c. split; [exact Hx|].
  split; [apply last_snoc|].
  unfold angle_value. rewrite List.last_last.
  now rewrite (nth_lookup_Some _ _ 0%float _ Hx).
Qed.

Lemma Vector_angle_witness :
  let self := __init__ Vector_t [1; 1; -1]%float in
  1 <= 2 <= Vector.__len__ self - 1 /\
  exists x z,
    _components self !! Z.to_nat (2 - 1) = Some x /\
    last (_components self) = Some z /\
    @Vector.angle reference_builtins self 2
    = Ok (let a := atan2_approx
                     (@math_hypot reference_builtins
                        (drop (Z.to_nat 2) (_components self))) x in
          if (2 =? Vector.__len__ self - 1) && (z <? 0)%float
          then (math_pi * 2 - a)%float
          else a).
Proof.
  split; [vm_compute; split; discriminate|].
  apply (@Vector_angle reference_builtins (__init__ Vector_t [1; 1; -1]%float) 2).
  vm_compute; split; discriminate.
Defined.

(** ** Strings as lists of characters *)

Lemma chars_app (a b : string) : chars (a +:+ b) = (chars a ++ chars b)%list.
Proof.
  unfold chars. induction a as [|c a IH]; [reflexivity|].
  change (String c a +:+ b) with (String c (a +:+ b)).
  cbn [list_ascii_of_string app]. f_equal. exact IH.
Qed.

Lemma str_chars (s : string) : str (chars s) = s.
Proof. apply string_of_list_ascii_of_string. Qed.

Lemma chars_str (cs : list ascii) : chars (str cs) = cs.
Proof. apply list_ascii_of_string_of_list_ascii. Qed.

Lemma str_app (a b : list ascii) : str (a ++ b) = str a +:+ str b.
Proof.
  unfold str. induction a as [|c a IH]; [reflexivity|].
  cbn [app string_of_list_ascii].
  change (String c (string_of_list_ascii a) +:+ string_of_list_ascii b)
    with (String c (string_of_list_ascii a +:+ string_of_list_ascii b)).
  f_equal. exact IH.
Qed.

Lemma str_len_app (a b : string) : str_len (a +:+ b) = str_len a + str_len b.
Proof. unfold str_len. rewrite chars_app, length_app. lia. Qed.

(** [s[:-1]] of a text that ends with one more character. *)
Lemma str_slice_but_last (p : string) (c : ascii) :
  str_slice (p +:+ String c EmptyString) None (Some (-1)) = p.
Proof.
  unfold str_slice. rewrite seq_slice_but_last, chars_app, length_app.
  change (chars (String c EmptyString)) with [c]. cbn [length].
  replace (length (chars p) + 1 - 1)%nat with (length (chars p)) by lia.
  rewrite take_app_length. apply str_chars.
Qed.

Lemma str_endswith_char (s : string) (c : ascii) :
  str_endswith s (String c EmptyString) = true <->
  exists p, s = p +:+ String c EmptyString.
Proof.
  unfold str_endswith, str_slice.
  change (str_len (String c EmptyString)) with 1.
  unfold str_len. split.
  - intros Hend. apply andb_prop in Hend as [Hlen Heq].
    apply Z.leb_le in Hlen. apply String.eqb_eq in Heq.
    rewrite seq_slice_from in Heq by lia.
    exists (str (take (Z.to_nat (Z.of_nat (length (chars s)) - 1)) (chars s))).
    rewrite <- Heq, <- str_app, take_drop. symmetry. apply str_chars.
  - intros [p ->]. rewrite chars_app, length_app.
    change (chars (String c EmptyString)) with [c]. cbn [length].
    apply andb_true_intro. split; [apply Z.leb_le; lia|].
    rewrite seq_slice_from by (rewrite length_app; cbn [length]; lia).
    replace (Z.to_nat (Z.of_nat (length (chars p) + 1) - 1))
      with (length (chars p)) by lia.
    rewrite drop_app_length. apply String.eqb_refl.
Qed.

(** ** Formatting *)

Lemma consume_map_Ok {A B} (g : A -> outcome B) (xs : list A) :
  consume (map (fun c => let! c := c in g c) (map Ok xs)) = consume (map g xs).
Proof.
  induction xs as [|x xs IH]; [reflexivity|]. cbn. now rewrite IH.
Qed.





(** The example of the specification and those of the book, run with the
    reference builtins. *)
Example format_examples :
  @Vector.__format__ reference_builtins (__init__ Vector_t [1; 1]%float) ".3fh"
  = Ok "<1.414, 0.785>" /\
  @Vector.__format__ reference_builtins (__init__ Vector_t [3; 4]%float) ".2f"
  = Ok "(3.00, 4.00)" /\
  @Vector.__format__ reference_builtins
    (__init__ Vector_t [0; 1; 0; 0]%float) ".5fh"
  = Ok "<1.00000, 1.57080, 0.00000, 0.00000>" /\
  @Vector.__format__ reference_builtins
    (__init__ Vector_t [-1; -1; -1; -1]%float) ".5fh"
  = Ok "<2.00000, 2.09440, 2.18628, 3.92699>".
Proof. repeat split; vm_compute; reflexivity. Qed.

(** ** The debug representation *)

Lemma chars_inj (a b : string) : chars a = chars b -> a = b.
Proof. intros E. rewrite <- (str_chars a), <- (str_chars b). now f_equal. Qed.

Lemma String_length_chars (s : string) : String.length s = length (chars s).
Proof. induction s as [|c s IH]; [reflexivity|]. cbn. now rewrite IH. Qed.

Lemma String_length_app (a b : string) :
  String.length (a +:+ b) = (String.length a + String.length b)%nat.
Proof. rewrite !String_length_chars, chars_app. apply length_app. Qed.

Lemma chars_str_slice (s : string) (start stop : option Z) :
  chars (str_slice s start stop) = seq_slice (chars s) start stop 1.
Proof. apply chars_str. Qed.

(** [s[len(pre):-1]] of a text made of [pre], a body and one character. *)
Lemma seq_slice_inner {A} (pre body : list A) (c : A) :
  seq_slice (pre ++ body ++ [c]) (Some (Z.of_nat (length pre))) (Some (-1)) 1
  = body.
Proof.
  destruct (seq_slice_step1 (pre ++ body ++ [c])
              (Some (Z.of_nat (length pre))) (Some (-1))) as (_ & _ & ->).
  unfold slice_indices. cbn [fst snd].
  change (1 <? 0) with false. change (-1 <? 0) with true. cbn match.
  destruct (Z.ltb_spec (Z.of_nat (length pre)) 0); [lia|].
  rewrite !length_app. cbn [length].
  rewrite Z.min_l, Z.max_l by lia.
  rewrite Nat2Z.id, drop_app_length.
  replace (Z.to_nat (-1 + Z.of_nat (length pre + (length body + 1))
                     - Z.of_nat (length pre)))
    with (length body) by lia.
  apply take_app_length.
Qed.

Lemma prefix_empty (s : string) : String.prefix "" s = true.
Proof. destruct s; reflexivity. Qed.

(** The first place of a character that the text before it lacks. *)
Lemma str_find_char (c : ascii) (pre rest : string) :
  forallb (fun ch => negb (Ascii.eqb ch c)) (chars pre) = true ->
  str_find (pre +:+ String c rest) (String c EmptyString)
  = Z.of_nat (String.length pre).
Proof.
  unfold str_find. intros Hpre.
  assert (Hidx : String.index 0 (String c EmptyString) (pre +:+ String c rest)
                 = Some (String.length pre)).
  { induction pre as [|a pre IH].
    - change (EmptyString +:+ String c rest) with (String c rest).
      cbn [String.index String.prefix].
      destruct (ascii_dec c c); [|congruence].
      now rewrite prefix_empty.
    - change (String a pre +:+ String c rest)
        with (String a (pre +:+ String c rest)).
      cbn [chars list_ascii_of_string forallb] in Hpre.
      apply andb_prop in Hpre as [Ha Hpre].
      cbn [String.index String.prefix].
      destruct (ascii_dec c a) as [->|_].
      + rewrite Ascii.eqb_refl in Ha. discriminate.
      + rewrite (IH Hpre). reflexivity. }
  now rewrite Hidx.
Qed.

Lemma repr_array_nonempty `{Builtins} (cs : list float) :
  cs <> [] ->
  reprlib.repr cs
  = "array('d', [" +:+ str_join ", " (shown_pieces cs) +:+ "])".
Proof.
  intros Hne. unfold reprlib.repr, reprlib.repr_array.
  destruct cs as [|x cs]; [congruence|].
  unfold reprlib._repr_iterable.
  change (reprlib.maxlevel <=? 0) with false. cbn [andb].
  unfold islice. change (Z.to_nat reprlib.maxarray) with 5%nat.
  change ("array('" +:+ String typecode "', [") with "array('d', [".
  unfold shown_pieces, reprlib.maxarray.
  destruct (5 <? Z.of_nat (length (x :: cs))).
  - reflexivity.
  - now rewrite app_nil_r.
Qed.

Lemma Vector_repr_nonempty `{Builtins} (self : instance) :
  _components self <> [] ->
  Vector.__repr__ self
  = "Vector([" +:+ str_join ", " (shown_pieces (_components self)) +:+ "])".
Proof.
  intros Hne. unfold Vector.__repr__.
  rewrite (repr_array_nonempty _ Hne).
  set (body := str_join ", " (shown_pieces (_components self))).
  change ("array('d', [" +:+ body +:+ "])")
    with ("array('d', " +:+ String "[" (body +:+ "])")).
  rewrite str_find_char by reflexivity.
  change (Z.of_nat (String.length "array('d', ")) with 11.
  change ("array('d', " +:+ String "[" (body +:+ "])"))
    with ("array('d', [" +:+ body +:+ "])").
  assert (Hslice : str_slice ("array('d', [" +:+ body +:+ "])")
                     (Some 11) (Some (-1)) = "[" +:+ body +:+ "]").
  { apply chars_inj. rewrite chars_str_slice.
    replace (chars ("array('d', [" +:+ body +:+ "])"))
      with (chars "array('d', " ++ chars ("[" +:+ body +:+ "]") ++ [")"%char])%list.
    - apply (seq_slice_inner (chars "array('d', ")).
    - rewrite !chars_app. cbn [chars list_ascii_of_string app].
      rewrite <- !app_assoc. reflexivity. }
  rewrite Hslice. apply chars_inj. rewrite !chars_app.
  cbn [chars list_ascii_of_string app]. rewrite <- !app_assoc. reflexivity.
Qed.

Lemma str_len_length (s : string) : str_len s = Z.of_nat (String.length s).
Proof. unfold str_len. now rewrite String_length_chars. Qed.

(** [reprlib] never shows an item in more than [maxother] characters. *)
Lemma repr_instance_length (s : string) :
  (String.length (reprlib.repr_instance s) <= 30)%nat.
Proof.
  unfold reprlib.repr_instance, reprlib.maxother.
  destruct (Z.ltb_spec 30 (str_len s)) as [Hlong|Hshort].
  - change (Z.max 0 ((30 - 3) / 2)) with 13.
    change (Z.max 0 (30 - 3 - 13)) with 14.
    rewrite !String_length_app, !String_length_chars, !chars_str_slice.
    unfold str_len in Hlong |- *.
    rewrite seq_slice_upto by lia.
    rewrite seq_slice_from by lia.
    rewrite length_take, length_drop.
    change (length (chars reprlib.fillvalue)) with 3%nat. lia.
  - rewrite str_len_length in Hshort. lia.
Qed.

Lemma length_concat_bound (sep : string) (b : nat) (l : list string) :
  Forall (fun s => (String.length s <= b)%nat) l ->
  (String.length (String.concat sep l)
   <= length l * (b + String.length sep))%nat.
Proof.
  induction 1 as [|x l Hx Hl IH]; [cbn; lia|].
  destruct l as [|y l].
  - cbn. lia.
  - change (String.concat sep (x :: y :: l))
      with (x +:+ sep +:+ String.concat sep (y :: l)).
    rewrite !String_length_app. cbn [length] in IH |- *. lia.
Qed.

Lemma shown_pieces_bounds `{Builtins} (cs : list float) :
  (length (shown_pieces cs) <= 6)%nat /\
  Forall (fun s => (String.length s <= 30)%nat) (shown_pieces cs).
Proof.
  unfold shown_pieces. split.
  - rewrite length_app, length_map, length_take.
    destruct (5 <? Z.of_nat (length cs)); cbn [length]; lia.
  - apply Forall_app. split.
    + apply Forall_map, Forall_forall. intros x _. apply repr_instance_length.
    + destruct (5 <? Z.of_nat (length cs)); [|constructor].
      constructor; [cbn; lia | constructor].
Qed.

(** C9: [repr(v)] is computed without raising for every Vector: it is
    ["Vector()"] for no component, the bracketed list of the components as
    [reprlib] shows them for one to five components, and for more than five
    the first five followed by ["..."]; it never exceeds 202 characters,
    whatever the number of components and the length of their [repr]. *)
Theorem Vector_repr `{Builtins} (self : instance) :
  let cs := _components self in
  let n := Vector.__len__ self in
  (n = 0 -> Vector.__repr__ self = "Vector()") /\
  (1 <= n <= 5 ->
   Vector.__repr__ self = "Vector([" +:+ str_join ", " (map shown cs) +:+ "])") /\
  (5 < n ->
   Vector.__repr__ self
   = "Vector([" +:+ str_join ", " (map shown (take 5 cs) ++ ["..."]) +:+ "])") /\
  (String.length (Vector.__repr__ self) <= 202)%nat.
Proof.
  intros cs n. unfold n, Vector.__len__. fold cs.
  assert (Hempty : cs = [] -> Vector.__repr__ self = "Vector()").
  { intros E. unfold Vector.__repr__. fold cs. rewrite E. reflexivity. }
  assert (Hfull : cs <> [] ->
                  Vector.__repr__ self
                  = "Vector([" +:+ str_join ", " (shown_pieces cs) +:+ "])")
    by apply Vector_repr_nonempty.
  repeat split.
  - intros Hn. apply Hempty. destruct cs; [reflexivity | cbn in Hn; lia].
  - intros Hn. rewrite Hfull by (intros E; rewrite E in Hn; cbn in Hn; lia).
    unfold shown_pieces.
    destruct (Z.ltb_spec 5 (Z.of_nat (length cs))); [lia|].
    rewrite app_nil_r, take_ge by lia. reflexivity.
  - intros Hn. rewrite Hfull by (intros E; rewrite E in Hn; cbn in Hn; lia).
    unfold shown_pieces.
    destruct (Z.ltb_spec 5 (Z.of_nat (length cs))); [reflexivity | lia].
  - destruct cs as [|x cs'] eqn:E.
    + rewrite Hempty by reflexivity. cbn. lia.
    + rewrite Hfull by discriminate.
      destruct (shown_pieces_bounds (x :: cs')) as [Hlen Hall].
      pose proof (length_concat_bound ", " 30 _ Hall) as Hjoin.
      unfold str_join. rewrite !String_length_app.
      change (String.length "Vector([") with 8%nat.
      change (String.length "])") with 2%nat.
      change (String.length ", ") with 2%nat in Hjoin. nia.
Qed.

Lemma Vector_repr_witness :
  let self := __init__ Vector_t [0; 1; 2; 3; 4; 5; 6]%float in
  5 < Vector.__len__ self /\
  @Vector.__repr__ reference_builtins self
  = "Vector([" +:+ str_join ", "
       (map (@shown reference_builtins) (take 5 (_components self)) ++ ["..."])
     +:+ "])".
Proof.
  split; [reflexivity|].
  apply (proj1 (proj2 (proj2 (@Vector_repr reference_builtins
           (__init__ Vector_t [0; 1; 2; 3; 4; 5; 6]%float))))).
  reflexivity.
Defined.

(** The outputs the notebook records, run with the reference builtins. *)
Example repr_examples :
  @Vector.__repr__ reference_builtins (__init__ vector3_t [0; 1; 2; 3; 4]%float)
  = "Vector([0.0, 1.0, 2.0, 3.0, 4.0])" /\
  @Vector.__repr__ reference_builtins
    (__init__ Vector_t [0; 1; 2; 3; 4; 5; 6]%float)
  = "Vector([0.0, 1.0, 2.0, 3.0, 4.0, ...])" /\
  @Vector.__str__ reference_builtins (__init__ Vector_t [0; 1; 2]%float)
  = "(0.0, 1.0, 2.0)".
Proof. repeat split; vm_compute; reflexivity. Qed.

(** ** Truth value *)

Lemma eqb_zero_class (x : float) :
  PrimFloat.eqb x 0%float = true <-> classify x = Fzero.
Proof.
  rewrite FloatAxioms.eqb_spec. unfold classify, SFeqb, SFcompare.
  change (Prim2SF 0%float) with (S754_zero false).
  destruct (Prim2SF x) as [s|s| |s m e]; try destruct s; cbn;
    split; congruence.
Qed.

Lemma ltb_zero_class (x : float) :
  PrimFloat.ltb 0%float x = true <-> classify x = Fpos.
Proof.
  rewrite FloatAxioms.ltb_spec. unfold classify, SFltb, SFcompare.
  change (Prim2SF 0%float) with (S754_zero false).
  destruct (Prim2SF x) as [s|s| |s m e]; try destruct s; cbn;
    split; congruence.
Qed.

Lemma is_nan_class (x : float) :
  PrimFloat.is_nan x = true <-> classify x = Fnan.
Proof.
  unfold PrimFloat.is_nan. rewrite FloatAxioms.eqb_spec.
  unfold classify, SFeqb, SFcompare.
  destruct (Prim2SF x) as [s|s| |s m e]; try destruct s; cbn;
    try (split; congruence).
  - rewrite Z.compare_refl.
    change (PosDef.Pos.compare_cont Eq m m) with (Pos.compare m m).
    rewrite Pos.compare_refl. cbn. split; congruence.
  - rewrite Z.compare_refl.
    change (PosDef.Pos.compare_cont Eq m m) with (Pos.compare m m).
    rewrite Pos.compare_refl. cbn. split; congruence.
Qed.

Lemma abs_class (x : float) :
  classify (PrimFloat.abs x)
  = match classify x with
    | Fnan => Fnan
    | Fzero => Fzero
    | Fpos | Fneg => Fpos
    end.
Proof.
  unfold classify. rewrite FloatAxioms.abs_spec. unfold SFabs.
  destruct (Prim2SF x) as [s|s| |s m e]; try destruct s; reflexivity.
Qed.

Lemma is_infinity_class (x : float) :
  PrimFloat.is_infinity x = true -> classify x = Fpos \/ classify x = Fneg.
Proof.
  unfold PrimFloat.is_infinity. rewrite FloatAxioms.eqb_spec, FloatAxioms.abs_spec.
  unfold classify, SFeqb, SFcompare, SFabs.
  change (Prim2SF infinity) with (S754_infinity false).
  destruct (Prim2SF x) as [s|s| |s m e]; try destruct s; cbn;
    intros; try discriminate; auto.
Qed.

(** A magnitude replaces the largest so far only if it is positive. *)
Lemma ltb_magnitude (max a : float) :
  classify max = Fzero \/ classify max = Fpos ->
  classify a <> Fneg ->
  (PrimFloat.ltb max a = true -> classify a = Fpos) /\
  (classify max = Fzero -> classify a = Fpos -> PrimFloat.ltb max a = true).
Proof.
  rewrite FloatAxioms.ltb_spec. unfold classify, SFltb, SFcompare.
  destruct (Prim2SF max) as [s|s| |s m e]; try destruct s;
    destruct (Prim2SF a) as [s'|s'| |s' m' e']; try destruct s'; cbn;
    intros [Hm|Hm] Ha; try discriminate; try congruence; split;
    intros; try discriminate; try congruence; try reflexivity.
Qed.

(** The largest magnitude, started from zero, is zero or positive, is a
    member of the list unless it is the initial zero, and is zero exactly
    when every magnitude is zero or a NaN. *)
Lemma largest_spec (vec : list float) :
  Forall (fun a => classify a <> Fneg) vec ->
  forall max,
    classify max = Fzero \/ classify max = Fpos ->
    (classify (largest vec max) = Fzero \/ classify (largest vec max) = Fpos) /\
    (largest vec max = max \/ In (largest vec max) vec) /\
    (classify (largest vec max) = Fzero <->
     classify max = Fzero /\
     Forall (fun a => classify a = Fnan \/ classify a = Fzero) vec).
Proof.
  induction 1 as [|a vec Ha _ IH]; intros max Hmax.
  - cbn. repeat split; auto. now intros [? _].
  - cbn [largest fold_left].
    destruct (ltb_magnitude max a Hmax Ha) as [Hlt Hzero].
    destruct (PrimFloat.ltb max a) eqn:E.
    + specialize (Hlt eq_refl).
      destruct (IH a (or_intror Hlt)) as (Hc & Hin & Hz).
      fold (largest vec a) in *.
      split; [exact Hc|].
      split; [right; destruct Hin as [Ea|Hin];
              [left; now rewrite Ea | right; exact Hin]|].
      rewrite Hz. split.
      * intros [Hza _]. congruence.
      * intros [_ Hall]. inversion Hall as [|? ? [Hn|Hn] _]; congruence.
    + destruct (IH max Hmax) as (Hc & Hin & Hz).
      fold (largest vec max) in *.
      split; [exact Hc|].
      split; [destruct Hin as [Em|Hin]; [left | right; right]; assumption|].
      rewrite Hz. split.
      * intros [Hzm Hall]. split; [exact Hzm|]. constructor; [|exact Hall].
        destruct (classify a) eqn:Ca.
        -- now left.
        -- now right.
        -- discriminate (Hzero Hzm eq_refl).
        -- congruence.
      * intros [Hzm Hall]. split; [exact Hzm|]. now inversion Hall.
Qed.

(** [math.hypot] is zero exactly on coordinates that are all zero, when
    the summation never makes zero of magnitudes whose largest is
    positive. *)
Lemma math_hypot_zero `{Builtins} (xs : list float) :
  (forall vec max,
     In max vec -> PrimFloat.ltb 0%float max = true ->
     PrimFloat.eqb (norm_scaled vec max) 0%float = false) ->
  PrimFloat.eqb (math_hypot xs) 0%float = true <->
  Forall (fun x => PrimFloat.eqb x 0%float = true) xs.
Proof.
  intros Hnorm. unfold math_hypot, vector_norm.
  set (vec := map PrimFloat.abs xs).
  set (max := largest vec 0%float).
  assert (Hvec : Forall (fun a => classify a <> Fneg) vec).
  { apply Forall_map, List.Forall_forall. intros x _. rewrite abs_class.
    destruct (classify x); discriminate. }
  destruct (largest_spec vec Hvec 0%float (or_introl eq_refl))
    as (Hc & Hin & Hz). fold max in Hc, Hin, Hz.
  assert (Hzeros : Forall (fun x => PrimFloat.eqb x 0%float = true) xs <->
                   Forall (fun a => classify a = Fzero) vec).
  { unfold vec. rewrite Forall_map. apply Forall_iff. intros x.
    rewrite eqb_zero_class, abs_class. destruct (classify x); split; congruence. }
  assert (Hnan : existsb PrimFloat.is_nan vec = false ->
                 Forall (fun a => classify a = Fnan \/ classify a = Fzero) vec ->
                 Forall (fun a => classify a = Fzero) vec).
  { intros Hex Hall. apply List.Forall_forall. intros a Ha.
    rewrite List.Forall_forall in Hall. destruct (Hall a Ha) as [Hn|]; [|assumption].
    apply is_nan_class in Hn.
    assert (existsb PrimFloat.is_nan vec = true)
      by (apply existsb_exists; eauto).
    congruence. }
  assert (Hweak : Forall (fun a => classify a = Fzero) vec ->
                  Forall (fun a => classify a = Fnan \/ classify a = Fzero) vec).
  { intros Hall. eapply Forall_impl; [exact Hall|]. cbn. auto. }
  assert (Hpos : classify max <> Fzero ->
                 ~ Forall (fun a => classify a = Fzero) vec).
  { intros Hm Hall. apply Hm, Hz. split; [reflexivity | now apply Hweak]. }
  rewrite Hzeros.
  destruct (PrimFloat.is_infinity max) eqn:Einf.
  { apply is_infinity_class in Einf. rewrite eqb_zero_class.
    split; [intros E; destruct Einf; congruence|].
    intros Hall. exfalso. apply Hpos; [destruct Einf; congruence | exact Hall]. }
  destruct (existsb PrimFloat.is_nan vec) eqn:Enan.
  { split; [discriminate|]. intros Hall. exfalso.
    apply existsb_exists in Enan as (a & Ha & Hn).
    apply is_nan_class in Hn. rewrite List.Forall_forall in Hall.
    specialize (Hall a Ha). congruence. }
  destruct (PrimFloat.eqb max 0%float) eqn:Ezero.
  { cbn [orb]. rewrite Ezero. split; [|reflexivity]. intros _.
    apply Hnan; [reflexivity|]. apply Hz. now apply eqb_zero_class. }
  assert (Hmz : classify max <> Fzero).
  { intros E. apply eqb_zero_class in E. congruence. }
  cbn [orb].
  destruct (Z.of_nat (length vec) <=? 1).
  { rewrite Ezero. split; [discriminate|]. intros Hall. now destruct (Hpos Hmz). }
  rewrite Hnorm.
  - split; [discriminate|]. intros Hall. now destruct (Hpos Hmz).
  - destruct Hin as [E|Hin]; [|exact Hin].
    exfalso. apply Hmz. rewrite E. reflexivity.
  - apply ltb_zero_class. destruct Hc; congruence.
Qed.

(** C10: [bool(v)] is false exactly when [abs(v)] compares equal to zero,
    which is exactly when every component is zero; the zero-dimensional
    Vector is false.  The second equivalence rests on the summation inside
    [math.hypot] not returning zero for magnitudes whose largest is
    positive. *)
Theorem Vector_bool_false `{Builtins} :
  (forall vec max,
     In max vec -> PrimFloat.ltb 0%float max = true ->
     PrimFloat.eqb (norm_scaled vec max) 0%float = false) ->
  forall self : instance,
    (Vector.__bool__ self = false <->
     PrimFloat.eqb (Vector.__abs__ self) 0%float = true) /\
    (Vector.__bool__ self = false <->
     Forall (fun x => PrimFloat.eqb x 0%float = true) (_components self)) /\
    (_components self = [] -> Vector.__bool__ self = false).
Proof.
  intros Hnorm self.
  assert (Habs : Vector.__bool__ self = false <->
                 PrimFloat.eqb (Vector.__abs__ self) 0%float = true).
  { unfold Vector.__bool__, float_bool. apply negb_false_iff. }
  assert (Hall : Vector.__bool__ self = false <->
                 Forall (fun x => PrimFloat.eqb x 0%float = true)
                        (_components self)).
  { rewrite Habs. apply (math_hypot_zero _ Hnorm). }
  repeat split; try apply Habs; try apply Hall.
  intros E. apply Hall. rewrite E. constructor.
Qed.

(** The plain summation, which answers the largest magnitude at least, is
    not zero when that is positive. *)
Lemma norm_scaled_plain_nonzero (vec : list float) (max : float) :
  In max vec -> PrimFloat.ltb 0%float max = true ->
  PrimFloat.eqb (norm_scaled_plain vec max) 0%float = false.
Proof.
  intros _ Hmax. unfold norm_scaled_plain.
  set (h := (max * PrimFloat.sqrt _)%float).
  destruct (PrimFloat.ltb h max) eqn:E.
  - apply ltb_zero_class in Hmax.
    destruct (PrimFloat.eqb max 0%float) eqn:Ez; [|reflexivity].
    apply eqb_zero_class in Ez. congruence.
  - destruct (PrimFloat.eqb h 0%float) eqn:Ez; [|reflexivity].
    apply eqb_zero_class in Ez. apply ltb_zero_class in Hmax.
    destruct (ltb_magnitude h max (or_introl Ez)) as [_ Hlt].
    { congruence. }
    rewrite (Hlt Ez Hmax) in E. discriminate.
Qed.

Lemma Vector_bool_false_witness :
  (forall vec max,
     In max vec -> PrimFloat.ltb 0%float max = true ->
     PrimFloat.eqb (norm_scaled_plain vec max) 0%float = false) /\
  let self := __init__ Vector_t [0; -0.0; 0]%float in
  (@Vector.__bool__ reference_builtins self = false <->
   PrimFloat.eqb (@Vector.__abs__ reference_builtins self) 0%float = true) /\
  (@Vector.__bool__ reference_builtins self = false <->
   Forall (fun x => PrimFloat.eqb x 0%float = true) (_components self)) /\
  (_components self = [] -> @Vector.__bool__ reference_builtins self = false).
Proof.
  split; [exact norm_scaled_plain_nonzero|].
  exact (@Vector_bool_false reference_builtins norm_scaled_plain_nonzero
           (__init__ Vector_t [0; -0.0; 0]%float)).
Defined.

Example bool_examples :
  @Vector.__bool__ reference_builtins (__init__ Vector_t []) = false /\
  @Vector.__bool__ reference_builtins (__init__ Vector_t [0; -0.0]%float) = false /\
  @Vector.__bool__ reference_builtins (__init__ Vector_t [0; 0x1p-1074]%float) = true /\
  @Vector.__bool__ reference_builtins (__init__ Vector_t [nan]) = true /\
  @Vector.__abs__ reference_builtins (__init__ Vector_t [3; 4]%float) = 5%float.
Proof. repeat split; vm_compute; reflexivity. Qed.

(** * Further properties of the notebook's classes *)

(** ** The two comparisons: through tuples (take #1) and by [zip] (take #4) *)

Lemma tuple_eq_true (v : list float) :
  forall w, Vector1.tuple_eq v w = Ok true <->
            Forall2 (fun a b => float_eq a b = Ok true) v w.
Proof.
  induction v as [|x v IH]; intros [|y w]; cbn [Vector1.tuple_eq].
  - split; [constructor | reflexivity].
  - split; [discriminate | intros Hall; inversion Hall].
  - split; [discriminate | intros Hall; inversion Hall].
  - destruct (float_eq x y) as [[|]|e] eqn:E; cbn.
    + rewrite IH. split.
      * intros Hall. now constructor.
      * intros Hall. now inversion Hall.
    + split; [discriminate|]. intros Hall. inversion Hall. congruence.
    + split; [discriminate|]. intros Hall. inversion Hall. congruence.
Qed.

(** On tuples of one length the two loops are the same loop. *)
Lemma tuple_eq_all_eq_zip (v : list float) :
  forall w, length v = length w ->
            Vector1.tuple_eq v w = all_eq_zip v w.
Proof.
  induction v as [|x v IH]; intros [|y w] Hlen; try discriminate;
    [reflexivity|].
  cbn. destruct (float_eq x y) as [[|]|e]; cbn; try reflexivity.
  apply IH. now injection Hlen.
Qed.

(** X1: The take #1 comparison, [tuple(self) == tuple(other)], is true exactly
    when [other] can be iterated and yields as many items as the Vector
    has components, each equal to the component of its position.  Neither
    the type of [other] nor a [len] is asked for. *)
Theorem Vector1_eq_iterable (self : instance) (other : pyobj) :
  Vector1.__eq__ self other = Ok true <->
  exists items,
    py_iter other = Ok items /\
    Forall2 (fun a b => float_eq a b = Ok true) (_components self) items.
Proof.
  unfold Vector1.__eq__. cbn zeta. rewrite bind_ok.
  split; intros (items & Hiter & Hall); exists items; split; auto;
    now apply tuple_eq_true.
Qed.

(** X2: The faster [==] of take #4, which the final [Vector] repeats, against
    the comparison through tuples of take #1, both run on a Vector that
    has a length: on an object that has a length, whatever take #1 answers
    take #4 answers too, and what take #4 calls equal take #1 calls equal.
    On an instance of [Vector1], which can be iterated and has no
    [__len__], take #1 answers and take #4 raises a [TypeError]. *)
Theorem Vector_eq_against_tuples (self : instance) (other : pyobj) :
  has_len (ob_type self) = true ->
  (forall n b, py_len other = Ok n ->
     Vector1.__eq__ self other = Ok b -> Vector.__eq__ self other = Ok b) /\
  (Vector.__eq__ self other = Ok true -> Vector1.__eq__ self other = Ok true) /\
  (forall cs,
     Vector.__eq__ self (PyVector Vector1_t cs) = Raise TypeError /\
     exists b, Vector1.__eq__ self (PyVector Vector1_t cs) = Ok b).
Proof.
  intros _. repeat split.
  - intros n b Hlen Heq. unfold Vector1.__eq__ in Heq. cbn zeta in Heq.
    apply bind_ok in Heq as (items & Hiter & Heq).
    pose proof (py_len_iter _ _ _ Hlen Hiter) as Hn.
    unfold Vector.__eq__, Vector.__len__, Vector.__iter__.
    rewrite Hlen. cbn [bind]. rewrite Hiter.
    destruct (Z.eqb_spec (Z.of_nat (length (_components self))) n) as [E|E].
    + cbn [bind]. rewrite <- tuple_eq_all_eq_zip by lia. exact Heq.
    + destruct b; [|reflexivity].
      apply tuple_eq_true, Forall2_length in Heq. lia.
  - intros Heq. unfold Vector.__eq__, Vector.__len__, Vector.__iter__ in Heq.
    apply bind_ok in Heq as (n & Hlen & Heq).
    destruct (Z.eqb_spec (Z.of_nat (length (_components self))) n) as [E|E];
      [|discriminate].
    apply bind_ok in Heq as (items & Hiter & Hall).
    pose proof (py_len_iter _ _ _ Hlen Hiter) as Hn.
    unfold Vector1.__eq__. cbn zeta. rewrite Hiter. cbn [bind].
    rewrite tuple_eq_all_eq_zip by lia. exact Hall.
  - unfold Vector1.__eq__. cbn.
    generalize (_components self). intros v. revert cs.
    induction v as [|x v IH]; intros [|y cs]; cbn; eauto.
    destruct (PrimFloat.eqb x y); cbn; eauto.
Qed.

Lemma Vector_eq_against_tuples_witness :
  let self := __init__ Vector4_t [1; 2]%float in
  let other := PyTuple [PyInt 1; PyInt 2] in
  has_len (ob_type self) = true /\
  py_len other = Ok 2 /\
  Vector1.__eq__ self other = Ok true /\
  Vector.__eq__ self other = Ok true.
Proof.
  split; [reflexivity|]. split; [reflexivity|]. split; [reflexivity|].
  apply (proj1 (Vector_eq_against_tuples (__init__ Vector4_t [1; 2]%float)
                  (PyTuple [PyInt 1; PyInt 2]) eq_refl) 2 true); reflexivity.
Defined.

(** ** [==] between Vectors as a relation *)

(** Two doubles compare equal when both are zeros, of any sign, or when
    they are the same double and not a NaN. *)
Lemma float_eqb_cases (x y : float) :
  PrimFloat.eqb x y = true <->
  (classify x = Fzero /\ classify y = Fzero) \/
  (Prim2SF x = Prim2SF y /\ classify x <> Fnan).
Proof.
  rewrite FloatAxioms.eqb_spec. unfold classify, SFeqb, SFcompare.
  destruct (Prim2SF x) as [s1|s1| |s1 m1 e1], (Prim2SF y) as [s2|s2| |s2 m2 e2].
  all: try change (PosDef.Pos.compare_cont Eq m1 m2) with (Pos.compare m1 m2).
  all: try destruct s1; try destruct s2; cbn.
  all: try destruct (Z.compare_spec e1 e2) as [->| |].
  all: try destruct (Pos.compare_spec m1 m2) as [->| |]; cbn.
  all: split;
    [ intros Ht; try discriminate Ht;
      first [ left; split; reflexivity
            | right; split; [reflexivity | discriminate] ]
    | intros [[H1 H2]|[H1 H2]]; try discriminate; try congruence;
      try reflexivity ].
  all: injection H1; intros; lia.
Qed.

Lemma float_eqb_sym (x y : float) : PrimFloat.eqb x y = PrimFloat.eqb y x.
Proof.
  destruct (PrimFloat.eqb x y) eqn:E1, (PrimFloat.eqb y x) eqn:E2; trivial.
  - apply float_eqb_cases in E1.
    assert (H : PrimFloat.eqb y x = true); [|congruence].
    apply float_eqb_cases. destruct E1 as [[? ?]|[E Hn]]; [auto|].
    right. unfold classify in *. rewrite <- E. auto.
  - apply float_eqb_cases in E2.
    assert (H : PrimFloat.eqb x y = true); [|congruence].
    apply float_eqb_cases. destruct E2 as [[? ?]|[E Hn]]; [auto|].
    right. unfold classify in *. rewrite <- E. auto.
Qed.

Lemma float_eqb_trans (x y z : float) :
  PrimFloat.eqb x y = true -> PrimFloat.eqb y z = true ->
  PrimFloat.eqb x z = true.
Proof.
  rewrite !float_eqb_cases. unfold classify.
  intros [[Hx Hy]|[Exy Hx]] [[Hy' Hz]|[Eyz Hy']].
  - auto.
  - left. split; [exact Hx|]. rewrite <- Eyz. exact Hy.
  - left. split; [|exact Hz]. rewrite Exy. exact Hy'.
  - right. split; [congruence | exact Hx].
Qed.

Lemma forallb_eqb_sym (xs : list float) :
  forall ys, forallb (fun p => PrimFloat.eqb p.1 p.2) (zip xs ys)
             = forallb (fun p => PrimFloat.eqb p.1 p.2) (zip ys xs).
Proof.
  induction xs as [|x xs IH]; intros [|y ys]; try reflexivity.
  cbn. now rewrite float_eqb_sym, IH.
Qed.

Lemma forallb_eqb_trans (xs : list float) :
  forall ys zs,
    length xs = length ys ->
    forallb (fun p => PrimFloat.eqb p.1 p.2) (zip xs ys) = true ->
    forallb (fun p => PrimFloat.eqb p.1 p.2) (zip ys zs) = true ->
    forallb (fun p => PrimFloat.eqb p.1 p.2) (zip xs zs) = true.
Proof.
  induction xs as [|x xs IH]; intros [|y ys] [|z zs] Hlen Hxy Hyz;
    try reflexivity; try discriminate.
  cbn in *. apply andb_prop in Hxy as [Hxy Hxys].
  apply andb_prop in Hyz as [Hyz Hyzs].
  rewrite (float_eqb_trans x y z Hxy Hyz). cbn.
  apply (IH ys zs); auto.
Qed.

Lemma forallb_eqb_refl (cs : list float) :
  forallb (fun p => PrimFloat.eqb p.1 p.2) (zip cs cs) = true <->
  Forall (fun x => PrimFloat.is_nan x = false) cs.
Proof.
  induction cs as [|x cs IH]; cbn.
  - split; [constructor | reflexivity].
  - rewrite andb_true_iff, IH. split.
    + intros [Hx ?]. constructor; [|assumption].
      unfold PrimFloat.is_nan. now rewrite Hx.
    + intros Hall. inversion Hall as [|? ? Hx Hcs]; subst.
      split; [|assumption].
      unfold PrimFloat.is_nan in Hx. now apply negb_false_iff in Hx.
Qed.

Lemma eq_by_zip_has_len (cls : vclass) :
  eq_by_zip cls = true -> has_len cls = true.
Proof. destruct cls; (reflexivity || discriminate). Qed.

(** X3: [==] between instances of the classes that compare by [zip], [Vector4]
    and [Vector] in any mix, never raises, is symmetric and is transitive;
    a Vector is equal to itself exactly when none of its components is a
    NaN. *)
Theorem Vector_eq_relation (a b c : instance) :
  eq_by_zip (ob_type a) = true ->
  eq_by_zip (ob_type b) = true ->
  eq_by_zip (ob_type c) = true ->
  (exists r, Vector.__eq__ a (as_object b) = Ok r) /\
  Vector.__eq__ a (as_object b) = Vector.__eq__ b (as_object a) /\
  (Vector.__eq__ a (as_object b) = Ok true ->
   Vector.__eq__ b (as_object c) = Ok true ->
   Vector.__eq__ a (as_object c) = Ok true) /\
  (Vector.__eq__ a (as_object a) = Ok true <->
   Forall (fun x => PrimFloat.is_nan x = false) (_components a)).
Proof.
  intros Ha Hb Hc. apply eq_by_zip_has_len in Ha, Hb, Hc. unfold as_object.
  rewrite !Vector_eq_Vector by assumption.
  split; [eauto|]. split; [|split].
  - f_equal. rewrite forallb_eqb_sym. f_equal. apply Nat.eqb_sym.
  - intros [= Hab] [= Hbc]. f_equal.
    apply andb_prop in Hab as [Hl1 Hab]. apply andb_prop in Hbc as [Hl2 Hbc].
    apply Nat.eqb_eq in Hl1, Hl2.
    apply andb_true_intro. split; [apply Nat.eqb_eq; lia|].
    apply (forallb_eqb_trans _ (_components b)); auto.
  - rewrite Nat.eqb_refl. cbn [andb]. rewrite <- forallb_eqb_refl.
    split; [now intros [= ->] | now intros ->].
Qed.

Lemma Vector_eq_relation_witness :
  let a := __init__ Vector_t [0; 1]%float in
  let b := __init__ Vector4_t [-0.0; 1]%float in
  let c := __init__ Vector_t [0; 1]%float in
  eq_by_zip (ob_type a) = true /\ eq_by_zip (ob_type b) = true /\
  eq_by_zip (ob_type c) = true /\
  (exists r, Vector.__eq__ a (as_object b) = Ok r) /\
  Vector.__eq__ a (as_object b) = Vector.__eq__ b (as_object a) /\
  (Vector.__eq__ a (as_object b) = Ok true ->
   Vector.__eq__ b (as_object c) = Ok true ->
   Vector.__eq__ a (as_object c) = Ok true) /\
  (Vector.__eq__ a (as_object a) = Ok true <->
   Forall (fun x => PrimFloat.is_nan x = false) (_components a)).
Proof.
  split; [reflexivity|]. split; [reflexivity|]. split; [reflexivity|].
  apply (Vector_eq_relation (__init__ Vector_t [0; 1]%float)
           (__init__ Vector4_t [-0.0; 1]%float)
           (__init__ Vector_t [0; 1]%float)); reflexivity.
Defined.

(** ** Hashing *)

Lemma lxor_nonneg_bound (a b : Z) :
  0 <= a < 2 ^ 63 -> 0 <= b < 2 ^ 63 -> 0 <= Z.lxor a b < 2 ^ 63.
Proof.
  intros Ha Hb.
  assert (Hnn : 0 <= Z.lxor a b) by (apply Z.lxor_nonneg; lia).
  split; [exact Hnn|].
  destruct (Z.eq_dec (Z.lxor a b) 0) as [->|Hx]; [reflexivity|].
  assert (Hlog : forall c, 0 <= c < 2 ^ 63 -> Z.log2 c < 63).
  { intros c Hc. destruct (Z.eq_dec c 0) as [->|Hc0]; [reflexivity|].
    apply Z.log2_lt_pow2; lia. }
  apply Z.log2_lt_pow2; [lia|].
  pose proof (Z.log2_lxor a b ltac:(lia) ltac:(lia)).
  pose proof (Hlog a Ha). pose proof (Hlog b Hb). lia.
Qed.

(** The xor of two hashes is a hash. *)
Lemma lxor_Py_hash_t (a b : Z) :
  Py_hash_t a -> Py_hash_t b -> Py_hash_t (Z.lxor a b).
Proof.
  unfold Py_hash_t. intros Ha Hb.
  destruct (Z_lt_le_dec a 0) as [Han|Hap]; destruct (Z_lt_le_dec b 0) as [Hbn|Hbp].
  - rewrite <- Z.lxor_lnot_lnot.
    pose proof (lxor_nonneg_bound (Z.lnot a) (Z.lnot b)) as H.
    unfold Z.lnot in *. lia.
  - pose proof (Z.lnot_lxor_l a b) as E.
    pose proof (lxor_nonneg_bound (Z.lnot a) b) as H.
    unfold Z.lnot in *. lia.
  - pose proof (Z.lnot_lxor_r a b) as E.
    pose proof (lxor_nonneg_bound a (Z.lnot b)) as H.
    unfold Z.lnot in *. lia.
  - pose proof (lxor_nonneg_bound a b). lia.
Qed.

Lemma fold_left_lxor_Py_hash_t (hs : list Z) :
  Forall Py_hash_t hs ->
  forall h, Py_hash_t h -> Py_hash_t (fold_left Z.lxor hs h).
Proof.
  induction 1 as [|x hs Hx _ IH]; intros h Hh; [exact Hh|].
  cbn [fold_left]. apply IH. now apply lxor_Py_hash_t.
Qed.

Lemma imap_hash_Py_hash_t `{Builtins} (cs : list float) :
  (forall x, Py_hash_t (float_hash x)) ->
  forall ids, (forall i, Py_hash_t (ids i)) ->
    Forall Py_hash_t (imap (fun i x => float_object_hash x (ids i)) cs).
Proof.
  intros Hrange. induction cs as [|x cs IH]; intros ids Hids; [constructor|].
  rewrite imap_cons. constructor.
  - unfold float_object_hash. destruct (PrimFloat.is_nan x); auto.
  - apply (IH (fun i => ids (S i))). intros i. apply Hids.
Qed.

(** Without a NaN the identities of the float objects play no part. *)
Lemma imap_hash_no_nan `{Builtins} (cs : list float) :
  Forall (fun x => PrimFloat.is_nan x = false) cs ->
  forall ids,
    imap (fun i x => float_object_hash x (ids i)) cs = map float_hash cs.
Proof.
  induction 1 as [|x cs Hx _ IH]; intros ids; [reflexivity|].
  rewrite imap_cons. cbn [map]. f_equal.
  - unfold float_object_hash. now rewrite Hx.
  - apply (IH (fun i => ids (S i))).
Qed.

Lemma float_eqb_no_nan (x y : float) :
  PrimFloat.eqb x y = true ->
  PrimFloat.is_nan x = false /\ PrimFloat.is_nan y = false.
Proof.
  intros Heq. apply float_eqb_cases in Heq.
  assert (Hx : classify x <> Fnan /\ classify y <> Fnan).
  { destruct Heq as [[Hx Hy]|[E Hx]].
    - rewrite Hx, Hy. split; discriminate.
    - split; [exact Hx|]. unfold classify in *. now rewrite <- E. }
  destruct Hx as [Hx Hy]. split.
  - destruct (PrimFloat.is_nan x) eqn:E; [|reflexivity].
    apply is_nan_class in E. contradiction.
  - destruct (PrimFloat.is_nan y) eqn:E; [|reflexivity].
    apply is_nan_class in E. contradiction.
Qed.

(** Components that compare equal pairwise have the same hashes, whatever
    the float objects are: none of them is a NaN. *)
Lemma imap_hash_eq `{Builtins} (xs : list float) :
  (forall x y, PrimFloat.eqb x y = true -> float_hash x = float_hash y) ->
  forall ys ids ids', length xs = length ys ->
    forallb (fun p => PrimFloat.eqb p.1 p.2) (zip xs ys) = true ->
    imap (fun i x => float_object_hash x (ids i)) xs
    = imap (fun i x => float_object_hash x (ids' i)) ys.
Proof.
  intros Hhash. induction xs as [|x xs IH]; intros [|y ys] ids ids' Hlen Hall;
    try discriminate; [reflexivity|].
  cbn in Hall. apply andb_prop in Hall as [Hxy Hall].
  rewrite !imap_cons. f_equal.
  - destruct (float_eqb_no_nan x y Hxy) as [Hx Hy].
    unfold float_object_hash. rewrite Hx, Hy. now apply Hhash.
  - apply (IH ys (fun i => ids (S i)) (fun i => ids' (S i)));
      [now injection Hlen | exact Hall].
Qed.

Lemma slot_tp_hash_Py_hash_t (r : Z) :
  Py_hash_t r -> slot_tp_hash r = if r =? -1 then -2 else r.
Proof.
  unfold Py_hash_t, slot_tp_hash. intros Hr.
  destruct (Z.leb_spec (- 2 ^ 63) r); [|lia].
  destruct (Z.ltb_spec r (2 ^ 63)); [|lia]. reflexivity.
Qed.

Lemma has_hash_dispatch `{Builtins} (self : instance) (ids : nat -> Z) :
  has_hash (ob_type self) = true ->
  py_hash self ids = Ok (slot_tp_hash (Vector.__hash__ self ids)).
Proof.
  unfold has_hash, py_hash.
  destruct (defining_class (ob_type self) "__hash__");
    [reflexivity | discriminate].
Qed.

Lemma has_hash_has_len (cls : vclass) : has_hash cls = true -> has_len cls = true.
Proof. destruct cls; (reflexivity || discriminate). Qed.

(** C4, as the code has it.  [__hash__] returns the xor of the hashes of
    the float objects that iterating the Vector yields, folded from the
    left from 0; with no NaN among the components that is the xor of the
    hashes of the component values.  [hash(v)] is that value, except that
    a reduction of [-1] makes [hash(v)] be [-2].  The empty Vector hashes
    to 0, and two Vectors that compare equal have the same hash.  The
    floats' own hashes are taken to be hashes (64-bit signed) that agree
    on floats that compare equal, as [hash] of a float does. *)
Theorem Vector_hash_xor `{Builtins} :
  (forall x y, PrimFloat.eqb x y = true -> float_hash x = float_hash y) ->
  (forall x, Py_hash_t (float_hash x)) ->
  forall (a : instance) (ids : nat -> Z),
    (forall i, Py_hash_t (ids i)) ->
    has_hash (ob_type a) = true ->
    let r := fold_left Z.lxor
               (imap (fun i x => float_object_hash x (ids i)) (_components a))
               0 in
    Vector.__hash__ a ids = r /\
    py_hash a ids = Ok (if r =? -1 then -2 else r) /\
    (Forall (fun x => PrimFloat.is_nan x = false) (_components a) ->
     r = fold_left Z.lxor (map float_hash (_components a)) 0) /\
    (_components a = [] -> py_hash a ids = Ok 0) /\
    forall (b : instance) (ids' : nat -> Z),
      (forall i, Py_hash_t (ids' i)) ->
      has_hash (ob_type b) = true ->
      Vector.__eq__ a (as_object b) = Ok true ->
      Vector.__hash__ a ids = Vector.__hash__ b ids' /\
      py_hash a ids = py_hash b ids'.
Proof.
  intros Hhash Hrange a ids Hids Ha r.
  assert (Hr : Vector.__hash__ a ids = r).
  { unfold Vector.__hash__, Vector.__iter__. apply functools_reduce_fold_left. }
  assert (Hrr : Py_hash_t r).
  { apply fold_left_lxor_Py_hash_t; [now apply imap_hash_Py_hash_t|].
    unfold Py_hash_t. lia. }
  assert (Hpy : py_hash a ids = Ok (if r =? -1 then -2 else r)).
  { rewrite (has_hash_dispatch a ids Ha), Hr.
    now rewrite (slot_tp_hash_Py_hash_t r Hrr). }
  split; [exact Hr|]. split; [exact Hpy|]. split; [|split].
  - intros Hnan. unfold r. now rewrite (imap_hash_no_nan _ Hnan).
  - intros E. rewrite Hpy. unfold r. rewrite E. reflexivity.
  - intros b ids' Hids' Hb Heq.
    unfold as_object in Heq.
    rewrite Vector_eq_Vector in Heq by now apply has_hash_has_len.
    injection Heq as Heq. apply andb_prop in Heq as [Hlen Hall].
    apply Nat.eqb_eq in Hlen.
    assert (Hsame : Vector.__hash__ a ids = Vector.__hash__ b ids').
    { unfold Vector.__hash__, Vector.__iter__.
      now rewrite (imap_hash_eq _ Hhash _ ids ids' Hlen Hall). }
    split; [exact Hsame|].
    now rewrite (has_hash_dispatch a ids Ha), (has_hash_dispatch b ids' Hb), Hsame.
Qed.

(** The float hash of CPython is a hash. *)
Lemma py_hash_double_Py_hash_t (x : float) : Py_hash_t (py_hash_double x).
Proof.
  unfold Py_hash_t, py_hash_double, _PyHASH_INF.
  destruct (Prim2SF x) as [s|s| |s m e]; try destruct s; try lia.
  - pose proof (Z.mod_pos_bound (Z.pos m * 2 ^ (e mod _PyHASH_BITS))
                  _PyHASH_MODULUS ltac:(reflexivity)) as Hm.
    unfold _PyHASH_MODULUS in *.
    destruct (Z.eqb_spec (- ((Z.pos m * 2 ^ (e mod _PyHASH_BITS))
                             mod (2 ^ 61 - 1))) (-1)); lia.
  - pose proof (Z.mod_pos_bound (Z.pos m * 2 ^ (e mod _PyHASH_BITS))
                  _PyHASH_MODULUS ltac:(reflexivity)) as Hm.
    unfold _PyHASH_MODULUS in *.
    destruct (Z.eqb_spec ((Z.pos m * 2 ^ (e mod _PyHASH_BITS))
                          mod (2 ^ 61 - 1)) (-1)); lia.
Qed.

Lemma Vector_hash_xor_witness :
  let a := __init__ Vector_t [1; 2]%float in
  let b := __init__ Vector4_t [1; 2]%float in
  let ids := fun _ : nat => 0 in
  (forall x y, PrimFloat.eqb x y = true -> py_hash_double x = py_hash_double y) /\
  (forall x, Py_hash_t (py_hash_double x)) /\
  (forall i, Py_hash_t (ids i)) /\
  has_hash (ob_type a) = true /\ has_hash (ob_type b) = true /\
  Vector.__eq__ a (as_object b) = Ok true /\
  @Vector.__hash__ reference_builtins a ids = 3 /\
  @py_hash reference_builtins a ids = Ok 3 /\
  @py_hash reference_builtins a ids = @py_hash reference_builtins b ids.
Proof.
  assert (Hids : forall i : nat, Py_hash_t ((fun _ : nat => 0) i))
    by (intros i; unfold Py_hash_t; lia).
  pose proof (@Vector_hash_xor reference_builtins py_hash_double_eq
                py_hash_double_Py_hash_t (__init__ Vector_t [1; 2]%float)
                (fun _ => 0) Hids eq_refl) as (Hr & Hpy & _ & _ & Heq).
  split; [exact py_hash_double_eq|]. split; [exact py_hash_double_Py_hash_t|].
  split; [exact Hids|]. split; [reflexivity|]. split; [reflexivity|].
  split; [reflexivity|]. split; [exact Hr|]. split; [exact Hpy|].
  exact (proj2 (Heq (__init__ Vector4_t [1; 2]%float) (fun _ => 0) Hids
                  eq_refl eq_refl)).
Defined.

(** C4, as stated, fails where the reduction is [-1]: the hashes of the
    components of [Vector([1, -2])] are 1 and [-2], their xor is [-1], and
    [hash(v)] is [-2]. *)
Lemma Vector_hash_minus_one :
  let v := __init__ Vector_t [1; -2]%float in
  map py_hash_double (_components v) = [1; -2] /\
  fold_left Z.lxor (map py_hash_double (_components v)) 0 = -1 /\
  @Vector.__hash__ reference_builtins v (fun _ => 0) = -1 /\
  @py_hash reference_builtins v (fun _ => 0) = Ok (-2).
Proof. repeat split; vm_compute; reflexivity. Qed.

(** ** The hash as an aggregate *)

Lemma fold_left_lxor (hs : list Z) :
  forall h, fold_left Z.lxor hs h = Z.lxor h (fold_left Z.lxor hs 0).
Proof.
  induction hs as [|x hs IH]; intros h; cbn [fold_left].
  - now rewrite Z.lxor_0_r.
  - rewrite (IH (Z.lxor h x)), (IH (Z.lxor 0 x)).
    now rewrite Z.lxor_0_l, Z.lxor_assoc.
Qed.

Lemma fold_left_lxor_Permutation (hs hs' : list Z) :
  Permutation hs hs' -> fold_left Z.lxor hs 0 = fold_left Z.lxor hs' 0.
Proof.
  induction 1 as [|x l l' _ IH|x y l|l l' l'' _ IH1 _ IH2]; cbn [fold_left].
  - reflexivity.
  - rewrite (fold_left_lxor l), (fold_left_lxor l'). now rewrite IH.
  - rewrite !Z.lxor_0_l. f_equal. apply Z.lxor_comm.
  - congruence.
Qed.

(** X4: What [__hash__] of take #4 and of the final class returns, as an
    aggregate.  Among Vectors with no NaN component it looks at the
    components as a bag: a rearrangement of the components has the same
    hash, and a component that is not a NaN and comes twice cancels out.
    The hash of a concatenation is the xor of the hashes of the two parts,
    each float object keeping its identity.  NaN components do not cancel:
    the hash of [Vector([nan, nan])] is the xor of the identity hashes of
    the two float objects that the iteration makes. *)
Theorem Vector_hash_aggregate `{Builtins} (cls : vclass) (cs : list float)
  (ids : nat -> Z) :
  (forall cs' ids',
     Forall (fun x => PrimFloat.is_nan x = false) cs ->
     Permutation cs cs' ->
     Vector.__hash__ (__init__ cls cs) ids
     = Vector.__hash__ (__init__ cls cs') ids') /\
  (forall cs',
     Vector.__hash__ (__init__ cls (cs ++ cs')) ids
     = Z.lxor (Vector.__hash__ (__init__ cls cs) ids)
              (Vector.__hash__ (__init__ cls cs')
                 (fun i => ids (length cs + i)%nat))) /\
  (forall x,
     PrimFloat.is_nan x = false ->
     Vector.__hash__ (__init__ cls (x :: x :: cs)) ids
     = Vector.__hash__ (__init__ cls cs) (fun i => ids (S (S i)))) /\
  Vector.__hash__ (__init__ cls [nan; nan]%float) ids
  = Z.lxor (ids 0%nat) (ids 1%nat).
Proof.
  unfold Vector.__hash__, Vector.__iter__, __init__. cbn [_components].
  split; [|split; [|split]].
  - intros cs' ids' Hnan Hperm. rewrite !functools_reduce_fold_left.
    assert (Hnan' : Forall (fun x => PrimFloat.is_nan x = false) cs').
    { apply List.Forall_forall. intros x Hx.
      apply (proj1 (List.Forall_forall _ _) Hnan).
      apply (Permutation_in x (Permutation_sym Hperm) Hx). }
    rewrite (imap_hash_no_nan cs Hnan), (imap_hash_no_nan cs' Hnan').
    apply fold_left_lxor_Permutation. now apply Permutation_map.
  - intros cs'. rewrite !functools_reduce_fold_left.
    rewrite imap_app, fold_left_app. apply fold_left_lxor.
  - intros x Hx. rewrite !functools_reduce_fold_left.
    rewrite !imap_cons. cbn [fold_left]. unfold compose. cbn beta.
    assert (E : forall id_hash, float_object_hash x id_hash = float_hash x).
    { intros id_hash. unfold float_object_hash. now rewrite Hx. }
    rewrite !E, Z.lxor_0_l, Z.lxor_nilpotent. reflexivity.
  - reflexivity.
Qed.

Lemma Vector_hash_aggregate_witness :
  Forall (fun x => PrimFloat.is_nan x = false) [1; 2; 3]%float /\
  Permutation [1; 2; 3]%float [3; 1; 2]%float /\
  @Vector.__hash__ reference_builtins (__init__ Vector_t [1; 2; 3]%float)
    (fun i => Z.of_nat i)
  = @Vector.__hash__ reference_builtins (__init__ Vector_t [3; 1; 2]%float)
      (fun i => 7).
Proof.
  assert (Hnan : Forall (fun x => PrimFloat.is_nan x = false) [1; 2; 3]%float)
    by (repeat constructor).
  assert (Hperm : Permutation [1; 2; 3]%float [3; 1; 2]%float).
  { symmetry. apply (Permutation_cons_append [1; 2]%float 3%float). }
  split; [exact Hnan|]. split; [exact Hperm|].
  exact (proj1 (@Vector_hash_aggregate reference_builtins Vector_t
                  [1; 2; 3]%float (fun i => Z.of_nat i)) _ (fun i => 7)
           Hnan Hperm).
Defined.

(** ** Reading an attribute *)

Lemma tuple_index_lookup (items : list string) (x : string) :
  NoDup items ->
  forall p, items !! p = Some x -> tuple_index items x = Ok (Z.of_nat p).
Proof.
  induction 1 as [|y items Hy _ IH]; intros [|p] Hp; try discriminate.
  - injection Hp as ->. cbn. now rewrite String.eqb_refl.
  - cbn in Hp. cbn [tuple_index].
    destruct (String.eqb_spec y x) as [->|_].
    + exfalso. apply Hy. eapply list_elem_of_lookup_2. exact Hp.
    + rewrite (IH p Hp). cbn. f_equal. lia.
Qed.

Lemma tuple_index_missing (items : list string) (x : string) :
  ~ In x items -> tuple_index items x = Raise ValueError.
Proof.
  induction items as [|y items IH]; intros Hx; [reflexivity|].
  cbn [tuple_index]. destruct (String.eqb_spec y x) as [->|_].
  - exfalso. apply Hx. now left.
  - rewrite IH; [reflexivity|]. intros Hin. apply Hx. now right.
Qed.

Lemma match_args_NoDup : NoDup __match_args__.
Proof. apply (bool_decide_unpack _). reflexivity. Qed.

Lemma seq_item_lookup {A} (items : list A) (p : nat) (x : A) :
  items !! p = Some x -> seq_item items (Z.of_nat p) = Ok x.
Proof.
  intros Hp. unfold seq_item, item_at.
  destruct (Z.ltb_spec (Z.of_nat p) 0); [lia|].
  destruct (Z.ltb_spec (Z.of_nat p) 0); [lia|].
  now rewrite Nat2Z.id, Hp.
Qed.

(** X5: [__getattr__], as [vector3], [Vector3] and [Vector] define it: the
    name of position [p] in [__match_args__] reads component [p], as
    [v[p]] does, when the Vector has one, and is an [AttributeError] when
    the Vector is too short; every other name is an [AttributeError].  The
    message names the class of the instance and the attribute.  The method
    of [Vector] prints a line first and answers the same. *)
Theorem Vector_getattr_dynamic (self : instance) (name : string) :
  (forall p, __match_args__ !! p = Some name ->
     Vector3.__getattr__ self name
     = match _components self !! p with
       | Some x => Ok (PyFloat x)
       | None => Raise (AttributeError (no_attribute (ob_type self) name))
       end /\
     (Z.of_nat p < Vector.__len__ self ->
      Vector3.__getattr__ self name
      = Vector.__getitem__ self (PyInt (Z.of_nat p)))) /\
  (~ In name __match_args__ ->
   Vector3.__getattr__ self name
   = Raise (AttributeError (no_attribute (ob_type self) name))) /\
  Vector.__getattr__ self name = (["test"], Vector3.__getattr__ self name).
Proof.
  split; [|split; [|reflexivity]].
  - intros p Hp.
    assert (Hget : Vector3.__getattr__ self name
                   = match _components self !! p with
                     | Some x => Ok (PyFloat x)
                     | None =>
                         Raise (AttributeError (no_attribute (ob_type self) name))
                     end).
    { unfold Vector3.__getattr__.
      rewrite (tuple_index_lookup _ _ match_args_NoDup p Hp). cbn [bind].
      destruct (Z.leb_spec 0 (Z.of_nat p)); [|lia]. cbn [andb].
      destruct (_components self !! p) as [x|] eqn:E.
      - pose proof (lookup_lt_Some _ _ _ E).
        destruct (Z.ltb_spec (Z.of_nat p)
                    (Z.of_nat (length (_components self)))); [|lia].
        now rewrite (seq_item_lookup _ _ _ E).
      - apply lookup_ge_None in E.
        destruct (Z.ltb_spec (Z.of_nat p)
                    (Z.of_nat (length (_components self)))); [lia|].
        reflexivity. }
    split; [exact Hget|].
    unfold Vector.__len__. intros Hlt. rewrite Hget.
    destruct (lookup_lt_is_Some_2 (_components self) p) as [x Hx]; [lia|].
    rewrite Hx. cbn. now rewrite (seq_item_lookup _ _ _ Hx).
  - intros Hname. unfold Vector3.__getattr__.
    now rewrite (tuple_index_missing _ _ Hname).
Qed.

Lemma Vector_getattr_dynamic_witness :
  let self := __init__ Vector_t [0; 1; 2]%float in
  __match_args__ !! 1%nat = Some "y" /\
  Vector3.__getattr__ self "y" = Ok (PyFloat 1) /\
  Z.of_nat 1 < Vector.__len__ self /\
  Vector3.__getattr__ self "y" = Vector.__getitem__ self (PyInt (Z.of_nat 1)).
Proof.
  split; [reflexivity|].
  split; [exact (proj1 (proj1 (Vector_getattr_dynamic
                   (__init__ Vector_t [0; 1; 2]%float) "y") 1%nat eq_refl))|].
  split; [reflexivity|].
  apply (proj2 (proj1 (Vector_getattr_dynamic
                  (__init__ Vector_t [0; 1; 2]%float) "y") 1%nat eq_refl)).
  reflexivity.
Defined.

(** ** Writing an attribute *)

Lemma is_public_not_components (name : string) :
  is_public name = true -> String.eqb name "_components" = false.
Proof.
  destruct name as [|c rest]; [reflexivity|]. cbn.
  destruct (Ascii.eqb c "_"); [discriminate | reflexivity].
Qed.

(** What a write that binds leaves: the class and the buffer as they
    were, and the name bound on the instance. *)
Lemma object_setattr_public (name : string) (value : pyobj) (self : instance) :
  is_public name = true ->
  object_setattr name value self
  = (Ok tt, {| ob_type := ob_type self; _components := _components self;
               __dict__ := <[name := value]> (__dict__ self) |}).
Proof.
  intros Hname. unfold object_setattr.
  now rewrite (is_public_not_components name Hname).
Qed.

(** X6: On the classes without [__setattr__] ([Vector1], [Vector2], [vector3]
    and the final [Vector]) a write to a public name always succeeds and
    binds the name on the instance: the name then reads as the value
    written, without [__getattr__] being called, also when it is one of
    [x], [y], [z], [t]; the components, the class and what every other name
    reads as are untouched. *)
Theorem Vector_setattr_then_getattr (self : instance) (name : string)
  (value : pyobj) :
  has_setattr (ob_type self) = false ->
  is_public name = true ->
  let self' := (py_setattr name value self).2 in
  (py_setattr name value self).1 = Ok tt /\
  py_getattr self' name = ([], Ok value) /\
  _components self' = _components self /\
  ob_type self' = ob_type self /\
  (forall other, other <> name -> py_getattr self' other = py_getattr self other).
Proof.
  intros Hcls Hname.
  assert (Hset : py_setattr name value self = object_setattr name value self).
  { unfold py_setattr. unfold has_setattr in Hcls.
    destruct (defining_class (ob_type self) "__setattr__");
      [discriminate | reflexivity]. }
  rewrite Hset, (object_setattr_public name value self Hname). cbn [fst snd].
  split; [reflexivity|]. split; [|split; [reflexivity|split; [reflexivity|]]].
  - unfold py_getattr. rewrite (is_public_not_components name Hname).
    cbn [__dict__]. now rewrite lookup_insert_eq.
  - intros other Hother. unfold py_getattr. cbn [__dict__ ob_type _components].
    rewrite lookup_insert_ne by congruence. reflexivity.
Qed.

Lemma Vector_setattr_then_getattr_witness :
  let self := __init__ vector3_t [0; 1; 2; 3; 4]%float in
  let self' := (py_setattr "x" (PyInt 10) self).2 in
  has_setattr (ob_type self) = false /\
  is_public "x" = true /\
  (py_setattr "x" (PyInt 10) self).1 = Ok tt /\
  py_getattr self' "x" = ([], Ok (PyInt 10)) /\
  _components self' = _components self /\
  ob_type self' = ob_type self /\
  (forall other, other <> "x" -> py_getattr self' other = py_getattr self other).
Proof.
  split; [reflexivity|]. split; [reflexivity|].
  apply (Vector_setattr_then_getattr (__init__ vector3_t [0; 1; 2; 3; 4]%float)
           "x" (PyInt 10)); reflexivity.
Defined.

Lemma tuple_contains_In (items : list string) (x : string) :
  tuple_contains items x = true <-> In x items.
Proof.
  unfold tuple_contains. rewrite existsb_exists. split.
  - intros (y & Hy & E). apply String.eqb_eq in E. now subst.
  - intros Hx. exists x. split; [exact Hx | apply String.eqb_refl].
Qed.

Lemma has_setattr_cases (cls : vclass) :
  has_setattr cls = true -> cls = Vector3_t \/ cls = Vector4_t.
Proof. destruct cls; try discriminate; auto. Qed.

Lemma has_setattr_dispatch (name : string) (value : pyobj) (self : instance) :
  has_setattr (ob_type self) = true ->
  py_setattr name value self = Vector3.__setattr__ name value self.
Proof.
  unfold has_setattr, py_setattr.
  destruct (defining_class (ob_type self) "__setattr__");
    [reflexivity | discriminate].
Qed.

(** X7: The guard of [Vector3], which [Vector4] inherits.  A write to [x],
    [y], [z] or [t] raises [AttributeError("readonly attribute 'x'")]
    (with the name written); a write to another lowercase letter raises
    the [AttributeError] that names the class of the instance; both leave
    the instance as it was.  A write to any other name of ASCII
    characters, longer names and single characters that are not lowercase
    letters, is the plain write of [object]. *)
Theorem Vector3_setattr_guard (self : instance) (name : string)
  (value : pyobj) :
  has_setattr (ob_type self) = true ->
  (In name __match_args__ ->
   py_setattr name value self
   = (Raise (AttributeError ("readonly attribute " +:+ str_repr name)), self)) /\
  (forall c, name = String c EmptyString -> is_ascii_lower c = true ->
     ~ In name __match_args__ ->
     py_setattr name value self
     = (Raise (AttributeError
                 ("can't set attributes 'a' to 'z' in "
                  +:+ str_repr (__name__ (ob_type self)))), self)) /\
  (forallb is_ascii (chars name) = true ->
   (forall c, name = String c EmptyString -> is_ascii_lower c = false) ->
   py_setattr name value self = object_setattr name value self).
Proof.
  intros Hcls. rewrite (has_setattr_dispatch name value self Hcls).
  apply has_setattr_cases in Hcls.
  split; [|split].
  - intros Hname. cbn in Hname.
    destruct Hname as [<-|[<-|[<-|[<-|[]]]]];
      destruct Hcls as [E|E]; unfold Vector3.__setattr__; rewrite E;
      reflexivity.
  - intros c -> Hc Hname. unfold Vector3.__setattr__.
    change (str_len (String c EmptyString) =? 1) with true. cbn match.
    destruct (tuple_contains __match_args__ (String c EmptyString)) eqn:Hm.
    { apply tuple_contains_In in Hm. contradiction. }
    assert (Hl : str_islower (String c EmptyString) = true).
    { unfold str_islower. cbn. now rewrite (lower_not_upper c Hc), Hc. }
    rewrite Hl. destruct Hcls as [E|E]; rewrite E; reflexivity.
  - intros _ Hname. now apply Vector3_setattr_other.
Qed.

Lemma Vector3_setattr_guard_witness :
  let self := __init__ Vector4_t [0; 1; 2]%float in
  has_setattr (ob_type self) = true /\
  "q" = String "q" EmptyString /\ is_ascii_lower "q" = true /\
  ~ In "q" __match_args__ /\
  py_setattr "q" (PyInt 1) self
  = (Raise (AttributeError "can't set attributes 'a' to 'z' in 'Vector4'"),
     self).
Proof.
  assert (Hq : ~ In "q" __match_args__).
  { cbn. intros [H|[H|[H|[H|[]]]]]; discriminate H. }
  split; [reflexivity|]. split; [reflexivity|]. split; [reflexivity|].
  split; [exact Hq|].
  exact (proj1 (proj2 (Vector3_setattr_guard
                  (__init__ Vector4_t [0; 1; 2]%float) "q" (PyInt 1) eq_refl))
           "q"%char eq_refl eq_refl Hq).
Defined.

(** One attempted write on an instance of a guarded class either changes
    nothing or binds a name that is none of the aliases. *)
Lemma guarded_write_step (name : string) (value : pyobj) (self : instance) :
  has_setattr (ob_type self) = true ->
  is_public name = true ->
  (py_setattr name value self).2 = self \/
  (~ In name __match_args__ /\
   (py_setattr name value self).2
   = {| ob_type := ob_type self; _components := _components self;
        __dict__ := <[name := value]> (__dict__ self) |}).
Proof.
  intros Hcls Hname. rewrite (has_setattr_dispatch name value self Hcls).
  unfold Vector3.__setattr__.
  destruct (str_len name =? 1) eqn:Hlen.
  - destruct (tuple_contains __match_args__ name) eqn:Hm.
    + left.
      match goal with
      | |- context [str_format_kw ?t ?k] => destruct (str_format_kw t k)
      end; reflexivity.
    + destruct (str_islower name).
      * left.
        match goal with
        | |- context [str_format_kw ?t ?k] => destruct (str_format_kw t k)
        end; reflexivity.
      * right. cbn. rewrite (object_setattr_public name value self Hname).
        split; [|reflexivity].
        intros Hin.
        assert (Hm' : tuple_contains __match_args__ name = true)
          by (apply tuple_contains_In; exact Hin).
        congruence.
  - right. rewrite (object_setattr_public name value self Hname).
    split; [|reflexivity].
    intros Hin. cbn in Hin.
    destruct Hin as [<-|[<-|[<-|[<-|[]]]]]; discriminate Hlen.
Qed.

(** X8: On [Vector3] and [Vector4] the aliases cannot be made to disagree with
    the buffer by attribute writes: after any sequence of attempted writes
    to public names, whichever of them raised, the components are the ones
    the instance was built with and [x], [y], [z], [t] still read them
    through [__getattr__]. *)
Theorem Vector3_aliases_follow_components (cls : vclass) (cs : list float)
  (writes : list (string * pyobj)) :
  has_setattr cls = true ->
  Forall (fun w => is_public w.1 = true) writes ->
  let self := py_setattrs writes (__init__ cls cs) in
  ob_type self = cls /\
  _components self = cs /\
  forall name, In name __match_args__ ->
    py_getattr self name = ([], Vector3.__getattr__ (__init__ cls cs) name).
Proof.
  intros Hcls Hwrites. cbn zeta.
  assert (Hinv : forall self,
             ob_type self = cls -> _components self = cs ->
             (forall name, In name __match_args__ -> __dict__ self !! name = None) ->
             let self' := py_setattrs writes self in
             ob_type self' = cls /\ _components self' = cs /\
             forall name, In name __match_args__ -> __dict__ self' !! name = None).
  { induction Hwrites as [|[name value] writes Hname _ IH];
      intros self Hty Hcs Hdict; [cbn; auto|].
    cbn [py_setattrs fold_left fst snd] in *.
    apply IH;
      destruct (guarded_write_step name value self) as [->|[Hnot ->]];
      try congruence; try assumption; try reflexivity.
    intros other Hother. cbn [__dict__].
    rewrite lookup_insert_ne by congruence. now apply Hdict. }
  destruct (Hinv (__init__ cls cs)) as (Hty & Hcs & Hdict);
    [reflexivity | reflexivity | intros; apply lookup_empty |].
  split; [exact Hty|]. split; [exact Hcs|].
  intros name Hname. unfold py_getattr.
  rewrite (Hdict name Hname), Hty.
  unfold Vector3.__getattr__. rewrite Hty, Hcs. cbn [ob_type _components __init__].
  cbn in Hname.
  destruct (has_setattr_cases cls Hcls) as [-> | ->];
    destruct Hname as [<-|[<-|[<-|[<-|[]]]]]; reflexivity.
Qed.

Lemma Vector3_aliases_follow_components_witness :
  let writes := [("x", PyInt 10); ("total", PyInt 3); ("Q", PyNone)] in
  let self := py_setattrs writes (__init__ Vector3_t [0; 1; 2]%float) in
  has_setattr Vector3_t = true /\
  Forall (fun w => is_public w.1 = true) writes /\
  ob_type self = Vector3_t /\
  _components self = [0; 1; 2]%float /\
  forall name, In name __match_args__ ->
    py_getattr self name
    = ([], Vector3.__getattr__ (__init__ Vector3_t [0; 1; 2]%float) name).
Proof.
  split; [reflexivity|]. split; [repeat constructor|].
  apply (Vector3_aliases_follow_components Vector3_t [0; 1; 2]%float
           [("x", PyInt 10); ("total", PyInt 3); ("Q", PyNone)]);
    [reflexivity | repeat constructor].
Defined.

(** ** Slices that compose *)

Lemma getitem_slice_step1 (self : instance) (start stop : option Z) :
  Vector.__getitem__ self (PySlice (index_arg start) (index_arg stop) PyNone)
  = Ok (PyVector (ob_type self) (seq_slice (_components self) start stop 1)).
Proof. destruct start, stop; reflexivity. Qed.

(** Where a bound of a slice of step one lands: counted from the end when
    negative, and clipped to the ends. *)
Lemma slice_indices_step1 (k n : Z) :
  slice_indices None (Some k) 1 n = (0, if k <? 0 then Z.max (k + n) 0 else Z.min k n) /\
  slice_indices (Some k) None 1 n = (if k <? 0 then Z.max (k + n) 0 else Z.min k n, n).
Proof. split; reflexivity. Qed.

(** X9: For every int [k], in range or not and of either sign, [v[:k]] and
    [v[k:]] cut the Vector in two: both are instances of the class of [v],
    neither raises, and the components of the first followed by those of
    the second are the components of [v]. *)
Theorem Vector_getitem_split (self : instance) (k : Z) :
  exists front back,
    Vector.__getitem__ self (PySlice PyNone (PyInt k) PyNone)
    = Ok (PyVector (ob_type self) front) /\
    Vector.__getitem__ self (PySlice (PyInt k) PyNone PyNone)
    = Ok (PyVector (ob_type self) back) /\
    (front ++ back)%list = _components self.
Proof.
  exists (seq_slice (_components self) None (Some k) 1),
         (seq_slice (_components self) (Some k) None 1).
  split; [apply (getitem_slice_step1 self None (Some k))|].
  split; [apply (getitem_slice_step1 self (Some k) None)|].
  pose proof (seq_slice_step1 (_components self) None (Some k)) as H1.
  pose proof (seq_slice_step1 (_components self) (Some k) None) as H2.
  cbn zeta in H1, H2.
  destruct (slice_indices_step1 k (Z.of_nat (length (_components self))))
    as [E1 E2].
  rewrite E1 in H1. rewrite E2 in H2. cbn [fst snd] in H1, H2.
  destruct H1 as (_ & Hc & ->). destruct H2 as (_ & _ & ->).
  set (c := if k <? 0 then Z.max (k + Z.of_nat (length (_components self))) 0
            else Z.min k (Z.of_nat (length (_components self)))) in *.
  rewrite Z.sub_0_r. change (Z.to_nat 0) with 0%nat. rewrite drop_0.
  rewrite (take_ge (drop (Z.to_nat c) (_components self)))
    by (rewrite length_drop; lia).
  apply take_drop.
Qed.

Lemma seq_slice_reverse {A} (items : list A) :
  seq_slice items None None (-1) = rev items.
Proof.
  pose proof (seq_slice_spec items None None (-1) ltac:(lia)) as H.
  cbn zeta in H.
  change (slice_indices None None (-1) (Z.of_nat (length items)))
    with (Z.of_nat (length items) - 1, -1) in H.
  cbn [fst snd] in H.
  assert (Hlen : slice_length (Z.of_nat (length items) - 1) (-1) (-1)
                 = Z.of_nat (length items)).
  { unfold slice_length. change (-1 <? 0) with true. cbn match.
    destruct (Z.ltb_spec (-1) (Z.of_nat (length items) - 1)).
    - change (- -1) with 1. rewrite Z.div_1_r. lia.
    - lia. }
  rewrite Hlen in H. destruct H as [Hl Hnth].
  rewrite rev_alt. change (rev_append items []) with (reverse items).
  apply list_eq. intros p.
  destruct (Nat.lt_ge_cases p (length items)) as [Hp|Hp].
  - specialize (Hnth (Z.of_nat p) ltac:(lia)). destruct Hnth as [_ Hnth].
    rewrite Nat2Z.id in Hnth. rewrite Hnth.
    rewrite reverse_lookup by exact Hp. f_equal. lia.
  - rewrite !lookup_ge_None_2; [reflexivity | rewrite length_reverse; lia | lia].
Qed.

(** X10: [v[:]] is a copy of [v] and [v[::-1]] is [v] reversed, both of the
    class of [v]; reversing twice gives the components back. *)
Theorem Vector_getitem_reverse (self : instance) :
  let cls := ob_type self in
  let cs := _components self in
  Vector.__getitem__ self (PySlice PyNone PyNone PyNone) = Ok (PyVector cls cs) /\
  Vector.__getitem__ self (PySlice PyNone PyNone (PyInt (-1)))
  = Ok (PyVector cls (rev cs)) /\
  Vector.__getitem__ (__init__ cls (rev cs)) (PySlice PyNone PyNone (PyInt (-1)))
  = Ok (PyVector cls cs).
Proof.
  cbn zeta. split; [|split].
  - pose proof (getitem_slice_step1 self None None) as E.
    cbn [index_arg] in E. rewrite E. do 2 f_equal.
    pose proof (seq_slice_step1 (_components self) None None) as H.
    cbn zeta in H. destruct H as (_ & _ & ->). cbn [slice_indices fst snd].
    change (1 <? 0) with false. cbn match.
    rewrite Z.sub_0_r, Nat2Z.id. change (Z.to_nat 0) with 0%nat.
    rewrite drop_0. apply firstn_all.
  - change (Ok (PyVector (ob_type self)
                  (seq_slice (_components self) None None (-1)))
            = Ok (PyVector (ob_type self) (rev (_components self)))).
    now rewrite seq_slice_reverse.
  - change (Ok (PyVector (ob_type self)
                  (seq_slice (rev (_components self)) None None (-1)))
            = Ok (PyVector (ob_type self) (_components self))).
    now rewrite seq_slice_reverse, rev_involutive.
Qed.

(** X11: Indexing a slice: for [0 <= a <= b <= len(v)] the slice [v[a:b]] has
    [b - a] components, and its item [i] is [v[a + i]]. *)
Theorem Vector_getitem_slice_item (self : instance) (a b i : Z) :
  0 <= a <= b -> b <= Vector.__len__ self -> 0 <= i < b - a ->
  exists sel,
    Vector.__getitem__ self (PySlice (PyInt a) (PyInt b) PyNone)
    = Ok (PyVector (ob_type self) sel) /\
    Vector.__len__ (__init__ (ob_type self) sel) = b - a /\
    Vector.__getitem__ (__init__ (ob_type self) sel) (PyInt i)
    = Vector.__getitem__ self (PyInt (a + i)).
Proof.
  unfold Vector.__len__. intros Hab Hb Hi.
  exists (seq_slice (_components self) (Some a) (Some b) 1).
  split; [apply (getitem_slice_step1 self (Some a) (Some b))|].
  pose proof (seq_slice_step1 (_components self) (Some a) (Some b)) as H.
  cbn zeta in H. unfold slice_indices in H. cbn [fst snd] in H.
  change (1 <? 0) with false in H. cbn match in H.
  destruct (Z.ltb_spec a 0); [lia|]. destruct (Z.ltb_spec b 0); [lia|].
  rewrite !Z.min_l in H by lia. destruct H as (_ & _ & ->).
  cbn [__init__ _components].
  split.
  - rewrite length_take, length_drop. lia.
  - unfold Vector.__getitem__. cbn [operator_index bind __init__ _components].
    destruct (lookup_lt_is_Some_2 (_components self) (Z.to_nat (a + i)))
      as [x Hx]; [lia|].
    assert (Hsel : take (Z.to_nat (b - a)) (drop (Z.to_nat a) (_components self))
                   !! Z.to_nat i = Some x).
    { rewrite lookup_take_lt by lia. rewrite lookup_drop.
      rewrite <- Hx. f_equal. lia. }
    rewrite <- (Z2Nat.id i) at 1 by lia.
    rewrite (seq_item_lookup _ _ _ Hsel).
    rewrite <- (Z2Nat.id (a + i)) by lia.
    now rewrite (seq_item_lookup _ _ _ Hx).
Qed.

Lemma Vector_getitem_slice_item_witness :
  let self := __init__ Vector2_t [0; 1; 2; 3; 4; 5; 6]%float in
  0 <= 1 <= 4 /\ 4 <= Vector.__len__ self /\ 0 <= 2 < 4 - 1 /\
  exists sel,
    Vector.__getitem__ self (PySlice (PyInt 1) (PyInt 4) PyNone)
    = Ok (PyVector (ob_type self) sel) /\
    Vector.__len__ (__init__ (ob_type self) sel) = 4 - 1 /\
    Vector.__getitem__ (__init__ (ob_type self) sel) (PyInt 2)
    = Vector.__getitem__ self (PyInt (1 + 2)).
Proof.
  split; [lia|]. split; [vm_compute; discriminate|]. split; [lia|].
  apply (Vector_getitem_slice_item
           (__init__ Vector2_t [0; 1; 2; 3; 4; 5; 6]%float) 1 4 2);
    [lia | vm_compute; discriminate | lia].
Defined.

(** ** Slices that raise *)

Lemma slice_member_raises (o : pyobj) (e : exn) :
  slice_member o = Raise e -> e = TypeError.
Proof. destruct o; cbn; congruence. Qed.

(** X12: How [v[start:stop:step]] fails.  A step that is an index and zero is a
    [ValueError], whatever the bounds are; otherwise a member that is
    neither [None] nor an index (a float, say) is a [TypeError]; otherwise
    the slice succeeds.  A slice never raises an [IndexError], however far
    out of range its bounds. *)
Theorem Vector_getitem_slice_errors (self : instance) (start stop step : pyobj) :
  let r := Vector.__getitem__ self (PySlice start stop step) in
  (r = Raise ValueError <-> slice_member step = Ok (Some 0)) /\
  ((exists v, r = Ok v) <->
   exists i j k, slice_member start = Ok i /\ slice_member stop = Ok j /\
                 slice_member step = Ok k /\ k <> Some 0) /\
  (forall e, r = Raise e -> e = ValueError \/ e = TypeError) /\
  (forall x, Vector.__getitem__ self (PySlice (PyFloat x) stop PyNone)
             = Raise TypeError).
Proof.
  cbn zeta. split; [|split; [|split]]; [| | |reflexivity].
  all: unfold Vector.__getitem__, array_slice, slice_unpack.
  all: destruct (slice_member step) as [[k|]|e1] eqn:Ek;
    cbn [bind default from_option id];
    [ destruct (Z.eqb_spec k 0) as [->|Hk]
    | change (1 =? 0) with false; cbn match
    | apply slice_member_raises in Ek as -> ].
  all: try (destruct (slice_member start) as [i|e2] eqn:Ei; cbn [bind];
            [ destruct (slice_member stop) as [j|e3] eqn:Ej; cbn [bind];
              [| apply slice_member_raises in Ej as -> ]
            | apply slice_member_raises in Ei as -> ]).
  all: try (split; intros; congruence).
  all: try (intros e' He; first [discriminate He | injection He as <-]; auto).
  all: split;
    [ intros [v Hv]; try discriminate Hv;
      eexists _, _, _; repeat split; try reflexivity; congruence
    | intros (i' & j' & k' & Hi' & Hj' & Hk' & Hne); try congruence; eauto ].
Qed.

(** ** Decoding bytes *)

Lemma length_unpack_doubles (order : byteorder) (n : nat) :
  forall octets, length octets = (8 * n)%nat ->
                 length (unpack_doubles order octets) = n.
Proof.
  induction n as [|n IH]; intros octets Hlen.
  - destruct octets; [reflexivity | discriminate].
  - do 8 (destruct octets as [|? octets]; [cbn in Hlen; lia|]).
    cbn [unpack_doubles length]. f_equal. apply IH. cbn in Hlen. lia.
Qed.

(** X13: What [frombytes] does with its input, for the type code ['d'] that
    [__bytes__] writes: no bytes at all is an [IndexError] (there is no
    first byte to read); a payload whose length is not a multiple of
    eight is a [TypeError] of the cast; any other payload, whatever its
    bytes, decodes to an instance of the class [frombytes] was called on,
    with one component for every eight bytes. *)
Theorem Vector_frombytes_decode `{Builtins} (cls : vclass)
  (payload : list Byte.byte) :
  Vector.frombytes cls [] = Some (Raise IndexError) /\
  (Z.of_nat (length payload) mod 8 <> 0 ->
   Vector.frombytes cls (Byte.x64 :: payload) = Some (Raise TypeError)) /\
  (Z.of_nat (length payload) mod 8 = 0 ->
   exists cs,
     Vector.frombytes cls (Byte.x64 :: payload) = Some (Ok (PyVector cls cs)) /\
     8 * Z.of_nat (length cs) = Z.of_nat (length payload)).
Proof.
  split; [reflexivity|].
  unfold Vector.frombytes, memoryview_cast_d.
  change (Ascii.eqb (ascii_of_byte Byte.x64) "d") with true. cbn match.
  split; intros Hlen.
  - destruct (Z.eqb_spec (Z.of_nat (length payload) mod 8) 0); [lia|].
    reflexivity.
  - rewrite Hlen. cbn [Z.eqb bind].
    exists (unpack_doubles sys_byteorder payload). split; [reflexivity|].
    apply Z.mod_divide in Hlen as [q Hq]; [|lia].
    rewrite (length_unpack_doubles _ (Z.to_nat q)); lia.
Qed.

Lemma Vector_frombytes_decode_witness :
  Z.of_nat (length [Byte.x00; Byte.x01; Byte.x02]) mod 8 <> 0 /\
  @Vector.frombytes reference_builtins Vector_t
    [Byte.x64; Byte.x00; Byte.x01; Byte.x02]
  = Some (Raise TypeError).
Proof.
  assert (H : Z.of_nat (length [Byte.x00; Byte.x01; Byte.x02]) mod 8 <> 0)
    by (vm_compute; discriminate).
  split; [exact H|].
  exact (proj1 (proj2 (@Vector_frombytes_decode reference_builtins Vector_t
                         [Byte.x00; Byte.x01; Byte.x02])) H).
Defined.



(** The shapes of mantissa and exponent that are doubles. *)
Lemma valid_finite_intro (s : bool) (m : positive) (e : Z) :
  (Z.pos m < 2 ^ 52 /\ e = -1074) \/
  (2 ^ 52 <= Z.pos m < 2 ^ 53 /\ -1074 <= e <= 971) ->
  valid_binary (S754_finite s m e) = true.
Proof.
  unfold SpecFloat.valid_binary, bounded, canonical_mantissa, fexp,
    SpecFloat.emin, prec, emax.
  pose proof (digits2_pos_bounds m) as Hd.
  set (d := Z.pos (digits2_pos m)) in *.
  assert (Hd1 : 1 <= d) by (unfold d; lia).
  intros [[Hm ->]|[Hm He]]; apply andb_true_intro; split;
    try (apply Z.leb_le; lia); apply Z.eqb_eq.
  - assert (Hle : d <= 52).
    { destruct (Z_le_gt_dec d 52) as [|Hgt]; [assumption|].
      pose proof (Z.pow_le_mono_r 2 52 (d - 1) ltac:(lia) ltac:(lia)). lia. }
    lia.
  - assert (Heq : d = 53).
    { destruct (Z_le_gt_dec d 52) as [Hle|Hgt].
      - pose proof (Z.pow_le_mono_r 2 d 52 ltac:(lia) Hle). lia.
      - destruct (Z_le_gt_dec d 53) as [|Hgt']; [lia|].
        pose proof (Z.pow_le_mono_r 2 53 (d - 1) ltac:(lia) ltac:(lia)). lia. }
    lia.
Qed.

(** The three fields of 64 bits. *)
Lemma bits_split (b : Z) :
  0 <= b < 2 ^ 64 ->
  let s := 2 ^ 63 <=? b in
  let ex := (b / 2 ^ 52) mod 2 ^ 11 in
  let frac := b mod 2 ^ 52 in
  0 <= ex < 2048 /\ 0 <= frac < 2 ^ 52 /\
  b = Z.b2z s * 2 ^ 63 + ex * 2 ^ 52 + frac.
Proof.
  intros Hb. cbn zeta.
  change (2 ^ 64) with (4096 * 2 ^ 52) in Hb.
  change (2 ^ 63) with (2048 * 2 ^ 52). change (2 ^ 11) with 2048.
  set (p := 2 ^ 52) in *. assert (Hp : 0 < p) by (unfold p; lia).
  pose proof (Z.div_mod b p ltac:(lia)) as Hdm.
  pose proof (Z.mod_pos_bound b p Hp) as Hfrac.
  set (q := b / p) in *. set (frac := b mod p) in *.
  assert (Hq : 0 <= q < 4096) by nia.
  pose proof (Z.div_mod q 2048 ltac:(lia)) as Hdm'.
  pose proof (Z.mod_pos_bound q 2048 ltac:(lia)) as Hex.
  split; [exact Hex|]. split; [exact Hfrac|].
  destruct (Z.leb_spec (2048 * p) b) as [Hs|Hs]; cbn [Z.b2z].
  - assert (q / 2048 = 1) by nia. nia.
  - assert (q / 2048 = 0) by nia. nia.
Qed.

Lemma bits_of_float_of_bits (b : Z) :
  0 <= b < 2 ^ 64 ->
  PrimFloat.is_nan (float_of_bits b) = false ->
  bits_of_float (float_of_bits b) = b.
Proof.
  intros Hb. destruct (bits_split b Hb) as (Hex & Hfrac & Hsum).
  cbn zeta in Hex, Hfrac, Hsum. unfold float_of_bits.
  set (s := 2 ^ 63 <=? b) in *. set (ex := (b / 2 ^ 52) mod 2 ^ 11) in *.
  set (frac := b mod 2 ^ 52) in *.
  destruct (Z.eqb_spec ex 0) as [E0|E0].
  - destruct frac as [|m|m] eqn:Ef; [| |lia]; intros _; unfold bits_of_float.
    + rewrite Prim2SF_SF2Prim by reflexivity. lia.
    + rewrite Prim2SF_SF2Prim by (apply valid_finite_intro; lia).
      destruct (Z.ltb_spec (Z.pos m) (2 ^ 52)); lia.
  - destruct (Z.eqb_spec ex 2047) as [E1|E1].
    + destruct (Z.eqb_spec frac 0) as [Ef|Ef].
      * intros _. unfold bits_of_float.
        rewrite Prim2SF_SF2Prim by reflexivity. lia.
      * intros Hnan. exfalso. revert Hnan. vm_compute. discriminate.
    + destruct (frac + 2 ^ 52) as [|m|m] eqn:Em; [lia| |lia].
      intros _. unfold bits_of_float.
      rewrite Prim2SF_SF2Prim by (apply valid_finite_intro; lia).
      destruct (Z.ltb_spec (Z.pos m) (2 ^ 52)); lia.
Qed.

Lemma byte_of_Z_of_byte (b : Byte.byte) : byte_of_Z (Z_of_byte b) = b.
Proof.
  unfold byte_of_Z, Z_of_byte. now rewrite N2Z.id, Byte.of_to_N.
Qed.

Lemma Z_of_byte_range (b : Byte.byte) : 0 <= Z_of_byte b < 256.
Proof.
  unfold Z_of_byte. pose proof (Byte.to_N_bounded b). lia.
Qed.

Lemma le_value_range (bs : list Byte.byte) :
  0 <= le_value bs < 256 ^ Z.of_nat (length bs).
Proof.
  induction bs as [|b bs IH]; [cbn; lia|].
  cbn [le_value length]. rewrite Nat2Z.inj_succ, Z.pow_succ_r by lia.
  pose proof (Z_of_byte_range b). lia.
Qed.

Lemma le_bytes_le_value (bs : list Byte.byte) :
  le_bytes (length bs) (le_value bs) = bs.
Proof.
  induction bs as [|b bs IH]; [reflexivity|].
  cbn [le_value length le_bytes].
  pose proof (Z_of_byte_range b) as Hb.
  replace ((Z_of_byte b + 256 * le_value bs) mod 256) with (Z_of_byte b)
    by (apply Z.mod_unique with (q := le_value bs); lia).
  replace ((Z_of_byte b + 256 * le_value bs) / 256) with (le_value bs)
    by (apply Z.div_unique with (r := Z_of_byte b); lia).
  now rewrite byte_of_Z_of_byte, IH.
Qed.

Lemma length_native (order : byteorder) (bs : list Byte.byte) :
  length (native order bs) = length bs.
Proof. destruct order; [reflexivity | apply length_rev]. Qed.

(** Eight bytes that do not decode to a NaN are the bytes of the double
    they decode to. *)
Lemma double_bytes_double_of_bytes (order : byteorder) (bs : list Byte.byte) :
  length bs = 8%nat ->
  PrimFloat.is_nan (double_of_bytes order bs) = false ->
  double_bytes order (double_of_bytes order bs) = bs.
Proof.
  intros Hlen Hnan. unfold double_bytes, double_of_bytes in *.
  pose proof (le_value_range (native order bs)) as Hr.
  rewrite length_native, Hlen in Hr.
  rewrite bits_of_float_of_bits; [| exact Hr | exact Hnan].
  rewrite <- Hlen, <- (length_native order bs), le_bytes_le_value.
  apply native_involutive.
Qed.

Lemma tobytes_unpack_doubles (order : byteorder) (n : nat) :
  forall octets,
    length octets = (8 * n)%nat ->
    Forall (fun x => PrimFloat.is_nan x = false) (unpack_doubles order octets) ->
    array_tobytes order (unpack_doubles order octets) = octets.
Proof.
  induction n as [|n IH]; intros octets Hlen Hnan.
  - destruct octets; [reflexivity | discriminate].
  - do 8 (destruct octets as [|? octets]; [cbn in Hlen; lia|]).
    cbn [unpack_doubles] in *. inversion Hnan as [|? ? Hx Hrest]; subst.
    unfold array_tobytes. cbn [flat_map].
    rewrite double_bytes_double_of_bytes by (reflexivity || exact Hx).
    cbn [app]. do 8 f_equal. apply IH; [cbn in Hlen; lia | exact Hrest].
Qed.

(** X15: The round trip from the bytes: when [frombytes] decodes a payload to
    a Vector none of whose components is a NaN, the bytes of that Vector
    are the type code and the payload again, byte for byte. *)
Theorem Vector_frombytes_roundtrip `{Builtins} (cls : vclass)
  (payload : list Byte.byte) (cs : list float) :
  Vector.frombytes cls (Byte.x64 :: payload) = Some (Ok (PyVector cls cs)) ->
  Forall (fun x => PrimFloat.is_nan x = false) cs ->
  Vector.__bytes__ (__init__ cls cs) = Byte.x64 :: payload.
Proof.
  unfold Vector.frombytes, memoryview_cast_d.
  change (Ascii.eqb (ascii_of_byte Byte.x64) "d") with true. cbn match.
  destruct (Z.eqb_spec (Z.of_nat (length payload) mod 8) 0) as [Hlen|Hlen];
    [|discriminate].
  cbn [bind]. unfold construct, as_object, __init__. cbn [ob_type _components].
  intros [= <-] Hnan. unfold Vector.__bytes__. cbn [_components app].
  f_equal. apply Z.mod_divide in Hlen as [q Hq]; [|lia].
  apply (tobytes_unpack_doubles _ (Z.to_nat q)); [lia | exact Hnan].
Qed.

Lemma Vector_frombytes_roundtrip_witness :
  let payload := [Byte.x00; Byte.x00; Byte.x00; Byte.x00;
                  Byte.x00; Byte.x00; Byte.xf0; Byte.x3f] in
  @Vector.frombytes reference_builtins Vector_t (Byte.x64 :: payload)
  = Some (Ok (PyVector Vector_t [1%float])) /\
  Forall (fun x => PrimFloat.is_nan x = false) [1%float] /\
  @Vector.__bytes__ reference_builtins (__init__ Vector_t [1%float])
  = Byte.x64 :: payload.
Proof.
  split; [vm_compute; reflexivity|]. split; [repeat constructor|].
  apply (@Vector_frombytes_roundtrip reference_builtins Vector_t
           [Byte.x00; Byte.x00; Byte.x00; Byte.x00;
            Byte.x00; Byte.x00; Byte.xf0; Byte.x3f] [1%float]);
    [vm_compute; reflexivity | repeat constructor].
Defined.

(** ** Angles outside the axes *)

(** X16: Where [angle(n)] is defined.  The method reads [v[n:]], which never
    fails, then [v[n - 1]], and [v[-1]] on the last axis; so it returns for
    every [n] from [1 - len(v)] to [len(v)], which is more than the axes 1
    to [len(v) - 1], and raises [IndexError] for every other [n].  The
    empty Vector has no angle at all. *)
Theorem Vector_angle_domain `{Builtins} (self : instance) (n : Z) :
  let len := Vector.__len__ self in
  ((exists a, Vector.angle self n = Ok a) <-> 1 - len <= n <= len) /\
  (~ (1 - len <= n <= len) -> Vector.angle self n = Raise IndexError).
Proof.
  cbn zeta. unfold Vector.__len__.
  set (len := Z.of_nat (length (_components self))).
  assert (Hangle : Vector.angle self n
                   = let! x := seq_item (_components self) (n - 1) in
                     let a := math_atan2
                                (math_hypot (seq_slice (_components self)
                                               (Some n) None 1)) x in
                     let! last_negative :=
                       if n =? len - 1 then
                         let! z := seq_item (_components self) (-1) in
                         Ok (float_lt_int z 0)
                       else Ok false in
                     if last_negative then Ok (math_pi * 2 - a)%float else Ok a).
  { unfold Vector.angle.
    pose proof (getitem_slice_step1 self (Some n) None) as E.
    cbn [index_arg] in E. rewrite E. cbn [bind].
    rewrite unpack_floats_Vector. cbn [bind].
    unfold Vector.__getitem__, Vector.__len__. cbn [operator_index bind].
    fold len.
    destruct (seq_item (_components self) (n - 1)) as [x|e]; [|reflexivity].
    cbn [bind float_arg].
    destruct (n =? len - 1); [|reflexivity].
    destruct (seq_item (_components self) (-1)) as [z|e]; reflexivity. }
  rewrite Hangle. clear Hangle.
  pose proof (seq_item_spec (_components self)) as Hitem. cbn zeta in Hitem.
  fold len in Hitem.
  destruct (Z_le_dec (1 - len) n) as [Hlo|Hlo];
    [destruct (Z_le_dec n len) as [Hhi|Hhi]|].
  - destruct (Hitem (n - 1)) as [Hin _].
    destruct Hin as (x & _ & ->); [lia|]. cbn [bind].
    split; [|lia]. split; [lia|]. intros _.
    destruct (n =? len - 1).
    + destruct (Hitem (-1)) as [Hin _].
      destruct Hin as (z & _ & ->); [lia|]. cbn [bind].
      destruct (float_lt_int z 0); eauto.
    + cbn [bind]. eauto.
  - destruct (Hitem (n - 1)) as [_ Hout]. rewrite Hout by lia. cbn [bind].
    split; [|reflexivity]. split; [intros [a Ha]; discriminate | lia].
  - destruct (Hitem (n - 1)) as [_ Hout]. rewrite Hout by lia. cbn [bind].
    split; [|reflexivity]. split; [intros [a Ha]; discriminate | lia].
Qed.

Lemma Vector_angle_domain_witness :
  let self := __init__ Vector_t [3; 4]%float in
  ~ (1 - Vector.__len__ self <= 3 <= Vector.__len__ self) /\
  @Vector.angle reference_builtins self 3 = Raise IndexError.
Proof.
  assert (H : ~ (1 - Vector.__len__ (__init__ Vector_t [3; 4]%float) <= 3
                 <= Vector.__len__ (__init__ Vector_t [3; 4]%float))).
  { vm_compute. intros [_ Hle]. apply Hle. reflexivity. }
  split; [exact H|].
  exact (proj2 (@Vector_angle_domain reference_builtins
                  (__init__ Vector_t [3; 4]%float) 3) H).
Defined.

Lemma consume_all_Ok {A} (xs : list A) : consume (map Ok xs) = Ok xs.
Proof.
  induction xs as [|x xs IH]; [reflexivity|]. cbn. now rewrite IH.
Qed.



(** ** Formatting at the edges *)

Lemma not_endswith_h (spec : string) :
  (forall p, spec <> p +:+ "h") -> str_endswith spec "h" = false.
Proof.
  intros Hspec. destruct (str_endswith spec "h") eqn:E; [|reflexivity].
  apply str_endswith_char in E as [p ->]. now destruct (Hspec p).
Qed.

(** X18: [format] when there is little or nothing to format.  The empty Vector
    in Cartesian form is ["()"] for every spec, also one that no float
    accepts, since no float is formatted; in hyperspherical form it is the
    magnitude [0.0] alone between angle brackets.  On a Vector with
    components a spec that the first component rejects makes [format]
    raise the component's exception. *)
Theorem Vector_format_edges `{Builtins} (cls : vclass) :
  (forall spec, (forall p, spec <> p +:+ "h") ->
     Vector.__format__ (__init__ cls []) spec = Ok "()") /\
  (forall spec,
     Vector.__format__ (__init__ cls []) (spec +:+ "h")
     = let! magnitude := float_format 0%float spec in
       Ok ("<" +:+ magnitude +:+ ">")) /\
  (forall x cs spec e, (forall p, spec <> p +:+ "h") ->
     float_format x spec = Raise e ->
     Vector.__format__ (__init__ cls (x :: cs)) spec = Raise e).
Proof.
  split; [|split].
  - intros spec Hspec. unfold Vector.__format__.
    now rewrite (not_endswith_h spec Hspec).
  - intros spec. unfold Vector.__format__.
    assert (Hend : str_endswith (spec +:+ "h") "h" = true)
      by (apply str_endswith_char; eauto).
    rewrite Hend, str_slice_but_last.
    change (Vector.angles (__init__ cls [])) with (@nil (outcome float)).
    change (Vector.__abs__ (__init__ cls [])) with 0%float.
    cbn [map consume bind].
    destruct (float_format 0%float spec); reflexivity.
  - intros x cs spec e Hspec Hx. unfold Vector.__format__.
    rewrite (not_endswith_h spec Hspec).
    cbn [__init__ _components Vector.__iter__ map consume bind].
    now rewrite Hx.
Qed.

Lemma Vector_format_edges_witness :
  (forall p, "q" <> p +:+ "h") /\
  @Vector.__format__ reference_builtins (__init__ Vector_t []) "q" = Ok "()" /\
  py_float_format 1%float "q" = Raise ValueError /\
  @Vector.__format__ reference_builtins (__init__ Vector_t [1; 2]%float) "q"
  = Raise ValueError.
Proof.
  assert (Hspec : forall p, "q" <> p +:+ "h").
  { intros p Hp.
    assert (E : str_endswith "q" "h" = true)
      by (apply str_endswith_char; eauto).
    discriminate E. }
  split; [exact Hspec|].
  split; [exact (proj1 (@Vector_format_edges reference_builtins Vector_t)
                   "q" Hspec)|].
  split; [reflexivity|].
  exact (proj2 (proj2 (@Vector_format_edges reference_builtins Vector_t))
           1%float [2%float] "q" ValueError Hspec eq_refl).
Defined.

(** X19: [str(v)] against [format(v, '')], given that the empty spec formats a
    float as its [repr], as [float.__format__] does: the two texts are the
    same for every Vector but those of one component, where [str] is that
    of a one-item tuple, with its comma, and [format] has none. *)
Theorem Vector_str_format `{Builtins} (self : instance) :
  (forall x, float_format x "" = Ok (float_repr x)) ->
  (Vector.__len__ self <> 1 ->
   Vector.__format__ self "" = Ok (Vector.__str__ self)) /\
  (forall x, _components self = [x] ->
     Vector.__str__ self = "(" +:+ float_repr x +:+ ",)" /\
     Vector.__format__ self "" = Ok ("(" +:+ float_repr x +:+ ")")).
Proof.
  intros Hfmt.
  assert (Hformat : Vector.__format__ self ""
                    = Ok ("(" +:+ str_join ", "
                                    (map float_repr (_components self))
                              +:+ ")")).
  { unfold Vector.__format__.
    change (str_endswith "" "h") with false. cbn match.
    unfold Vector.__iter__. rewrite consume_map_Ok.
    rewrite (map_ext _ (fun c => Ok (float_repr c)) Hfmt).
    rewrite <- (map_map float_repr Ok), consume_all_Ok. reflexivity. }
  split.
  - intros Hlen. rewrite Hformat. unfold Vector.__str__, Vector.__iter__,
      Vector.tuple_repr, Vector.__len__ in *.
    destruct (_components self) as [|x [|y cs]]; try reflexivity.
    cbn in Hlen. lia.
  - intros x Hx. rewrite Hformat. unfold Vector.__str__, Vector.__iter__.
    rewrite Hx. split; reflexivity.
Qed.

Lemma Vector_str_format_witness :
  (forall x, py_float_format x "" = Ok (py_float_repr x)) /\
  let self := __init__ Vector_t [0; 1; 2]%float in
  Vector.__len__ self <> 1 /\
  @Vector.__format__ reference_builtins self ""
  = Ok (@Vector.__str__ reference_builtins self).
Proof.
  assert (Hfmt : forall x, py_float_format x "" = Ok (py_float_repr x))
    by reflexivity.
  assert (Hlen : Vector.__len__ (__init__ Vector_t [0; 1; 2]%float) <> 1)
    by (vm_compute; discriminate).
  split; [exact Hfmt|]. split; [exact Hlen|].
  exact (proj1 (@Vector_str_format reference_builtins
                  (__init__ Vector_t [0; 1; 2]%float) Hfmt) Hlen).
Defined.

(** ** The magnitude on special values *)

Lemma is_infinity_spec (x : float) :
  PrimFloat.is_infinity x = true <-> exists s, Prim2SF x = S754_infinity s.
Proof.
  unfold PrimFloat.is_infinity.
  rewrite FloatAxioms.eqb_spec, FloatAxioms.abs_spec.
  change (Prim2SF infinity) with (S754_infinity false).
  destruct (Prim2SF x) as [s|s| |s m e]; cbn; split; intros Hx;
    try discriminate Hx; eauto; destruct Hx as [s' Hx]; discriminate Hx.
Qed.

Lemma abs_infinity (x : float) :
  PrimFloat.is_infinity x = true -> PrimFloat.abs x = infinity.
Proof.
  intros Hx. apply is_infinity_spec in Hx as [s Hs]. apply Prim2SF_inj.
  rewrite FloatAxioms.abs_spec, Hs. reflexivity.
Qed.

Lemma abs_abs (x : float) : PrimFloat.abs (PrimFloat.abs x) = PrimFloat.abs x.
Proof.
  apply Prim2SF_inj. rewrite !FloatAxioms.abs_spec.
  destruct (Prim2SF x); reflexivity.
Qed.

Lemma ltb_infinity_l (x : float) : PrimFloat.ltb infinity x = false.
Proof.
  rewrite FloatAxioms.ltb_spec. change (Prim2SF infinity) with (S754_infinity false).
  destruct (Prim2SF x) as [s|s| |s m e]; try destruct s; reflexivity.
Qed.

Lemma ltb_infinity_r (max : float) :
  PrimFloat.is_nan max = false -> PrimFloat.ltb max infinity = false ->
  max = infinity.
Proof.
  intros Hnan Hlt.
  assert (Hn : classify max <> Fnan).
  { intros E. apply is_nan_class in E. congruence. }
  rewrite FloatAxioms.ltb_spec in Hlt.
  change (Prim2SF infinity) with (S754_infinity false) in Hlt.
  apply Prim2SF_inj. change (Prim2SF infinity) with (S754_infinity false).
  unfold classify in Hn.
  destruct (Prim2SF max) as [s|s| |s m e]; try destruct s;
    try discriminate Hlt; try reflexivity. now destruct Hn.
Qed.

Lemma ltb_not_nan (a b : float) :
  PrimFloat.ltb a b = true -> PrimFloat.is_nan b = false.
Proof.
  intros Hlt. destruct (PrimFloat.is_nan b) eqn:E; [|reflexivity].
  apply is_nan_class in E. unfold classify in E.
  rewrite FloatAxioms.ltb_spec in Hlt.
  destruct (Prim2SF b) as [s|s| |s m e]; try destruct s; try discriminate E.
  destruct (Prim2SF a) as [s|s| |s m e]; discriminate Hlt.
Qed.

(** Once a magnitude is infinite the largest is infinite. *)
Lemma largest_infinity (vec : list float) :
  forall max, PrimFloat.is_nan max = false ->
              max = infinity \/ In infinity vec ->
              largest vec max = infinity.
Proof.
  induction vec as [|a vec IH]; intros max Hmax Hinf.
  - destruct Hinf as [->|[]]. reflexivity.
  - change (largest (a :: vec) max)
      with (largest vec (if PrimFloat.ltb max a then a else max)).
    destruct (PrimFloat.ltb max a) eqn:E.
    + apply IH; [eapply ltb_not_nan; eauto|].
      destruct Hinf as [->|[->|Hin]]; auto.
      rewrite ltb_infinity_l in E. discriminate.
    + apply IH; [exact Hmax|].
      destruct Hinf as [->|[->|Hin]]; auto.
      left. now apply ltb_infinity_r.
Qed.

Lemma largest_not_infinity (vec : list float) :
  Forall (fun a => PrimFloat.is_infinity a = false) vec ->
  forall max, PrimFloat.is_infinity max = false ->
              PrimFloat.is_infinity (largest vec max) = false.
Proof.
  induction 1 as [|a vec Ha _ IH]; intros max Hmax; [exact Hmax|].
  change (largest (a :: vec) max)
    with (largest vec (if PrimFloat.ltb max a then a else max)).
  apply IH. now destruct (PrimFloat.ltb max a).
Qed.

(** X20: [abs(v)] where no arithmetic is needed, whatever the summation of
    [math.hypot] does: the empty Vector has magnitude [0.0]; a Vector of
    one component has the absolute value of the component, exactly; an
    infinite component makes the magnitude infinite, also beside a NaN;
    a NaN beside finite components makes it a NaN.  In the last two cases
    the Vector is truthy. *)
Theorem Vector_abs_special `{Builtins} (self : instance) :
  let cs := _components self in
  (cs = [] -> Vector.__abs__ self = 0%float) /\
  (forall x, cs = [x] -> Vector.__abs__ self = PrimFloat.abs x) /\
  (Exists (fun x => PrimFloat.is_infinity x = true) cs ->
   Vector.__abs__ self = infinity /\ Vector.__bool__ self = true) /\
  (Exists (fun x => PrimFloat.is_nan x = true) cs ->
   Forall (fun x => PrimFloat.is_infinity x = false) cs ->
   Vector.__abs__ self = nan /\ Vector.__bool__ self = true).
Proof.
  cbn zeta. unfold Vector.__bool__, Vector.__abs__, Vector.__iter__.
  split; [|split; [|split]].
  - intros ->. reflexivity.
  - intros x ->. unfold math_hypot, vector_norm. cbn [map existsb length].
    change (largest [PrimFloat.abs x] 0%float)
      with (if PrimFloat.ltb 0%float (PrimFloat.abs x)
            then PrimFloat.abs x else 0%float).
    change (Z.of_nat 1 <=? 1) with true. rewrite orb_true_r, orb_false_r.
    pose proof (abs_class x) as Hc.
    destruct (PrimFloat.ltb 0%float (PrimFloat.abs x)) eqn:Hlt.
    + apply ltb_zero_class in Hlt.
      destruct (PrimFloat.is_infinity (PrimFloat.abs x)); [reflexivity|].
      destruct (PrimFloat.is_nan (PrimFloat.abs x)) eqn:Hn; [|reflexivity].
      apply is_nan_class in Hn. congruence.
    + change (PrimFloat.is_infinity 0%float) with false. cbn match.
      destruct (PrimFloat.is_nan (PrimFloat.abs x)) eqn:Hn.
      * apply is_nan_class in Hn. unfold classify in Hn.
        apply Prim2SF_inj. change (Prim2SF nan) with S754_nan.
        destruct (Prim2SF (PrimFloat.abs x)) as [s|s| |s m e];
          try destruct s; try discriminate Hn. reflexivity.
      * assert (Hz : classify (PrimFloat.abs x) = Fzero).
        { destruct (classify (PrimFloat.abs x)) eqn:E; trivial.
          - apply is_nan_class in E. congruence.
          - apply ltb_zero_class in E. congruence.
          - destruct (classify x); discriminate Hc. }
        apply Prim2SF_inj. change (Prim2SF 0%float) with (S754_zero false).
        unfold classify in Hz. rewrite FloatAxioms.abs_spec in *.
        destruct (Prim2SF x) as [s|s| |s m e]; try destruct s;
          try discriminate Hz; reflexivity.
  - intros Hinf. apply List.Exists_exists in Hinf as (x & Hx & Hxinf).
    assert (Hnorm : math_hypot (_components self) = infinity).
    { unfold math_hypot, vector_norm.
      rewrite (largest_infinity (map PrimFloat.abs (_components self)) 0%float);
        [reflexivity | reflexivity |].
      right. rewrite <- (abs_infinity x Hxinf). now apply in_map. }
    rewrite Hnorm. split; reflexivity.
  - intros Hnan Hfin. apply List.Exists_exists in Hnan as (x & Hx & Hxnan).
    assert (Hnorm : math_hypot (_components self) = nan).
    { unfold math_hypot, vector_norm.
      rewrite (largest_not_infinity (map PrimFloat.abs (_components self)));
        [| | reflexivity].
      - assert (Hfound : existsb PrimFloat.is_nan
                           (map PrimFloat.abs (_components self)) = true).
        { apply existsb_exists. exists (PrimFloat.abs x).
          split; [now apply in_map|].
          apply is_nan_class. rewrite abs_class.
          apply is_nan_class in Hxnan. now rewrite Hxnan. }
        now rewrite Hfound.
      - apply List.Forall_forall. intros a Ha.
        apply in_map_iff in Ha as (y & <- & Hy).
        unfold PrimFloat.is_infinity. rewrite abs_abs.
        exact (proj1 (List.Forall_forall _ _) Hfin y Hy). }
    rewrite Hnorm. split; reflexivity.
Qed.

Lemma Vector_abs_special_witness :
  let self := __init__ Vector_t [nan; neg_infinity; 1]%float in
  Exists (fun x => PrimFloat.is_infinity x = true) (_components self) /\
  @Vector.__abs__ reference_builtins self = infinity /\
  @Vector.__bool__ reference_builtins self = true.
Proof.
  assert (Hinf : Exists (fun x => PrimFloat.is_infinity x = true)
                   [nan; neg_infinity; 1]%float).
  { apply Exists_cons_tl, Exists_cons_hd. reflexivity. }
  split; [exact Hinf|].
  exact (proj1 (proj2 (proj2 (@Vector_abs_special reference_builtins
                  (__init__ Vector_t [nan; neg_infinity; 1]%float)))) Hinf).
Defined.

(** ** Building a Vector from an iterable *)

Lemma consume_float_args (xs : list float) :
  consume (map float_arg (map PyFloat xs)) = Ok xs.
Proof. apply consume_oks. reflexivity. Qed.

Lemma consume_raise_first {A} (gen : list (outcome A)) (e : exn) :
  forall done : list A,
    consume (map Ok done ++ Raise e :: gen) = Raise e.
Proof.
  induction done as [|x done IH]; [reflexivity|].
  cbn. now rewrite IH.
Qed.

(** X21: The constructor [cls(components)] on what it is given in the
    notebook.  Given a Vector of any of the classes it copies the
    components into an instance of [cls], with no other attribute; given
    a list, a tuple or an array of floats it takes them as they are;
    a [str] is refused with a [TypeError], and so is an iterable as soon
    as an item is not a number, whatever follows it. *)
Theorem Vector_new (cls : vclass) :
  (forall v : instance,
     new cls (as_object v) = Ok (__init__ cls (_components v))) /\
  (forall xs,
     new cls (PyList (map PyFloat xs)) = Ok (__init__ cls xs) /\
     new cls (PyTuple (map PyFloat xs)) = Ok (__init__ cls xs) /\
     new cls (PyArray xs) = Ok (__init__ cls xs)) /\
  (forall s, new cls (PyStr s) = Raise TypeError) /\
  (forall xs o rest,
     float_arg o = Raise TypeError ->
     new cls (PyList (map PyFloat xs ++ o :: rest)) = Raise TypeError).
Proof.
  unfold new, array_d, unpack_floats, as_object. cbn [py_iter bind].
  repeat split; intros; try now rewrite consume_float_args.
  rewrite map_app. cbn [map]. rewrite H.
  assert (Hoks : map float_arg (map PyFloat xs) = map Ok xs).
  { rewrite map_map. reflexivity. }
  rewrite Hoks.
  now rewrite (consume_raise_first (map float_arg rest) TypeError xs).
Qed.

Lemma Vector_new_witness :
  float_arg (PyStr "a") = Raise TypeError /\
  new Vector_t (PyList (map PyFloat [1%float] ++ PyStr "a" :: [PyInt 2]))
  = Raise TypeError.
Proof.
  split; [reflexivity|].
  exact (proj2 (proj2 (proj2 (Vector_new Vector_t)))
           [1%float] (PyStr "a") [PyInt 2] eq_refl).
Defined.

(** ** [slice.indices] *)

(** X22: [slice(start, stop, step).indices(len)] for a step that is not zero:
    with a positive step both bounds lie in [0, len]; with a negative step
    they lie in [-1, len - 1], and the stop is [-1], not a valid index,
    when the slice runs down to the first item; in both cases every index
    that [range(start, stop, step)] visits is an index of the sequence,
    which is why slicing the array never raises [IndexError]. *)
Theorem slice_indices_normalized (start stop : option Z) (step len : Z) :
  step <> 0 -> 0 <= len ->
  let i := (slice_indices start stop step len).1 in
  let j := (slice_indices start stop step len).2 in
  (0 < step -> 0 <= i <= len /\ 0 <= j <= len) /\
  (step < 0 -> -1 <= i <= len - 1 /\ -1 <= j <= len - 1) /\
  (step < 0 -> stop = None -> j = -1) /\
  (forall p, 0 <= p < slice_length i j step -> 0 <= i + p * step < len).
Proof.
  intros Hstep Hlen i j.
  pose proof (slice_indices_bounds start stop step len Hlen) as Hb.
  cbn zeta in Hb. fold i j in Hb.
  split; [|split; [|split]].
  - intros Hpos. destruct (Z.ltb_spec step 0); [lia | exact Hb].
  - intros Hneg. destruct (Z.ltb_spec step 0); [exact Hb | lia].
  - intros Hneg ->. unfold j, slice_indices. cbn [snd].
    destruct (Z.ltb_spec step 0); [reflexivity | lia].
  - apply slice_indices_in_range; assumption.
Qed.

Lemma slice_indices_normalized_witness :
  2 <> 0 /\ 0 <= 5 /\
  let i := (slice_indices None (Some 10) 2 5).1 in
  let j := (slice_indices None (Some 10) 2 5).2 in
  (i, j) = (0, 5) /\
  (0 < 2 -> 0 <= i <= 5 /\ 0 <= j <= 5).
Proof.
  split; [discriminate|]. split; [lia|]. split; [reflexivity|].
  apply (proj1 (slice_indices_normalized None (Some 10) 2 5
                  ltac:(discriminate) ltac:(lia))).
Defined.

(** ** The outputs the notebook records *)

(** [Vector2(range(7))] and [vector3(range(5))], the ranges given as the
    lists of their items. *)
Example notebook_getitem :
  let v := new Vector2_t (PyList (map PyInt (py_range 0 7))) in
  exists self,
    v = Ok self /\
    Vector.__getitem__ self (PyInt (-1)) = Ok (PyFloat 6) /\
    Vector.__getitem__ self (PySlice (PyInt 1) (PyInt 4) PyNone)
    = Ok (PyVector Vector2_t [1; 2; 3]%float) /\
    Vector.__getitem__ self (PySlice (PyInt (-1)) PyNone PyNone)
    = Ok (PyVector Vector2_t [6%float]) /\
    Vector.__getitem__ self (PyTuple [PyInt 1; PyInt 2]) = Raise TypeError /\
    @Vector.__repr__ reference_builtins (__init__ Vector2_t [1; 2; 3]%float)
    = "Vector([1.0, 2.0, 3.0])".
Proof. eexists. repeat split; vm_compute; reflexivity. Qed.

Example notebook_getattr :
  let v := new vector3_t (PyList (map PyInt (py_range 0 5))) in
  exists v3,
    v = Ok v3 /\
    py_getattr v3 "x" = ([], Ok (PyFloat 0)) /\
    let v3' := (py_setattr "x" (PyInt 10) v3).2 in
    py_getattr v3' "x" = ([], Ok (PyInt 10)) /\
    @Vector.__repr__ reference_builtins v3' = "Vector([0.0, 1.0, 2.0, 3.0, 4.0])" /\
    __dict__ v3' = {[ "x" := PyInt 10 ]}.
Proof. eexists. repeat split; vm_compute; reflexivity. Qed.

Example notebook_slice_indices :
  slice_indices None (Some 10) 2 5 = (0, 5) /\
  slice_indices (Some (-3)) None 1 5 = (2, 5).
Proof. split; reflexivity. Qed.
